(** * ceph_key: a shallow embedding of [library/ceph_key.py]

    The Ansible module [ceph_key] manages CephX keys: it builds [ceph auth]
    and [ceph-authtool] command lines, runs them through the Ansible module
    object and decides what to report.  This file embeds the module (and the
    helpers of [module_utils/ca_common.py] it imports) as Rocq functions and
    states the properties of the specification over them.

    Conventions of the embedding:
    - a Python [str] is a [string] (a sequence of 8-bit characters), Python
      [bytes] is a [list byte];
    - a Python [dict] is an association list in insertion order, because
      [generate_caps] iterates over it; equality of dicts ([==]) is the
      order-insensitive [Dict.eqb];
    - [None] is [None]: optional module parameters are [option]s and a
      command-line element is an [arg]: a string, bytes or [ANone];
    - everything that leaves the process (running a command, the file
      system, the clock, the random source, the environment, the JSON
      decoder) is a field of the class [System];
    - [module.exit_json], [module.fail_json] and Python exceptions end the
      run: they are the constructors of [exit]. *)

From Stdlib Require Import ZArith NArith List String Ascii Bool Lia.
From Stdlib Require Import Strings.Byte DecimalString.
From Stdlib Require Import Permutation Sorted.
Import ListNotations.

Local Open Scope string_scope.
Local Open Scope list_scope.

Infix "^^" := String.append (at level 60, right associativity).

(** ** Python strings *)

Module PyStr.

(** [c.lower()] on one 8-bit character: 'A'..'Z' move to 'a'..'z'.  No
    character outside 'A'..'Z' has a lower case among the letters of
    [true] and [false], so the tests of [str_to_bool] read the same on the
    bytes of a string as on its code points. *)
Definition lower_ascii (c : ascii) : ascii :=
  let n := N_of_ascii c in
  if ((65 <=? n) && (n <=? 90))%N then ascii_of_N (n + 32) else c.

(** [s.lower()] *)
Fixpoint lower (s : string) : string :=
  match s with
  | EmptyString => EmptyString
  | String c r => String (lower_ascii c) (lower r)
  end.

(** [sub in s] for two strings. *)
Fixpoint contains (sub s : string) : bool :=
  String.prefix sub s ||
  match s with
  | EmptyString => false
  | String _ r => contains sub r
  end.

(** [s.startswith(p)] *)
Definition startswith (p s : string) : bool := String.prefix p s.

Fixpoint rev_string (s acc : string) : string :=
  match s with
  | EmptyString => acc
  | String c r => rev_string r (String c acc)
  end.

(** [s.endswith("/")] *)
Fixpoint ends_with_char (c : ascii) (s : string) : bool :=
  match s with
  | EmptyString => false
  | String d EmptyString => Ascii.eqb c d
  | String _ r => ends_with_char c r
  end.

(** [s.rstrip("\r\n")]: drop the trailing carriage returns and line
    feeds. *)
Definition is_crlf (c : ascii) : bool :=
  Ascii.eqb c "010"%char || Ascii.eqb c "013"%char.

Fixpoint rstrip_crlf (s : string) : string :=
  match s with
  | EmptyString => EmptyString
  | String c r =>
      match rstrip_crlf r with
      | EmptyString => if is_crlf c then EmptyString else String c EmptyString
      | r' => String c r'
      end
  end.

(** [s.split(sep)] for a one-character separator. *)
Fixpoint split_aux (sep : ascii) (s cur : string) : list string :=
  match s with
  | EmptyString => [rev_string cur EmptyString]
  | String c r =>
      if Ascii.eqb c sep then rev_string cur EmptyString :: split_aux sep r EmptyString
      else split_aux sep r (String c cur)
  end.

Definition split (sep : ascii) (s : string) : list string :=
  split_aux sep s EmptyString.

(** [s.split(sep, 1)[0]]: the part before the first separator. *)
Fixpoint before_first (sep : ascii) (s : string) : string :=
  match s with
  | EmptyString => EmptyString
  | String c r => if Ascii.eqb c sep then EmptyString else String c (before_first sep r)
  end.

(** [sep.join(l)] *)
Definition join (sep : string) (l : list string) : string := String.concat sep l.

(** [x in l] for a list of strings. *)
Definition mem (x : string) (l : list string) : bool :=
  existsb (String.eqb x) l.

(** [posixpath.join(a, b)] *)
Definition path_join (a b : string) : string :=
  if startswith "/" b then b
  else if (String.length a =? 0)%nat || ends_with_char "/"%char a then a ^^ b
  else a ^^ "/" ^^ b.

End PyStr.

(** ** Python dictionaries, in insertion order *)

Definition dict (V : Type) := list (string * V).

Module Dict.
Section Ops.
Context {V : Type}.

(** [d.get(k)] *)
Fixpoint lookup (k : string) (d : dict V) : option V :=
  match d with
  | [] => None
  | (k', v) :: r => if String.eqb k k' then Some v else lookup k r
  end.

Definition keys (d : dict V) : list string := map fst d.

(** The invariant of a dict: a key occurs once. *)
Definition wf (d : dict V) : Prop := NoDup (keys d).

(** [d1 == d2]: same size, and every item of [d1] is an item of [d2]. *)
Definition eqb (veqb : V -> V -> bool) (d1 d2 : dict V) : bool :=
  (List.length d1 =? List.length d2)%nat &&
  forallb (fun kv => match lookup (fst kv) d2 with
                     | Some v => veqb (snd kv) v
                     | None => false
                     end) d1.

End Ops.
End Dict.

(** ** Values that cross the module's boundary *)

(** An element of a command line.  Most are [str]; [generate_secret] hands
    out [bytes]; an option that was not given, or an unset environment
    variable, is [None]. *)
Inductive arg : Type :=
| A (s : string)
| ABytes (b : list byte)
| ANone.

Coercion A : string >-> arg.

Definition arg_of_option (o : option string) : arg :=
  match o with
  | Some s => A s
  | None => ANone
  end.

Definition command := list arg.

(** What [json.loads] returns.  Numbers are integers here: the module
    never computes with a number of a registry answer. *)
#[warnings="-register-all"]
Inductive json : Type :=
| JNull
| JBool (b : bool)
| JNum (z : Z)
| JStr (s : string)
| JArr (l : list json)
| JObj (o : list (string * json)).

(** The local variable [cmd] of [run_module]: the last command run, or the
    empty string of the [generate_secret] state. *)
Inductive cmdval : Type :=
| CmdList (c : command)
| CmdStr (s : string).

(** The [result] dictionary handed to [exit_json] and [fail_json].  The
    entries [start], [end] and [delta] (wall-clock times) are left out;
    [r_sdterr] is the entry that line 640 adds under the key ['sdterr']. *)
Record result : Type := mkResult {
  r_cmd : option cmdval;
  r_rc : Z;
  r_stdout : string;
  r_stderr : string;
  r_changed : bool;
  r_sdterr : option string
}.

Inductive pyexc : Type :=
| ValueError (msg : string)
| TypeError (msg : string)
| AttributeError (msg : string)
| KeyError (key : string)
| IndexError (msg : string)
| UnboundLocalError (var : string)
| StructError (msg : string)
| OutOfModel (msg : string).

(** The ways a run ends: [module.exit_json] on the result dictionary,
    [module.fail_json] with a message and the result dictionary,
    [fatal(msg, module)], which is [module.fail_json(msg=msg, rc=1)], or an
    exception nobody catches. *)
Inductive exit : Type :=
| ExitJson (r : result)
| FailJson (msg : string) (r : result)
| Fatal (msg : string)
| Raised (e : pyexc).

(** A computation that returns or ends the run. *)
Inductive outcome (T : Type) : Type :=
| Ret (a : T)
| Exit (e : exit).
Arguments Ret {T} a.
Arguments Exit {T} e.

Definition raise {T} (e : pyexc) : outcome T := Exit (Raised e).

(** [fatal(message, module)]  (ca_common.py, lines 95-103); [module] is the
    AnsibleModule object, which is true. *)
Definition fatal {T} (message : string) : outcome T := Exit (Fatal message).

Definition obind {T U} (m : outcome T) (k : T -> outcome U) : outcome U :=
  match m with
  | Ret a => k a
  | Exit e => Exit e
  end.

(** ** str_to_bool  (ceph_key.py, lines 209-219) *)

(** The values [str_to_bool] is called on: a string, or a value without a
    [lower] method, which goes through [str(val)]. *)
Inductive pyval : Type :=
| VStr (s : string)
| VBool (b : bool)
| VInt (z : Z)
| VNone.

(** [str(val)] *)
Definition py_str (v : pyval) : string :=
  match v with
  | VStr s => s
  | VBool true => "True"
  | VBool false => "False"
  | VInt z => NilZero.string_of_int (Z.to_int z)
  | VNone => "None"
  end.

Definition str_to_bool (val : pyval) : outcome bool :=
  let val :=
    match val with
    | VStr s => PyStr.lower s                 (* val.lower() *)
    | _ => PyStr.lower (py_str val)           (* except AttributeError *)
    end in
  if String.eqb val "true" then Ret true
  else if String.eqb val "false" then Ret false
  else raise (ValueError ("Invalid input value: " ^^ val)).

(** ** base64.b64encode and struct.pack *)

Module Base64.

Definition alphabet : list byte :=
  list_byte_of_string
    "ABCDEFGHIJKLMNOPQRSTUVWXYZabcdefghijklmnopqrstuvwxyz0123456789+/".

Definition pad : byte := "="%byte.

(** The character of a 6-bit value. *)
Definition sextet (n : N) : byte := nth (N.to_nat n) alphabet pad.

Fixpoint b64encode (bs : list byte) : list byte :=
  match bs with
  | [] => []
  | [a] =>
      let x := Byte.to_N a in
      [sextet (x / 4); sextet ((x mod 4) * 16); pad; pad]
  | [a; b] =>
      let x := Byte.to_N a in
      let y := Byte.to_N b in
      [sextet (x / 4); sextet ((x mod 4) * 16 + y / 16);
       sextet ((y mod 16) * 4); pad]
  | a :: b :: c :: rest =>
      let x := Byte.to_N a in
      let y := Byte.to_N b in
      let z := Byte.to_N c in
      sextet (x / 4) :: sextet ((x mod 4) * 16 + y / 16)
        :: sextet ((y mod 16) * 4 + z / 64) :: sextet (z mod 64)
        :: b64encode rest
  end%N.

(** The decoder, to state that the encoding loses nothing. *)
Fixpoint index_of (c : byte) (l : list byte) (i : N) : option N :=
  match l with
  | [] => None
  | d :: r => if Byte.eqb c d then Some i else index_of c r (i + 1)%N
  end.

Definition value_of (c : byte) : option N := index_of c alphabet 0%N.

Definition byte3 (s1 s2 s3 s4 : N) : option (list byte) :=
  match Byte.of_N (s1 * 4 + s2 / 16), Byte.of_N ((s2 mod 16) * 16 + s3 / 4),
        Byte.of_N ((s3 mod 4) * 64 + s4) with
  | Some a, Some b, Some c => Some [a; b; c]
  | _, _, _ => None
  end%N.

Fixpoint b64decode (cs : list byte) : option (list byte) :=
  match cs with
  | [] => Some []
  | c1 :: c2 :: c3 :: c4 :: rest =>
      match value_of c1, value_of c2 with
      | Some s1, Some s2 =>
          if Byte.eqb c4 pad then
            match rest with
            | [] =>
                if Byte.eqb c3 pad then
                  option_map (firstn 1) (byte3 s1 s2 0 0)
                else
                  match value_of c3 with
                  | Some s3 => option_map (firstn 2) (byte3 s1 s2 s3 0)
                  | None => None
                  end
            | _ => None
            end
          else
            match value_of c3, value_of c4, b64decode rest with
            | Some s3, Some s4, Some tl =>
                option_map (fun h => h ++ tl) (byte3 s1 s2 s3 s4)
            | _, _, _ => None
            end
      | _, _ => None
      end
  | _ => None
  end.

End Base64.

Module Struct.

(** The format characters the module uses, in little-endian standard size:
    [h] is a signed 16-bit integer, [i] a signed 32-bit integer. *)
Inductive fmt : Type := Fh | Fi.

Definition size (f : fmt) : nat :=
  match f with
  | Fh => 2
  | Fi => 4
  end.

(** The [n] low bytes of [v], least significant first. *)
Fixpoint le_bytes (n : nat) (v : Z) : list byte :=
  match n with
  | O => []
  | S m =>
      match Byte.of_N (Z.to_N (v mod 256)) with
      | Some b => b :: le_bytes m (v / 256)
      | None => []
      end
  end%Z.

(** The unsigned value of little-endian bytes. *)
Fixpoint le_value (bs : list byte) : Z :=
  match bs with
  | [] => 0
  | b :: r => Z.of_N (Byte.to_N b) + 256 * le_value r
  end%Z.

Definition in_range (f : fmt) (v : Z) : bool :=
  let half := (2 ^ (8 * Z.of_nat (size f) - 1))%Z in
  ((- half <=? v) && (v <? half))%Z.

(** [struct.pack('<' + fmts, *vals)] *)
Fixpoint pack_le (fmts : list fmt) (vals : list Z) : outcome (list byte) :=
  match fmts, vals with
  | [], [] => Ret []
  | f :: fs, v :: vs =>
      if in_range f v then
        obind (pack_le fs vs) (fun tl => Ret (le_bytes (size f) v ++ tl))
      else raise (StructError "argument out of range")
  | _, _ => raise (StructError "pack expected a different number of items")
  end.

End Struct.

(** ** The world outside the module *)

(** The collaborators of the module.  [run_command] is
    [module.run_command]: it returns [(rc, out, err)].  [isdir] and [isfile]
    are [os.path.isdir] and [os.path.isfile]; [time_time] is
    [int(time.time())]; [os_urandom n] returns [n] bytes; [getenv] reads the
    process environment; [json_loads] is [json.loads], [None] standing for
    its [ValueError]; [set_fs_attributes_if_different] is the method of the
    module object, applied to the path in [file_args]. *)
Class System : Type := {
  World : Type;
  run_command : command -> World -> (Z * string * string) * World;
  isdir : string -> World -> bool;
  isfile : string -> World -> bool;
  set_fs_attributes_if_different : string -> World -> World;
  time_time : World -> Z;
  os_urandom : nat -> World -> list byte * World;
  os_urandom_length : forall n w, List.length (fst (os_urandom n w)) = n;
  getenv : string -> option string;
  gethostname : string;
  json_loads : string -> option json
}.

Section Run.

Context {Sys : System}.

(** The state a run threads: the world, and the commands run so far, oldest
    first. *)
Record state : Type := mkState {
  world : World;
  trace : list command
}.

Definition M (T : Type) : Type := state -> outcome T * state.

Definition ret {T} (a : T) : M T := fun s => (Ret a, s).

Definition bind {T U} (m : M T) (k : T -> M U) : M U :=
  fun s =>
    match m s with
    | (Ret a, s') => k a s'
    | (Exit e, s') => (Exit e, s')
    end.

Definition lift {T} (o : outcome T) : M T := fun s => (o, s).

Definition stop {T} (e : exit) : M T := lift (Exit e).

Definition read {T} (f : World -> T) : M T := fun s => (Ret (f (world s)), s).

Definition update (f : World -> World) : M unit :=
  fun s => (Ret tt, mkState (f (world s)) (trace s)).

Notation "x <- m ;; k" := (bind m (fun x => k))
  (at level 61, m at next level, right associativity).
Notation "' pat <- m ;; k" :=
  (bind m (fun x => match x with pat => k end))
  (at level 61, pat pattern, m at next level, right associativity).
Notation "m ;;; k" := (bind m (fun _ => k))
  (at level 61, right associativity).

(** [module.run_command(cmd)], recorded in the trace. *)
Definition run (cmd : command) : M (Z * string * string) :=
  fun s =>
    let '(r, w) := run_command cmd (world s) in
    (Ret r, mkState w (trace s ++ [cmd])).

(** ** ca_common.py *)

(** [container_exec(binary, container_image)]  (ca_common.py, lines 32-49),
    with [interactive=False]. *)
Definition container_exec (binary container_image : string) : command :=
  let container_binary := arg_of_option (getenv "CEPH_CONTAINER_BINARY") in
  let command_exec := [container_binary; A "run"] in
  command_exec ++
    [A "--rm"; A "--net=host";
     A "-v"; A "/etc/ceph:/etc/ceph:z";
     A "-v"; A "/var/lib/ceph/:/var/lib/ceph/:z";
     A "-v"; A "/var/log/ceph/:/var/log/ceph/:z";
     A ("--entrypoint=" ^^ binary); A container_image].

(** [is_containerized()]  (ca_common.py, lines 52-62) *)
Definition is_containerized : option string := getenv "CEPH_CONTAINER_IMAGE".

(** [if container_image:] holds for a string that is not empty. *)
Definition truthy_str (o : option string) : bool :=
  match o with
  | Some s => negb (String.length s =? 0)%nat
  | None => false
  end.

(** ** ceph_key.py *)

Definition CEPH_INITIAL_KEYS : list string :=
  ["client.admin"; "client.bootstrap-mds"; "client.bootstrap-mgr";
   "client.bootstrap-osd"; "client.bootstrap-rbd";
   "client.bootstrap-rbd-mirror"; "client.bootstrap-rgw"].

(** [generate_secret()]  (lines 222-231) *)
Definition generate_secret : M (list byte) :=
  fun s =>
    let '(key, w) := os_urandom 16 (world s) in
    let s' := mkState w (trace s) in
    match Struct.pack_le [Struct.Fh; Struct.Fi; Struct.Fi; Struct.Fh]
            [1%Z; time_time w; 0%Z; Z.of_nat (List.length key)] with
    | Ret header => (Ret (Base64.b64encode (header ++ key)), s')
    | Exit e => (Exit e, s')
    end.

(** The loop of [generate_caps] over [caps.items()]. *)
Fixpoint generate_caps_loop (_type : option string) (items : list (string * string))
    (caps_cli : command) : command :=
  match items with
  | [] => caps_cli
  | (k, v) :: rest =>
      if (String.length k =? 0)%nat then generate_caps_loop _type rest caps_cli
      else
        let caps_cli :=
          match _type with
          | Some t => if String.eqb t "ceph-authtool" then caps_cli ++ [A "--cap"]
                      else caps_cli
          | None => caps_cli
          end in
        generate_caps_loop _type rest (caps_cli ++ [A k; A v])
  end.

(** [generate_caps(_type, caps)]  (lines 234-250).  [caps] is [None] when
    the option was not given: [None.items()] raises. *)
Definition generate_caps (_type : option string) (caps : option (dict string))
    : outcome command :=
  match caps with
  | None => raise (AttributeError "'NoneType' object has no attribute 'items'")
  | Some d => Ret (generate_caps_loop _type d [])
  end.

(** [generate_cmd(cluster, args, user, user_key_path, container_image)]
    (lines 253-278) *)
Definition generate_cmd (cluster : string) (args : command) (user user_key_path : string)
    (container_image : option string) : command :=
  let cmd :=
    match container_image with
    | Some image => if truthy_str container_image then container_exec "ceph" image
                    else [A "ceph"]
    | None => [A "ceph"]
    end in
  let base_cmd :=
    [A "-n"; A user; A "-k"; A user_key_path; A "--cluster"; A cluster; A "auth"] in
  cmd ++ (base_cmd ++ args).

(** [generate_ceph_authtool_cmd(cluster, name, secret, caps, dest,
    container_image)]  (lines 281-306) *)
Definition generate_ceph_authtool_cmd (cluster : string) (name secret : arg)
    (caps : option (dict string)) (dest : string) (container_image : option string)
    : outcome command :=
  let cmd :=
    match container_image with
    | Some image => if truthy_str container_image then container_exec "ceph-authtool" image
                    else [A "ceph-authtool"]
    | None => [A "ceph-authtool"]
    end in
  let base_cmd :=
    [A "--create-keyring"; A dest; A "--name"; name; A "--add-key"; secret] in
  obind (generate_caps (Some "ceph-authtool") caps) (fun caps_cli =>
  Ret ((cmd ++ base_cmd) ++ caps_cli)).

(** [create_key(module, result, cluster, user, user_key_path, name, secret,
    caps, import_key, dest, container_image)]  (lines 309-332) *)
Definition create_key (cluster user user_key_path : string) (name : option string)
    (secret : option string) (caps : option (dict string)) (import_key : bool)
    (dest : string) (container_image : option string) : M (list command) :=
  secret <- (if truthy_str secret then ret (arg_of_option secret)
             else (b <- generate_secret ;; ret (ABytes b))) ;;
  args <- (if String.eqb user "client.admin" then
             ret [A "import"; A "-i"; A dest]
           else
             caps_cli <- lift (generate_caps None caps) ;;
             ret (([A "get-or-create"; arg_of_option name] ++ caps_cli)
                    ++ [A "-o"; A dest])) ;;
  authtool <- lift (generate_ceph_authtool_cmd cluster (arg_of_option name)
                      secret caps dest container_image) ;;
  let cmd_list := [authtool] in
  if import_key || negb (String.eqb user "client.admin") then
    ret (cmd_list ++ [generate_cmd cluster args user user_key_path container_image])
  else ret cmd_list.

(** [delete_key]  (lines 335-350) *)
Definition delete_key (cluster user user_key_path : string) (name : option string)
    (container_image : option string) : list command :=
  let args := [A "del"; arg_of_option name] in
  [generate_cmd cluster args user user_key_path container_image].

(** [get_key]  (lines 353-370) *)
Definition get_key (cluster user user_key_path : string) (name : option string)
    (dest : string) (container_image : option string) : list command :=
  let args := [A "get"; arg_of_option name; A "-o"; A dest] in
  [generate_cmd cluster args user user_key_path container_image].

(** [info_key]  (lines 373-390) *)
Definition info_key (cluster : string) (name : option string) (user user_key_path : string)
    (output_format : string) (container_image : option string) : list command :=
  let args := [A "get"; arg_of_option name; A "-f"; A output_format] in
  [generate_cmd cluster args user user_key_path container_image].

(** [list_keys]  (lines 393-409) *)
Definition list_keys (cluster user user_key_path : string)
    (container_image : option string) : list command :=
  let args := [A "ls"; A "-f"; A "json"] in
  [generate_cmd cluster args user user_key_path container_image].

(** The loop of [exec_commands]; [last] is the value of the local variables
    [rc, cmd, out, err], unbound before the first command. *)
Fixpoint exec_commands_loop (cmd_list : list command)
    (last : option (Z * command * string * string))
    : M (Z * command * string * string) :=
  match cmd_list with
  | [] =>
      match last with
      | Some r => ret r
      | None => stop (Raised (UnboundLocalError "rc"))
      end
  | cmd :: rest =>
      '(rc, out, err) <- run cmd ;;
      if (rc =? 0)%Z then exec_commands_loop rest (Some (rc, cmd, out, err))
      else ret (rc, cmd, out, err)
  end.

(** [exec_commands(module, cmd_list)]  (lines 412-422) *)
Definition exec_commands (cmd_list : list command) : M (Z * command * string * string) :=
  exec_commands_loop cmd_list None.

(** *** lookup_ceph_initial_entities  (lines 425-454) *)

(** [k in j] *)
Definition json_contains (k : string) (j : json) : outcome bool :=
  match j with
  | JObj o => Ret (existsb (fun kv => String.eqb k (fst kv)) o)
  | JArr l => Ret (existsb (fun x => match x with
                                     | JStr s => String.eqb k s
                                     | _ => false
                                     end) l)
  | JStr s => Ret (PyStr.contains k s)
  | _ => raise (TypeError "argument is not iterable")
  end.

(** [j[k]] for a string [k] *)
Definition json_getitem (k : string) (j : json) : outcome json :=
  match j with
  | JObj o =>
      match Dict.lookup k o with
      | Some v => Ret v
      | None => raise (KeyError k)
      end
  | JArr _ => raise (TypeError "list indices must be integers or slices, not str")
  | JStr _ => raise (TypeError "string indices must be integers")
  | _ => raise (TypeError "object is not subscriptable")
  end.

(** [for key in j]: the elements of a list, the keys of a dict, the
    characters of a string. *)
Definition json_iter (j : json) : outcome (list json) :=
  match j with
  | JArr l => Ret l
  | JObj o => Ret (map (fun kv => JStr (fst kv)) o)
  | JStr s => Ret (map (fun c => JStr (String c EmptyString)) (list_ascii_of_string s))
  | _ => raise (TypeError "object is not iterable")
  end.

(** [for k, v in key.items()]: the inner loop of lines 439-442. *)
Fixpoint lookup_items (items : list (string * json)) (entities : list string)
    : list string :=
  match items with
  | [] => entities
  | (k, v) :: rest =>
      let entities :=
        if String.eqb k "entity" then
          match v with
          | JStr e => if PyStr.mem e CEPH_INITIAL_KEYS then entities ++ [e] else entities
          | _ => entities
          end
        else entities in
      lookup_items rest entities
  end.

(** [for key in out_dict["auth_dump"]]: the outer loop. *)
Fixpoint lookup_records (records : list json) (entities : list string)
    : outcome (list string) :=
  match records with
  | [] => Ret entities
  | JObj items :: rest => lookup_records rest (lookup_items items entities)
  | _ :: _ => raise (AttributeError "object has no attribute 'items'")
  end.

(** [os.environ.get('CEPH_ROLLING_UPDATE', False)] *)
Definition rolling_update_env : pyval :=
  match getenv "CEPH_ROLLING_UPDATE" with
  | Some s => VStr s
  | None => VBool false
  end.

(** Lines 446-454, on the list [entities] built above. *)
Definition check_initial_entities (entities : list string) : outcome (list string) :=
  obind (if negb (List.length entities =? List.length CEPH_INITIAL_KEYS)%nat
         then obind (str_to_bool rolling_update_env) (fun b => Ret (negb b))
         else Ret false) (fun incomplete =>
  if (incomplete : bool) then
    let missing := filter (fun e => negb (PyStr.mem e entities)) CEPH_INITIAL_KEYS in
    fatal ("initial keyring does not contain keys: " ^^ PyStr.join " " missing)
  else Ret entities).

(** The message of the first [fatal] ends with the text of the decoder's
    exception, which is not modelled. *)
Definition lookup_ceph_initial_entities (out : string) : outcome (list string) :=
  match json_loads out with
  | None => fatal "Could not decode 'ceph auth list' json output: "
  | Some out_dict =>
      obind (json_contains "auth_dump" out_dict) (fun present =>
      if (present : bool) then
        obind (json_getitem "auth_dump" out_dict) (fun dump =>
        obind (json_iter dump) (fun records =>
        obind (lookup_records records []) check_initial_entities))
      else fatal "'auth_dump' key not present in json output:")
  end.

(** *** build_key_path  (lines 457-477) *)

(** [os.path.join(a, b, c)] *)
Definition path_join3 (a b c : string) : string :=
  PyStr.path_join (PyStr.path_join a b) c.

Definition build_key_path (cluster entity : string) : outcome (option string) :=
  if PyStr.contains "admin" entity then
    let path := "/etc/ceph" in
    let keyring_filename := cluster ^^ "." ^^ entity ^^ ".keyring" in
    Ret (Some (PyStr.path_join path keyring_filename))
  else if PyStr.contains "bootstrap" entity then
    let path := "/var/lib/ceph" in
    match nth_error (PyStr.split "."%char entity) 1 with
    | Some entity_split =>
        let keyring_filename := cluster ^^ ".keyring" in
        Ret (Some (path_join3 path entity_split keyring_filename))
    | None => raise (IndexError "list index out of range")
    end
  else Ret None.

(** *** run_module  (lines 480-695) *)

(** [module.params], and [module.check_mode].  The options have the types
    of the argument specification: [caps] is a dict, here of strings, the
    others are strings, [None] when an option without default is not
    given. *)
Record params : Type := mkParams {
  p_state : string;
  p_name : option string;
  p_cluster : string;
  p_caps : option (dict string);
  p_secret : option string;
  p_import_key : bool;
  p_dest : string;
  p_user : string;
  p_user_key : option string;
  p_output_format : string;
  p_check_mode : bool
}.

(** The local variables that the end of [run_module] reads; [None] is a
    variable that was never assigned. *)
Record locals : Type := mkLocals {
  l_rc : option Z;
  l_cmd : option cmdval;
  l_out : option string;
  l_err : option string;
  l_changed : bool
}.

Definition unbound : locals := mkLocals None None None None false.

Definition bound (r : Z * command * string * string) (changed : bool) : locals :=
  let '(rc, cmd, out, err) := r in
  mkLocals (Some rc) (Some (CmdList cmd)) (Some out) (Some err) changed.

(** The [result] dictionary of lines 517-525. *)
Definition result0 : result := mkResult None 0 "" "" false None.

Definition set_stdout (r : result) (s : string) : result :=
  mkResult (r_cmd r) (r_rc r) s (r_stderr r) (r_changed r) (r_sdterr r).

Definition set_stderr (r : result) (s : string) : result :=
  mkResult (r_cmd r) (r_rc r) (r_stdout r) s (r_changed r) (r_sdterr r).

Definition set_rc (r : result) (rc : Z) : result :=
  mkResult (r_cmd r) rc (r_stdout r) (r_stderr r) (r_changed r) (r_sdterr r).

Definition set_sdterr (r : result) (s : string) : result :=
  mkResult (r_cmd r) (r_rc r) (r_stdout r) (r_stderr r) (r_changed r) (Some s).

Definition exit_json {T} (r : result) : M T := stop (ExitJson r).

Definition fail_json {T} (msg : string) (r : result) : M T := stop (FailJson msg r).

(** [not x] for an optional string and for an optional dict: [None] and
    the empty value are false. *)
Definition falsy_dict {V} (o : option (dict V)) : bool :=
  match o with
  | Some (_ :: _) => false
  | _ => true
  end.

Definition is_none {T} (o : option T) : bool :=
  match o with
  | Some _ => false
  | None => true
  end.

(** [str.format] of a value that may be [None]. *)
Definition fmt_opt (o : option string) : string :=
  match o with
  | Some s => s
  | None => "None"
  end.

Definition fmt_bool (b : bool) : string := if b then "True" else "False".

Definition opt_eqb {T} (eqb : T -> T -> bool) (a b : option T) : bool :=
  match a, b with
  | Some x, Some y => eqb x y
  | None, None => true
  | _, _ => false
  end.

(** [secret == _secret] and [caps == _caps] *)
Definition secret_eqb : option string -> option string -> bool :=
  opt_eqb String.eqb.

Definition caps_eqb : option (dict string) -> option (dict string) -> bool :=
  opt_eqb (Dict.eqb String.eqb).

(** Lines 542-547 *)
Definition user_key_path_of (cluster user : string) (user_key : option string) : string :=
  if truthy_str user_key then fmt_opt user_key
  else
    let user_key_filename := cluster ^^ "." ^^ user ^^ ".keyring" in
    let user_key_dir := "/etc/ceph" in
    PyStr.path_join user_key_dir user_key_filename.

(** Lines 550-561: the path of the keyring file. *)
Definition file_path_of (cluster : string) (name : option string) (dest : string)
    : M string :=
  d <- read (isdir dest) ;;
  if negb d then ret dest
  else
    keyring_filename <-
      (if PyStr.contains "bootstrap" dest then ret (cluster ^^ ".keyring")
       else
         match name with
         | Some n => ret (cluster ^^ "." ^^ n ^^ ".keyring")
         | None => stop (Raised (TypeError "can only concatenate str (not NoneType) to str"))
         end) ;;
    ret (PyStr.path_join dest keyring_filename).

(** [_info_key[0][k]] *)
Definition info_field (k : string) (_info_key : json) : outcome json :=
  match _info_key with
  | JArr (x :: _) => json_getitem k x
  | JArr [] => raise (IndexError "list index out of range")
  | JObj _ => raise (KeyError "0")
  | JStr (String _ _) => raise (TypeError "string indices must be integers")
  | JStr EmptyString => raise (IndexError "string index out of range")
  | _ => raise (TypeError "object is not subscriptable")
  end.

(** The variables [secret] and [caps] have the types of the argument
    specification, [str] and a [dict] of strings.  A registry record whose
    [key] or [caps] is of another type is outside the model. *)
Definition as_secret (j : json) : outcome string :=
  match j with
  | JStr s => Ret s
  | _ => raise (OutOfModel "key is not a string")
  end.

Fixpoint as_caps_items (o : list (string * json)) : outcome (dict string) :=
  match o with
  | [] => Ret []
  | (k, JStr v) :: rest => obind (as_caps_items rest) (fun d => Ret ((k, v) :: d))
  | _ :: _ => raise (OutOfModel "a capability is not a string")
  end.

Definition as_caps (j : json) : outcome (dict string) :=
  match j with
  | JObj o => as_caps_items o
  | _ => raise (OutOfModel "caps is not a dict")
  end.

(** What lines 565-599 leave behind when they do not end the run. *)
Record desired : Type := mkDesired {
  d_secret : option string;
  d_caps : option (dict string);
  d__secret : option string;
  d__caps : option (dict string);
  d_key_exist : Z;
  d_locals : locals
}.

(** Lines 565-594: [import_key] is true.  The text of the [ValueError] of
    [json.loads] is the decoder's and is not modelled. *)
Definition present_import (p : params) (user_key_path file_path : string)
    (container_image : option string) : M desired :=
  let name := p_name p in
  let secret := p_secret p in
  let caps := p_caps p in
  r <- exec_commands (info_key (p_cluster p) name (p_user p) user_key_path
                        (p_output_format p) container_image) ;;
  let '(rc, cmd, out, err) := r in
  let key_exist := rc in
  (if falsy_dict caps && negb (key_exist =? 0)%Z
   then lift (fatal "Capabilities must be provided when state is 'present'")
   else ret tt) ;;;
  (if negb (key_exist =? 0)%Z && is_none secret && is_none caps
   then lift (fatal "Keyring doesn't exist, you must provide 'secret' and 'caps'")
   else ret tt) ;;;
  if (key_exist =? 0)%Z then
    _info_key <- match json_loads out with
                 | Some j => ret j
                 | None => stop (Raised (ValueError "No JSON object could be decoded"))
                 end ;;
    _secret <- lift (obind (info_field "key" _info_key) as_secret) ;;
    let secret := if truthy_str secret then secret else Some _secret in
    _caps <- lift (obind (info_field "caps" _info_key) as_caps) ;;
    let caps := if falsy_dict caps then Some _caps else caps in
    if secret_eqb secret (Some _secret) && caps_eqb caps (Some _caps) then
      present <- read (isfile file_path) ;;
      (if negb present then
         r <- exec_commands (get_key (p_cluster p) (p_user p) user_key_path name
                               file_path container_image) ;;
         let '(rc, cmd, out, err) := r in
         let result := set_rc result0 rc in
         if negb (rc =? 0)%Z then
           exit_json (set_stdout result
                        ("Couldn't fetch the key " ^^ fmt_opt name ^^ " at "
                           ^^ file_path ^^ "."))
         else ret tt
       else ret tt) ;;;
      let result :=
        set_rc (set_stdout result0
                  (fmt_opt name ^^ " already exists and doesn't need to be updated."))
               0 in
      update (set_fs_attributes_if_different file_path) ;;;
      exit_json result
    else
      ret (mkDesired secret caps (Some _secret) (Some _caps) key_exist (bound r false))
  else
    ret (mkDesired secret caps secret caps key_exist (bound r false)).

(** Lines 595-599: [import_key] is false.  [a and b or c] reads
    [(a and b) or c]. *)
Definition present_no_import (p : params) (file_path : string) : M desired :=
  let name := p_name p in
  let secret := p_secret p in
  let caps := p_caps p in
  present <- read (isfile file_path) ;;
  if (present && negb (truthy_str secret)) || falsy_dict caps then
    let result :=
      set_rc (set_stdout result0
                (fmt_opt name ^^ " already exists in " ^^ p_dest p
                   ^^ " you must provide secret *and* caps when import_key is "
                   ^^ fmt_bool (p_import_key p)))
             0 in
    exit_json result
  else ret (mkDesired secret caps secret caps 1 unbound).

(** Lines 549-608: the states [present] and [update]. *)
Definition state_present (p : params) (user_key_path : string)
    (container_image : option string) : M locals :=
  file_path <- file_path_of (p_cluster p) (p_name p) (p_dest p) ;;
  d <- (if p_import_key p
        then present_import p user_key_path file_path container_image
        else present_no_import p file_path) ;;
  if ((d_key_exist d =? 0)%Z
      && (negb (secret_eqb (d_secret d) (d__secret d))
          || negb (caps_eqb (d_caps d) (d__caps d))))
     || negb (d_key_exist d =? 0)%Z
  then
    cmd_list <- create_key (p_cluster p) (p_user p) user_key_path (p_name p)
                  (d_secret d) (d_caps d) (p_import_key p) file_path container_image ;;
    r <- exec_commands cmd_list ;;
    let '(rc, cmd, out, err) := r in
    if negb (rc =? 0)%Z then
      exit_json (set_stderr (set_stdout result0
                               ("Couldn't create or update " ^^ fmt_opt (p_name p)))
                            err)
    else
      update (set_fs_attributes_if_different file_path) ;;;
      ret (bound r true)
  else ret (d_locals d).

(** Lines 610-617: the state [absent], for a value of [key_exist]. *)
Definition state_absent (p : params) (key_exist : Z) (user_key_path : string)
    (container_image : option string) (l : locals) : M locals :=
  if (key_exist =? 0)%Z then
    r <- exec_commands (delete_key (p_cluster p) (p_user p) user_key_path (p_name p)
                          container_image) ;;
    let '(rc, cmd, out, err) := r in
    if (rc =? 0)%Z then ret (bound r true) else ret (bound r (l_changed l))
  else ret (mkLocals (Some 0%Z) (l_cmd l) (l_out l) (l_err l) (l_changed l)).

(** Lines 619-625: the state [info]. *)
Definition state_info (p : params) (user_key_path : string)
    (container_image : option string) : M locals :=
  r <- exec_commands (info_key (p_cluster p) (p_name p) (p_user p) user_key_path
                        (p_output_format p) container_image) ;;
  let '(rc, cmd, out, err) := r in
  if negb (rc =? 0)%Z then
    exit_json (set_rc (set_stdout result0
                         ("skipped, since " ^^ fmt_opt (p_name p) ^^ " does not exist"))
                      0)
  else ret (bound r false).

(** Lines 627-629: the state [list]. *)
Definition state_list (p : params) (user_key_path : string)
    (container_image : option string) : M locals :=
  r <- exec_commands (list_keys (p_cluster p) (p_user p) user_key_path container_image) ;;
  ret (bound r false).

(** Lines 647-670: the loop over the entities. *)
Fixpoint fetch_loop (cluster user user_key_path : string)
    (container_image : option string) (entities : list string)
    (r : Z * command * string * string) : M (Z * command * string * string) :=
  match entities with
  | [] => ret r
  | entity :: rest =>
      key_path <- lift (build_key_path cluster entity) ;;
      match key_path with
      | None => lift (fatal "Failed to build key path, no entity yet?")
      | Some key_path =>
          present <- read (isfile key_path) ;;
          if (present : bool) then fetch_loop cluster user user_key_path container_image rest r
          else
            let extra_args := [A "-o"; A key_path] in
            let info_cmd :=
              map (fun c => c ++ extra_args)
                (info_key cluster (Some entity) user user_key_path "plain"
                   container_image) in
            r <- exec_commands info_cmd ;;
            update (set_fs_attributes_if_different key_path) ;;;
            fetch_loop cluster user user_key_path container_image rest r
      end
  end.

(** Lines 631-670: the state [fetch_initial_keys]. *)
Definition state_fetch_initial_keys (p : params) (container_image : option string)
    : M locals :=
  let cluster := p_cluster p in
  let hostname := PyStr.before_first "."%char gethostname in
  let user := "mon." in
  let keyring_filename := cluster ^^ "-" ^^ hostname ^^ "/keyring" in
  let user_key_path := PyStr.path_join "/var/lib/ceph/mon/" keyring_filename in
  r <- exec_commands (list_keys cluster user user_key_path container_image) ;;
  let '(rc, cmd, out, err) := r in
  if negb (rc =? 0)%Z then
    exit_json (set_rc (set_sdterr (set_stdout result0 "failed to retrieve ceph keys") err) 0)
  else
    entities <- lift (lookup_ceph_initial_entities out) ;;
    r <- fetch_loop cluster user user_key_path container_image entities r ;;
    ret (bound r false).

(** Lines 671-676: the state [generate_secret]. *)
Definition state_generate_secret : M locals :=
  b <- generate_secret ;;
  ret (mkLocals (Some 0%Z) (Some (CmdStr "")) (Some (string_of_list_byte b)) (Some "") true).

(** Lines 678-695: build the result and leave. *)
Definition finish (l : locals) : M unit :=
  match l_cmd l, l_rc l, l_out l, l_err l with
  | None, _, _, _ => stop (Raised (UnboundLocalError "cmd"))
  | _, None, _, _ => stop (Raised (UnboundLocalError "rc"))
  | _, _, None, _ => stop (Raised (UnboundLocalError "out"))
  | _, _, _, None => stop (Raised (UnboundLocalError "err"))
  | Some cmd, Some rc, Some out, Some err =>
      let result :=
        mkResult (Some cmd) rc (PyStr.rstrip_crlf out) (PyStr.rstrip_crlf err)
          (l_changed l) None in
      if negb (rc =? 0)%Z then fail_json "non-zero return code" result
      else exit_json result
  end.

Definition run_module (p : params) : M unit :=
  let state := p_state p in
  if p_check_mode p then exit_json result0
  else
    let container_image := is_containerized in
    let key_exist := 1%Z in
    let user_key_path := user_key_path_of (p_cluster p) (p_user p) (p_user_key p) in
    l <- (if PyStr.mem state ["present"; "update"] then
            state_present p user_key_path container_image
          else if String.eqb state "absent" then
            state_absent p key_exist user_key_path container_image unbound
          else if String.eqb state "info" then
            state_info p user_key_path container_image
          else if String.eqb state "list" then
            state_list p user_key_path container_image
          else if String.eqb state "fetch_initial_keys" then
            state_fetch_initial_keys p container_image
          else if String.eqb state "generate_secret" then
            state_generate_secret
          else ret unbound) ;;
    finish l.

(** A run from a world, with an empty trace. *)
Definition execute (p : params) (w : World) : outcome unit * state :=
  run_module p (mkState w []).

End Run.

(** ** A scripted system, for running the module on concrete inputs *)

Module Test.

(** The world of the scripted system: the answers the next commands get,
    the files and directories that exist, the clock and the bytes of the
    random source. *)
Record world : Type := mkWorld {
  script : list (Z * string * string);
  files : list string;
  dirs : list string;
  now : Z;
  noise : byte
}.

Definition answer (_ : command) (w : world) : (Z * string * string) * world :=
  match script w with
  | [] => ((1%Z, "", "no answer left"), w)
  | r :: rest => (r, mkWorld rest (files w) (dirs w) (now w) (noise w))
  end.

Definition urandom (n : nat) (w : world) : list byte * world :=
  (repeat (noise w) n, w).

(** The text [INFO] stands for the JSON text of a record of [client.foo],
    [LIST5] for a listing with five of the initial entities. *)
Definition info_foo : json :=
  JArr [JObj [("entity", JStr "client.foo"); ("key", JStr "AQBsecret==");
              ("caps", JObj [("mon", JStr "allow r")])]].

Definition list5 : json :=
  JObj [("auth_dump",
         JArr [JObj [("entity", JStr "client.admin")];
               JObj [("entity", JStr "client.bootstrap-mds")];
               JObj [("entity", JStr "client.bootstrap-mgr")];
               JObj [("entity", JStr "osd.0")];
               JObj [("entity", JStr "client.bootstrap-osd")];
               JObj [("entity", JStr "client.bootstrap-rgw")]])].

Definition decode (s : string) : option json :=
  if String.eqb s "INFO" then Some info_foo
  else if String.eqb s "LIST5" then Some list5
  else None.

(** The scripted system, for an environment [env]. *)
Definition sys (env : string -> option string) : System :=
  {| World := world;
     run_command := answer;
     isdir := fun path w => PyStr.mem path (dirs w);
     isfile := fun path w => PyStr.mem path (files w);
     set_fs_attributes_if_different := fun _ w => w;
     time_time := now;
     os_urandom := urandom;
     os_urandom_length := fun n w => repeat_length (noise w) n;
     getenv := env;
     gethostname := "mon0.example.com";
     json_loads := decode |}.

Definition no_env : string -> option string := fun _ => None.

(** An environment where only [CEPH_ROLLING_UPDATE] is set. *)
Definition rolling (v : string) : string -> option string :=
  fun k => if String.eqb k "CEPH_ROLLING_UPDATE" then Some v else None.

End Test.

(** ** Reading a flattened capability list *)

(** The subsystem names of the list [generate_caps] builds for
    [ceph-authtool], in the order they appear: the element after each
    [--cap]. *)
Fixpoint cap_names (c : command) : list string :=
  match c with
  | _ :: A k :: _ :: rest => k :: cap_names rest
  | _ => []
  end.

(** A list of names is in ascending order. *)
Fixpoint sortedb (l : list string) : bool :=
  match l with
  | a :: (b :: _) as r => String.leb a b && sortedb r
  | _ => true
  end.

(** One capability, as [generate_caps] writes it. *)
Definition cap_words (_type : option string) (kv : string * string) : command :=
  match _type with
  | Some t => if String.eqb t "ceph-authtool" then [A "--cap"; A (fst kv); A (snd kv)]
              else [A (fst kv); A (snd kv)]
  | None => [A (fst kv); A (snd kv)]
  end.

Definition named (kv : string * string) : bool :=
  negb (String.length (fst kv) =? 0)%nat.

(** ** Reading a secret *)

(** A 6-bit value survives the alphabet, and its character is not the
    padding character. *)
Definition sextet_ok (n : N) : bool :=
  match Base64.value_of (Base64.sextet n) with
  | Some m => (m =? n)%N
  | None => false
  end && negb (Byte.eqb (Base64.sextet n) Base64.pad).

(** The header of a secret as [generate_secret] packs it ([<hiih]): the
    type, the seconds and the nanoseconds of the creation time, the length
    of the key. *)
Definition secret_header (seconds : Z) (len : Z) : list byte :=
  Struct.le_bytes 2 1 ++ Struct.le_bytes 4 seconds ++ Struct.le_bytes 4 0
    ++ Struct.le_bytes 2 len.

(** The header with a reserved field of 16 bits: format version int16,
    creation seconds int32, reserved int16, key length int16. *)
Definition header_reserved16 (seconds : Z) (len : Z) : list byte :=
  Struct.le_bytes 2 1 ++ Struct.le_bytes 4 seconds ++ Struct.le_bytes 2 0
    ++ Struct.le_bytes 2 len.

(** The integer stored in [len] bytes at offset [off], least significant
    byte first. *)
Definition read_le (off len : nat) (bs : list byte) : Z :=
  Struct.le_value (firstn len (skipn off bs)).

(** A world of the scripted system: nothing on disk, no answer scripted,
    the clock at 1700000000 and the random source giving the byte 0x41. *)
Definition quiet_world : Test.world := Test.mkWorld [] [] [] 1700000000 "A"%byte.

(** ** Inputs of the examples *)

(** [state: absent] for [client.foo], the other options at their
    defaults. *)
Definition absent_foo : params :=
  mkParams "absent" (Some "client.foo") "ceph" None None true "/etc/ceph/"
    "client.admin" None "json" false.

(** [state: present] for [client.foo] with capabilities and no secret,
    [import_key] false, then true without capabilities. *)
Definition present_foo_no_import : params :=
  mkParams "present" (Some "client.foo") "ceph" (Some [("mon", "allow r")]) None
    false "/etc/ceph/" "client.admin" None "json" false.

Definition present_foo : params :=
  mkParams "present" (Some "client.foo") "ceph" None None true "/etc/ceph/"
    "client.admin" None "json" false.

Definition foo_keyring : string := "/etc/ceph/ceph.client.foo.keyring".

Definition admin_keyring : string := "/etc/ceph/ceph.client.admin.keyring".

(** The command [ceph auth del client.foo] of the administrator. *)
Definition del_foo : command :=
  [A "ceph"; A "-n"; A "client.admin"; A "-k"; A admin_keyring;
   A "--cluster"; A "ceph"; A "auth"; A "del"; A "client.foo"].

(** A registry that holds [client.foo]: the next command exits with 0. *)
Definition world_accepting : Test.world :=
  Test.mkWorld [(0%Z, "", "updated")] [] ["/etc/ceph/"] 1700000000 "A"%byte.

(** A registry without [client.foo]: the next command exits with 2. *)
Definition world_refusing : Test.world :=
  Test.mkWorld [(2%Z, "", "Error ENOENT: entity client.foo does not exist")] []
    ["/etc/ceph/"] 1700000000 "A"%byte.

(** The keyring of [client.foo] is on disk, and the registry answers the
    next command with the record [INFO]. *)
Definition world_with_keyring : Test.world :=
  Test.mkWorld [(0%Z, "INFO", "")] [foo_keyring] ["/etc/ceph/"] 1700000000 "A"%byte.

(** The monitor answers the listing with [LIST5]. *)
Definition world_list5 : Test.world :=
  Test.mkWorld [(0%Z, "LIST5", "")] [] ["/etc/ceph/"] 1700000000 "A"%byte.

(** The scripted system with an empty environment, and with
    [CEPH_ROLLING_UPDATE] set to [yes]. *)
Definition quiet : System := Test.sys Test.no_env.

Definition rolling_yes : System := Test.sys (Test.rolling "yes").

(** [state: present] for [client.foo] with a secret and capabilities,
    [import_key] false, acting as [client.bootstrap-rgw]. *)
Definition present_foo_given : params :=
  mkParams "present" (Some "client.foo") "ceph" (Some [("mon", "allow r")])
    (Some "AQBsecret==") false "/etc/ceph/" "client.bootstrap-rgw"
    (Some "/var/lib/ceph/bootstrap-rgw/ceph.keyring") "json" false.

(** The five initial entities of the listing [LIST5]. *)
Definition five : list string :=
  ["client.admin"; "client.bootstrap-mds"; "client.bootstrap-mgr";
   "client.bootstrap-osd"; "client.bootstrap-rgw"].

(** [state: fetch_initial_keys], and [state: present] for [client.admin]
    with a secret and capabilities, [import_key] false. *)
Definition fetch_initial : params :=
  mkParams "fetch_initial_keys" None "ceph" None None true "/etc/ceph/"
    "client.admin" None "json" false.

Definition present_admin_no_import : params :=
  mkParams "present" (Some "client.admin") "ceph" (Some [("mon", "allow *")])
    (Some "AQBsecret==") false "/etc/ceph/" "client.admin" None "json" false.

(** ** ca_common.py, the general builders *)

Module CaCommon.
Section Defs.
Context {Sys : System}.

(** [container_exec(binary, container_image, interactive)]
    (ca_common.py, lines 32-49) *)
Definition container_exec (binary container_image : string) (interactive : bool)
    : command :=
  let container_binary := arg_of_option (getenv "CEPH_CONTAINER_BINARY") in
  let command_exec := [container_binary; A "run"] in
  let command_exec :=
    if interactive then command_exec ++ [A "--interactive"] else command_exec in
  command_exec ++
    [A "--rm"; A "--net=host";
     A "-v"; A "/etc/ceph:/etc/ceph:z";
     A "-v"; A "/var/lib/ceph/:/var/lib/ceph/:z";
     A "-v"; A "/var/log/ceph/:/var/log/ceph/:z";
     A ("--entrypoint=" ^^ binary); A container_image].

(** [generate_cmd(sub_cmd, args, binary, user_key, cluster, user,
    container_image, interactive)]  (ca_common.py, lines 5-29) *)
Definition generate_cmd (sub_cmd args : command) (binary : string)
    (user_key : option string) (cluster user : string)
    (container_image : option string) (interactive : bool) : command :=
  let user_key :=
    if truthy_str user_key then fmt_opt user_key
    else "/etc/ceph/" ^^ cluster ^^ "." ^^ user ^^ ".keyring" in
  let cmd :=
    match container_image with
    | Some image =>
        if truthy_str container_image then container_exec binary image interactive
        else [A binary]
    | None => [A binary]
    end in
  let base_cmd := [A "-n"; A user; A "-k"; A user_key; A "--cluster"; A cluster] in
  let base_cmd := base_cmd ++ sub_cmd in
  cmd ++ (base_cmd ++ args).

End Defs.
End CaCommon.

(** ** Names for parts of a run *)

(** A byte that [rstrip] keeps. *)
Definition not_crlf (b : byte) : bool := negb (PyStr.is_crlf (ascii_of_byte b)).

(** Lines 632-635: the keyring of the monitor, and the listing it runs. *)
Definition mon_key_path {Sys : System} (cluster : string) : string :=
  PyStr.path_join "/var/lib/ceph/mon/"
    (cluster ^^ "-" ^^ PyStr.before_first "."%char gethostname ^^ "/keyring").

Definition mon_list_cmd {Sys : System} (cluster : string) : command :=
  generate_cmd cluster [A "ls"; A "-f"; A "json"] "mon." (mon_key_path cluster)
    is_containerized.

(** The query of the states [present], [update] and [info]. *)
Definition query_cmd {Sys : System} (p : params) : command :=
  generate_cmd (p_cluster p)
    [A "get"; arg_of_option (p_name p); A "-f"; A (p_output_format p)] (p_user p)
    (user_key_path_of (p_cluster p) (p_user p) (p_user_key p)) is_containerized.

(** The command for the registry that [create_key] appends, if any. *)
Definition registry_commands {Sys : System} (cluster user user_key_path : string)
    (name : option string) (caps : dict string) (import_key : bool) (dest : string)
    (container_image : option string) : list command :=
  if String.eqb user "client.admin" then
    if import_key then
      [generate_cmd cluster [A "import"; A "-i"; A dest] user user_key_path
         container_image]
    else []
  else
    [generate_cmd cluster
       (([A "get-or-create"; arg_of_option name]
           ++ flat_map (fun kv => [A (fst kv); A (snd kv)]) (filter named caps))
          ++ [A "-o"; A dest])
       user user_key_path container_image].

(** Line 600: the test that leads to [create_key]. *)
Definition needs_create (d : desired) : bool :=
  ((d_key_exist d =? 0)%Z
   && (negb (secret_eqb (d_secret d) (d__secret d))
       || negb (caps_eqb (d_caps d) (d__caps d))))
  || negb (d_key_exist d =? 0)%Z.

(** Lines 576-581: the secret and the capabilities after the registry was
    read. *)
Definition resolved_secret (p : params) (cur_secret : string) : option string :=
  if truthy_str (p_secret p) then p_secret p else Some cur_secret.

Definition resolved_caps (p : params) (cur_caps : dict string) : option (dict string) :=
  if falsy_dict (p_caps p) then Some cur_caps else p_caps p.

(** ** More inputs *)

Module Test2.

(** [LIST7] stands for a listing of the seven initial entities and one
    more, [LIST8] for the same listing with [client.admin] twice, [INFO2] for
    the record of [client.foo] with two capabilities. *)
Definition record (entity : string) : json := JObj [("entity", JStr entity)].

Definition list7 : json :=
  JObj [("auth_dump", JArr (record "mon." :: map record CEPH_INITIAL_KEYS))].

Definition list8 : json :=
  JObj [("auth_dump",
         JArr (record "client.admin" :: map record CEPH_INITIAL_KEYS))].

Definition info_two : json :=
  JArr [JObj [("entity", JStr "client.foo"); ("key", JStr "AQBsecret==");
              ("caps", JObj [("mon", JStr "allow r"); ("osd", JStr "allow rw")])]].

Definition decode (s : string) : option json :=
  if String.eqb s "LIST7" then Some list7
  else if String.eqb s "LIST8" then Some list8
  else if String.eqb s "INFO2" then Some info_two
  else Test.decode s.

(** The scripted system with this decoder. *)
Definition sys (env : string -> option string) : System :=
  {| World := Test.world;
     run_command := Test.answer;
     isdir := fun path w => PyStr.mem path (Test.dirs w);
     isfile := fun path w => PyStr.mem path (Test.files w);
     set_fs_attributes_if_different := fun _ w => w;
     time_time := Test.now;
     os_urandom := Test.urandom;
     os_urandom_length := fun n w => repeat_length (Test.noise w) n;
     getenv := env;
     gethostname := "mon0.example.com";
     json_loads := decode |}.

End Test2.

Definition calm : System := Test2.sys Test.no_env.

Definition rolling_true : System := Test.sys (Test.rolling "true").

Definition scripted (answers : list (Z * string * string)) (files : list string)
    : Test.world :=
  Test.mkWorld answers files ["/etc/ceph/"] 1700000000 "A"%byte.

(** The keyrings [fetch_initial_keys] writes for the cluster [ceph]. *)
Definition initial_keyrings : list string :=
  ["/etc/ceph/ceph.client.admin.keyring";
   "/var/lib/ceph/bootstrap-mds/ceph.keyring";
   "/var/lib/ceph/bootstrap-mgr/ceph.keyring";
   "/var/lib/ceph/bootstrap-osd/ceph.keyring";
   "/var/lib/ceph/bootstrap-rbd/ceph.keyring";
   "/var/lib/ceph/bootstrap-rbd-mirror/ceph.keyring";
   "/var/lib/ceph/bootstrap-rgw/ceph.keyring"].

Definition info_foo_params : params :=
  mkParams "info" (Some "client.foo") "ceph" None None true "/etc/ceph/"
    "client.admin" None "json" false.

Definition list_params : params :=
  mkParams "list" None "ceph" None None true "/etc/ceph/" "client.admin" None
    "json" false.

Definition secret_params : params :=
  mkParams "generate_secret" None "ceph" None None true "/etc/ceph/"
    "client.admin" None "json" false.

(** [state: present] for [client.foo] with [import_key] true: a secret and
    the capability of the record [INFO]; the same with another capability;
    the two capabilities of the record [INFO2], the other way round. *)
Definition present_foo_full : params :=
  mkParams "present" (Some "client.foo") "ceph" (Some [("mon", "allow r")])
    (Some "AQBsecret==") true "/etc/ceph/" "client.admin" None "json" false.

Definition present_foo_rw : params :=
  mkParams "present" (Some "client.foo") "ceph" (Some [("mon", "allow rw")])
    (Some "AQBsecret==") true "/etc/ceph/" "client.admin" None "json" false.

Definition present_foo_swapped : params :=
  mkParams "present" (Some "client.foo") "ceph"
    (Some [("osd", "allow rw"); ("mon", "allow r")]) None true "/etc/ceph/"
    "client.admin" None "json" false.

(** ** Names for the parts of longer runs *)

(** The answers [module.run_command] gives to the commands of a list, run
    one after the other from the world [w] whatever they answer, and the
    world they leave. *)
Fixpoint replay {Sys : System} (cmds : list command) (w : World)
    : list (Z * string * string) * World :=
  match cmds with
  | [] => ([], w)
  | c :: rest =>
      let '(a, w') := run_command c w in
      let '(l, w'') := replay rest w' in
      (a :: l, w'')
  end.

(** Lines 647-670, read as a plan: the keyring of an initial entity, the
    command that fetches it, and what the loop over the entities does to
    the world.  An entity whose keyring is a file when its turn comes is
    skipped; for every other entity the command is run and the attributes
    of the keyring are set, whatever the command answers.  [fetch_all]
    returns the entities fetched with the answers they got, in order, and
    the world after. *)
Definition key_path_of (cluster entity : string) : string :=
  match build_key_path cluster entity with
  | Ret (Some path) => path
  | _ => ""
  end.

Definition fetch_cmd {Sys : System} (cluster entity : string) : command :=
  generate_cmd cluster [A "get"; A entity; A "-f"; A "plain"] "mon."
    (mon_key_path cluster) is_containerized
  ++ [A "-o"; A (key_path_of cluster entity)].

Fixpoint fetch_all {Sys : System} (cluster : string) (entities : list string)
    (w : World) : list (string * (Z * string * string)) * World :=
  match entities with
  | [] => ([], w)
  | entity :: rest =>
      if isfile (key_path_of cluster entity) w then fetch_all cluster rest w
      else
        let '(answer, w1) := run_command (fetch_cmd cluster entity) w in
        let '(fetched, w2) :=
          fetch_all cluster rest
            (set_fs_attributes_if_different (key_path_of cluster entity) w1) in
        ((entity, answer) :: fetched, w2)
  end.

(** The values of [rc, cmd, out, err] after a fetch. *)
Definition fetch_report {Sys : System} (cluster : string)
    (x : string * (Z * string * string)) : Z * command * string * string :=
  let '(entity, (rc, out, err)) := x in (rc, fetch_cmd cluster entity, out, err).

(** Lines 321-322 of [create_key]: the secret handed to [ceph-authtool] in
    the world [w], and the world after it is chosen.  A secret that is given
    is used as it is; otherwise 16 bytes are drawn and encoded. *)
Definition created_secret {Sys : System} (secret : option string) (w : World)
    : arg * World :=
  if truthy_str secret then (arg_of_option secret, w)
  else
    let key := fst (os_urandom 16 w) in
    let w' := snd (os_urandom 16 w) in
    (ABytes (Base64.b64encode (secret_header (time_time w') 16 ++ key)), w').

(** The system of [calm] with [CEPH_ROLLING_UPDATE] set to [yes]. *)
Definition calm_yes : System := Test2.sys (Test.rolling "yes").

(** A registry that holds [client.foo] and then, once it is deleted, no
    longer does: a first [del] would exit with 0, a second one with 2. *)
Definition world_delete_twice : Test.world :=
  scripted [(0%Z, "", "updated");
            (2%Z, "", "Error ENOENT: entity client.foo does not exist")] [].

(** The answers to the listing and to seven fetches; the second fetch is
    refused. *)
Definition fetch_script : list (Z * string * string) :=
  [(0%Z, "LIST7", ""); (0%Z, "", "exported keyring for client.admin");
   (13%Z, "", "Error EACCES: access denied"); (0%Z, "", ""); (0%Z, "", "");
   (0%Z, "", ""); (0%Z, "", ""); (0%Z, "", "exported keyring for client.bootstrap-rgw")].

(** * Properties *)

Lemma mem_In x l : PyStr.mem x l = true <-> In x l.
Proof.
  unfold PyStr.mem. rewrite existsb_exists. split.
  - intros [y [Hy E]]. apply String.eqb_eq in E. now subst.
  - intros H. exists x. split; [assumption | apply String.eqb_refl].
Qed.

Lemma mem_false x l : PyStr.mem x l = false <-> ~ In x l.
Proof.
  rewrite <- mem_In. destruct (PyStr.mem x l); split; intros H; easy.
Qed.

(** ** generate_caps *)

Lemma generate_caps_loop_closed _type items acc :
  generate_caps_loop _type items acc
  = acc ++ flat_map (cap_words _type) (filter named items).
Proof.
  revert acc. induction items as [|[k v] rest IH]; intros acc; simpl.
  - now rewrite app_nil_r.
  - unfold named at 1. simpl fst.
    destruct (String.length k =? 0)%nat; simpl.
    + apply IH.
    + rewrite IH. unfold cap_words at 2. simpl.
      destruct _type as [t|]; [destruct (String.eqb t "ceph-authtool")|];
        now rewrite <- ?app_assoc.
Qed.

Lemma cap_names_authtool (l : dict string) :
  cap_names (flat_map (cap_words (Some "ceph-authtool")) l) = Dict.keys l.
Proof.
  induction l as [|[k v] r IH]; simpl; [reflexivity|]. now rewrite IH.
Qed.

(** C8, as stated, fails: for the capabilities [osd] then [mon] the list
    built for [ceph-authtool] names [osd] before [mon], which is not the
    order of the subsystem names. *)
Lemma generate_caps_not_sorted :
  generate_caps (Some "ceph-authtool") (Some [("osd", "allow *"); ("mon", "allow r")])
  = Ret [A "--cap"; A "osd"; A "allow *"; A "--cap"; A "mon"; A "allow r"]
  /\ cap_names [A "--cap"; A "osd"; A "allow *"; A "--cap"; A "mon"; A "allow r"]
     = ["osd"; "mon"]
  /\ sortedb ["osd"; "mon"] = false.
Proof. repeat split. Qed.

(** C8, amended: [generate_caps] is a function of the capabilities as the
    dict iterates over them.  It writes the pairs in that order, without
    sorting them: for [ceph-authtool] the words [--cap], subsystem, grant for
    each pair, for the registry command the words subsystem, grant; a pair
    whose subsystem is the empty string is left out, so the names written
    are the non-empty keys of the dict, in its order. *)
Theorem generate_caps_iteration_order (caps : dict string) :
  let kept := filter named caps in
  generate_caps (Some "ceph-authtool") (Some caps)
  = Ret (flat_map (fun kv => [A "--cap"; A (fst kv); A (snd kv)]) kept)
  /\ generate_caps None (Some caps)
     = Ret (flat_map (fun kv => [A (fst kv); A (snd kv)]) kept)
  /\ cap_names (flat_map (cap_words (Some "ceph-authtool")) kept)
     = filter (fun k => negb (String.length k =? 0)%nat) (Dict.keys caps)
  /\ ~ In "" (Dict.keys kept).
Proof.
  cbv zeta. unfold generate_caps.
  rewrite !generate_caps_loop_closed. simpl app.
  repeat split.
  - rewrite cap_names_authtool. unfold Dict.keys.
    induction caps as [|[k v] r IH]; simpl; [reflexivity|].
    unfold named at 1. simpl fst.
    destruct (String.length k =? 0)%nat; simpl; now rewrite IH.
  - unfold Dict.keys. rewrite in_map_iff. intros [[k v] [E H]].
    apply filter_In in H. destruct H as [_ H]. simpl in E. subst k.
    discriminate H.
Qed.

(** ** str_to_bool *)

Lemma str_to_bool_cases (v : pyval) :
  let low := PyStr.lower (py_str v) in
  str_to_bool v =
  if String.eqb low "true" then Ret true
  else if String.eqb low "false" then Ret false
  else raise (ValueError ("Invalid input value: " ^^ low)).
Proof. destruct v as [s|[|]|z|]; reflexivity. Qed.

(** ** The path of the keyring file *)

(** C9: for the states [present] and [update] the path of the keyring file
    is [dest] itself when [dest] is not a directory; else, when [dest]
    contains [bootstrap], [cluster.keyring] joined onto [dest], whatever the
    entity; else [cluster.entity.keyring] joined onto [dest].  For the
    directory [/etc/ceph/], cluster [ceph] and entity [client.admin] it is
    [/etc/ceph/ceph.client.admin.keyring]. *)
Theorem file_path_rules {Sys : System} (cluster entity dest : string) (s : state) :
  (isdir dest (world s) = false ->
   forall name, file_path_of cluster name dest s = (Ret dest, s))
  /\ (isdir dest (world s) = true -> PyStr.contains "bootstrap" dest = true ->
      forall name,
        file_path_of cluster name dest s
        = (Ret (PyStr.path_join dest (cluster ^^ ".keyring")), s))
  /\ (isdir dest (world s) = true -> PyStr.contains "bootstrap" dest = false ->
      file_path_of cluster (Some entity) dest s
      = (Ret (PyStr.path_join dest (cluster ^^ "." ^^ entity ^^ ".keyring")), s))
  /\ PyStr.path_join "/etc/ceph/" ("ceph" ^^ "." ^^ "client.admin" ^^ ".keyring")
     = "/etc/ceph/ceph.client.admin.keyring".
Proof.
  unfold file_path_of, bind, read, ret. repeat split.
  - intros H name. now rewrite H.
  - intros H B name. now rewrite H, B.
  - intros H B. now rewrite H, B.
Qed.

Lemma check_initial_entities_invalid_flag {Sys : System} (flag : string)
    (entities : list string) :
  getenv "CEPH_ROLLING_UPDATE" = Some flag ->
  PyStr.lower flag <> "true" -> PyStr.lower flag <> "false" ->
  List.length entities <> List.length CEPH_INITIAL_KEYS ->
  check_initial_entities entities
  = raise (ValueError ("Invalid input value: " ^^ PyStr.lower flag)).
Proof.
  intros Henv N1 N2 L. unfold check_initial_entities, rolling_update_env.
  apply Nat.eqb_neq in L. rewrite L, Henv. cbn [negb].
  rewrite (str_to_bool_cases (VStr flag)). cbv zeta. cbn [py_str].
  apply String.eqb_neq in N1, N2. now rewrite N1, N2.
Qed.

Lemma check_initial_entities_complete {Sys : System} (entities : list string) :
  List.length entities = List.length CEPH_INITIAL_KEYS ->
  check_initial_entities entities = Ret entities.
Proof.
  intros L. unfold check_initial_entities. rewrite L. reflexivity.
Qed.

(** C10, as stated, fails in its last part: [CEPH_ROLLING_UPDATE] set to
    [yes], a value [str_to_bool] rejects, does not abort the check when the
    listing matches the seven initial entities.  The flag is then never
    converted: the check returns the entities, and the run of
    [fetch_initial_keys] ends as a success. *)
Lemma invalid_flag_is_not_read :
  @getenv calm_yes "CEPH_ROLLING_UPDATE" = Some "yes"
  /\ str_to_bool (VStr "yes") = raise (ValueError "Invalid input value: yes")
  /\ @check_initial_entities calm_yes CEPH_INITIAL_KEYS = Ret CEPH_INITIAL_KEYS
  /\ @execute calm_yes fetch_initial (scripted [(0%Z, "LIST7", "")] initial_keyrings)
     = (Exit (ExitJson (mkResult (Some (CmdList (@mon_list_cmd calm_yes "ceph"))) 0
                          "LIST7" "" false None)),
        @mkState calm_yes (scripted [] initial_keyrings)
          [@mon_list_cmd calm_yes "ceph"]).
Proof. repeat split. Qed.

(** C10, amended: [str_to_bool] returns [True] exactly when the lower-cased
    string form of its argument is [true], [False] exactly when it is
    [false] (so the booleans [True] and [False] are accepted), and raises
    [ValueError] for every other value, such as [1], [yes] or the empty
    string.  [lookup_ceph_initial_entities] converts [CEPH_ROLLING_UPDATE]
    only when the number of matches differs from seven: such a value then
    ends the check with that [ValueError].  With exactly seven matches the
    flag is not read, and the matches are returned whatever its value. *)
Theorem str_to_bool_spec {Sys : System} (v : pyval) (flag : string)
    (entities : list string) :
  let low := PyStr.lower (py_str v) in
  (str_to_bool v = Ret true <-> low = "true")
  /\ (str_to_bool v = Ret false <-> low = "false")
  /\ (low <> "true" -> low <> "false" ->
      str_to_bool v = raise (ValueError ("Invalid input value: " ^^ low)))
  /\ str_to_bool (VBool true) = Ret true
  /\ str_to_bool (VBool false) = Ret false
  /\ str_to_bool (VStr "1") = raise (ValueError "Invalid input value: 1")
  /\ str_to_bool (VInt 1) = raise (ValueError "Invalid input value: 1")
  /\ str_to_bool (VStr "yes") = raise (ValueError "Invalid input value: yes")
  /\ str_to_bool (VStr "") = raise (ValueError "Invalid input value: ")
  /\ (getenv "CEPH_ROLLING_UPDATE" = Some flag ->
      PyStr.lower flag <> "true" -> PyStr.lower flag <> "false" ->
      List.length entities <> List.length CEPH_INITIAL_KEYS ->
      check_initial_entities entities
      = raise (ValueError ("Invalid input value: " ^^ PyStr.lower flag)))
  /\ (List.length entities = List.length CEPH_INITIAL_KEYS ->
      check_initial_entities entities = Ret entities).
Proof.
  cbv zeta. rewrite (str_to_bool_cases v). cbv zeta.
  assert (Read := check_initial_entities_invalid_flag flag entities).
  assert (Skip := check_initial_entities_complete entities).
  destruct (String.eqb_spec (PyStr.lower (py_str v)) "true") as [E|N];
    [rewrite E; repeat split; easy|].
  destruct (String.eqb_spec (PyStr.lower (py_str v)) "false") as [E|N'];
    [rewrite E; repeat split; easy|].
  repeat split; easy.
Qed.

(** ** base64 and struct *)

Module Base64Facts.
Import Base64.

Lemma sextet_table : forallb sextet_ok (map N.of_nat (seq 0 64)) = true.
Proof. vm_compute. reflexivity. Qed.

Lemma sextet_inv (n : N) :
  (n < 64)%N -> value_of (sextet n) = Some n /\ Byte.eqb (sextet n) pad = false.
Proof.
  intros H. pose proof sextet_table as T. rewrite forallb_forall in T.
  assert (I : In n (map N.of_nat (seq 0 64))).
  { rewrite <- (N2Nat.id n). apply in_map. apply in_seq. lia. }
  specialize (T n I). unfold sextet_ok in T.
  apply andb_true_iff in T. destruct T as [T1 T2].
  destruct (value_of (sextet n)) as [m|]; [|discriminate].
  apply N.eqb_eq in T1. subst m. split; [reflexivity|].
  now destruct (Byte.eqb (sextet n) pad).
Qed.

Lemma of_N_to_N_eq (a : byte) (n : N) : n = Byte.to_N a -> Byte.of_N n = Some a.
Proof. intros ->. apply Byte.of_to_N. Qed.

Ltac euclid := zify; Z.to_euclidean_division_equations; lia.

Lemma byte3_full (a b c : byte) :
  let x := Byte.to_N a in
  let y := Byte.to_N b in
  let z := Byte.to_N c in
  byte3 (x / 4) ((x mod 4) * 16 + y / 16) ((y mod 16) * 4 + z / 64) (z mod 64)
  = Some [a; b; c].
Proof.
  intros x y z.
  pose proof (Byte.to_N_bounded a). pose proof (Byte.to_N_bounded b).
  pose proof (Byte.to_N_bounded c).
  unfold byte3.
  rewrite (of_N_to_N_eq a), (of_N_to_N_eq b), (of_N_to_N_eq c);
    [reflexivity | subst x y z; euclid ..].
Qed.

Lemma byte3_two (a b : byte) :
  let x := Byte.to_N a in
  let y := Byte.to_N b in
  byte3 (x / 4) ((x mod 4) * 16 + y / 16) ((y mod 16) * 4) 0
  = Some [a; b; x00].
Proof.
  intros x y.
  pose proof (Byte.to_N_bounded a). pose proof (Byte.to_N_bounded b).
  unfold byte3.
  rewrite (of_N_to_N_eq a), (of_N_to_N_eq b), (of_N_to_N_eq x00);
    [reflexivity | subst x y; simpl Byte.to_N; euclid ..].
Qed.

Lemma byte3_one (a : byte) :
  let x := Byte.to_N a in
  byte3 (x / 4) ((x mod 4) * 16) 0 0 = Some [a; x00; x00].
Proof.
  intros x.
  pose proof (Byte.to_N_bounded a).
  unfold byte3.
  rewrite (of_N_to_N_eq a), (of_N_to_N_eq x00), (of_N_to_N_eq x00);
    [reflexivity | subst x; simpl Byte.to_N; euclid ..].
Qed.

(** Lists three elements at a time, as the encoder reads them. *)
Lemma list_ind3 {T} (P : list T -> Prop) :
  P [] -> (forall a, P [a]) -> (forall a b, P [a; b]) ->
  (forall a b c r, P r -> P (a :: b :: c :: r)) ->
  forall l, P l.
Proof.
  intros H0 H1 H2 H3.
  fix IH 1. intros [|a [|b [|c r]]];
    [exact H0 | apply H1 | apply H2 | apply H3, IH].
Qed.

Lemma sextet_bounds (a b : byte) :
  let x := Byte.to_N a in
  let y := Byte.to_N b in
  (x / 4 < 64 /\ (x mod 4) * 16 + y / 16 < 64 /\ (y mod 16) * 4 + x / 64 < 64
   /\ x mod 64 < 64 /\ (x mod 4) * 16 < 64 /\ (y mod 16) * 4 < 64)%N.
Proof.
  intros x y.
  pose proof (Byte.to_N_bounded a). pose proof (Byte.to_N_bounded b).
  subst x y. repeat split; euclid.
Qed.

(** Decoding undoes encoding: the encoded text determines the bytes. *)
Lemma b64decode_b64encode (bs : list byte) : b64decode (b64encode bs) = Some bs.
Proof.
  induction bs as [|a|a b|a b c r IH] using list_ind3.
  - reflexivity.
  - cbn [b64encode b64decode].
    destruct (sextet_bounds a a) as (B1 & _ & _ & _ & B5 & _).
    destruct (sextet_inv _ B1) as [V1 _]. destruct (sextet_inv _ B5) as [V2 _].
    rewrite V1, V2. change (Byte.eqb pad pad) with true. cbv iota.
    now rewrite byte3_one.
  - cbn [b64encode b64decode].
    destruct (sextet_bounds a b) as (B1 & B2 & _ & _ & _ & B6).
    destruct (sextet_inv _ B1) as [V1 _]. destruct (sextet_inv _ B2) as [V2 _].
    destruct (sextet_inv _ B6) as [V3 P3].
    rewrite V1, V2, P3, V3. change (Byte.eqb pad pad) with true. cbv iota.
    now rewrite byte3_two.
  - cbn [b64encode b64decode]. fold b64encode. fold b64decode.
    destruct (sextet_bounds a b) as (B1 & B2 & _ & _ & _ & _).
    destruct (sextet_bounds c b) as (_ & _ & B3 & B4 & _ & _).
    destruct (sextet_inv _ B1) as [V1 _]. destruct (sextet_inv _ B2) as [V2 _].
    destruct (sextet_inv _ B3) as [V3 _]. destruct (sextet_inv _ B4) as [V4 P4].
    rewrite V1, V2, P4, V3, V4, IH, byte3_full. reflexivity.
Qed.

End Base64Facts.

Module StructFacts.
Import Struct.

Lemma le_bytes_cons (n : nat) (v : Z) :
  exists b, Byte.to_N b = Z.to_N (v mod 256)
            /\ le_bytes (S n) v = b :: le_bytes n (v / 256).
Proof.
  cbn [le_bytes].
  destruct (Byte.of_N (Z.to_N (v mod 256))) as [b|] eqn:E.
  - exists b. split; [now apply Byte.to_of_N | reflexivity].
  - apply Byte.of_N_None_iff in E.
    pose proof (Z.mod_pos_bound v 256 eq_refl). lia.
Qed.

Lemma le_bytes_length (n : nat) (v : Z) : List.length (le_bytes n v) = n.
Proof.
  revert v. induction n as [|n IH]; intros v; [reflexivity|].
  destruct (le_bytes_cons n v) as (b & _ & ->). simpl. now rewrite IH.
Qed.

(** The bytes written for a value hold it modulo [256 ^ n]. *)
Lemma le_value_le_bytes (n : nat) (v : Z) :
  le_value (le_bytes n v) = (v mod 256 ^ Z.of_nat n)%Z.
Proof.
  revert v. induction n as [|n IH]; intros v.
  - simpl. now rewrite Z.mod_1_r.
  - destruct (le_bytes_cons n v) as (b & Hb & ->).
    cbn [le_value]. rewrite IH, Hb.
    pose proof (Z.mod_pos_bound v 256 eq_refl).
    rewrite Z2N.id by lia.
    rewrite Nat2Z.inj_succ, Z.pow_succ_r by lia.
    rewrite Z.rem_mul_r by lia. reflexivity.
Qed.

End StructFacts.

(** ** generate_secret *)

Lemma firstn_exact {T} (a r : list T) (n : nat) :
  List.length a = n -> firstn n (a ++ r) = a.
Proof.
  intros <-. rewrite firstn_app, Nat.sub_diag, firstn_all. simpl.
  apply app_nil_r.
Qed.

Lemma skipn_exact {T} (a r : list T) (n : nat) :
  List.length a = n -> skipn n (a ++ r) = r.
Proof.
  intros <-. rewrite skipn_app, Nat.sub_diag, skipn_all. reflexivity.
Qed.

Lemma in_range_int32 (v : Z) :
  (- 2 ^ 31 <= v < 2 ^ 31)%Z -> Struct.in_range Struct.Fi v = true.
Proof.
  intros [L U]. unfold Struct.in_range. simpl Struct.size.
  change (2 ^ (8 * Z.of_nat 4 - 1))%Z with (2 ^ 31)%Z.
  apply andb_true_iff. split; [now apply Z.leb_le | now apply Z.ltb_lt].
Qed.

Lemma pack_hiih (seconds : Z) :
  (- 2 ^ 31 <= seconds < 2 ^ 31)%Z ->
  Struct.pack_le [Struct.Fh; Struct.Fi; Struct.Fi; Struct.Fh] [1%Z; seconds; 0%Z; 16%Z]
  = Ret (secret_header seconds 16).
Proof.
  intros H. cbn [Struct.pack_le].
  change (Struct.in_range Struct.Fh 1) with true.
  change (Struct.in_range Struct.Fi 0) with true.
  change (Struct.in_range Struct.Fh 16) with true.
  rewrite (in_range_int32 _ H). cbn [obind Struct.size].
  unfold secret_header. now rewrite app_nil_r.
Qed.

Lemma secret_header_fields (seconds : Z) (key : list byte) :
  let payload := secret_header seconds 16 ++ key in
  List.length (secret_header seconds 16) = 12
  /\ read_le 0 2 payload = 1%Z
  /\ read_le 2 4 payload = (seconds mod 2 ^ 32)%Z
  /\ read_le 6 4 payload = 0%Z
  /\ read_le 10 2 payload = 16%Z
  /\ skipn 12 payload = key.
Proof.
  cbv zeta. unfold secret_header, read_le.
  set (h1 := Struct.le_bytes 2 1). set (h2 := Struct.le_bytes 4 seconds).
  set (h3 := Struct.le_bytes 4 0). set (h4 := Struct.le_bytes 2 16).
  assert (L2 : List.length h2 = 4) by apply StructFacts.le_bytes_length.
  assert (V2 : Struct.le_value h2 = (seconds mod 2 ^ 32)%Z)
    by apply (StructFacts.le_value_le_bytes 4).
  clearbody h2.
  assert (E1 : forall r, skipn 2 (h1 ++ r) = r) by (intros; now apply skipn_exact).
  assert (E2 : forall r, skipn 6 (h1 ++ h2 ++ r) = r).
  { intros r. change 6 with (4 + 2). rewrite <- skipn_skipn, E1.
    now apply skipn_exact. }
  assert (E3 : forall r, skipn 10 (h1 ++ h2 ++ h3 ++ r) = r).
  { intros r. change 10 with (4 + 6). rewrite <- skipn_skipn, E2.
    now apply skipn_exact. }
  assert (E4 : forall r, skipn 12 (h1 ++ h2 ++ h3 ++ h4 ++ r) = r).
  { intros r. change 12 with (2 + 10). rewrite <- skipn_skipn, E3.
    now apply skipn_exact. }
  rewrite <- !app_assoc.
  repeat split.
  - rewrite !length_app, L2. reflexivity.
  - now rewrite E1, firstn_exact.
  - now rewrite E2.
  - now rewrite E3.
  - apply E4.
Qed.

(** C5, as stated, fails: with the clock at 1700000000 and sixteen random
    bytes 0x41 the secret is the encoding of 28 bytes, a header of 12 bytes
    and the key; the layout with a reserved field of 16 bits has a header
    of 10 bytes and another encoding. *)
Lemma generate_secret_not_reserved16 :
  let s := @mkState (quiet) quiet_world [] in
  let key := repeat "A"%byte 16 in
  fst (generate_secret s)
  = Ret (Base64.b64encode (secret_header 1700000000 16 ++ key))
  /\ fst (generate_secret s)
     <> Ret (Base64.b64encode (header_reserved16 1700000000 16 ++ key))
  /\ List.length (secret_header 1700000000 16) = 12
  /\ List.length (header_reserved16 1700000000 16) = 10
  /\ read_le 6 2 (secret_header 1700000000 16 ++ key) = 0%Z
  /\ read_le 8 2 (secret_header 1700000000 16 ++ key) = 0%Z
  /\ read_le 8 2 (header_reserved16 1700000000 16 ++ key) = 16%Z.
Proof.
  cbv zeta. repeat split; try (vm_compute; reflexivity).
  vm_compute. discriminate.
Qed.

Lemma generate_secret_eq {Sys : System} (s : state) :
  let key := fst (os_urandom 16 (world s)) in
  let w := snd (os_urandom 16 (world s)) in
  (- 2 ^ 31 <= time_time w < 2 ^ 31)%Z ->
  generate_secret s
  = (Ret (Base64.b64encode (secret_header (time_time w) 16 ++ key)),
     mkState w (trace s)).
Proof.
  cbv zeta. intros H.
  pose proof (os_urandom_length 16 (world s)) as L.
  unfold generate_secret.
  destruct (os_urandom 16 (world s)) as [key w]. cbn [fst snd] in *.
  rewrite L. change (Z.of_nat 16) with 16%Z.
  now rewrite (pack_hiih _ H).
Qed.

(** C5, amended: every secret the generator produces is the base64 encoding
    of a header of 12 bytes followed by exactly 16 random bytes; the header
    holds, little-endian, the format version 1 as int16, the creation time
    in seconds as int32, a zero int32 (not int16), and the key length 16 as
    int16.  The generator produces a secret whenever the clock fits a signed
    32-bit integer. *)
Theorem generate_secret_layout {Sys : System} (s : state) :
  let key := fst (os_urandom 16 (world s)) in
  let w := snd (os_urandom 16 (world s)) in
  let seconds := time_time w in
  let payload := secret_header seconds 16 ++ key in
  (- 2 ^ 31 <= seconds < 2 ^ 31)%Z ->
  generate_secret s = (Ret (Base64.b64encode payload), mkState w (trace s))
  /\ Base64.b64decode (Base64.b64encode payload) = Some payload
  /\ List.length key = 16
  /\ List.length (secret_header seconds 16) = 12
  /\ read_le 0 2 payload = 1%Z
  /\ read_le 2 4 payload = (seconds mod 2 ^ 32)%Z
  /\ read_le 6 4 payload = 0%Z
  /\ read_le 10 2 payload = 16%Z
  /\ skipn 12 payload = key.
Proof.
  cbv zeta. intros H.
  split; [exact (generate_secret_eq s H)|].
  split; [apply Base64Facts.b64decode_b64encode|].
  split; [apply os_urandom_length|].
  apply secret_header_fields.
Qed.

(** ** lookup_ceph_initial_entities *)

Lemma lookup_items_spec (items : list (string * json)) (acc : list string) (e : string) :
  In e (lookup_items items acc)
  <-> In e acc \/ (In ("entity", JStr e) items /\ In e CEPH_INITIAL_KEYS).
Proof.
  revert acc. induction items as [|[k v] rest IH]; intros acc.
  - simpl. tauto.
  - cbn [lookup_items]. rewrite IH. clear IH.
    destruct (String.eqb_spec k "entity") as [->|N].
    + destruct v as [| | |s| |];
        try (simpl; split;
             [intros [H|[H K]]; [now left | right; split; [now right | exact K]]
             |intros [H|[[H|H] K]];
                [now left | discriminate H | right; split; assumption]]).
      destruct (PyStr.mem s CEPH_INITIAL_KEYS) eqn:M.
      * apply mem_In in M. rewrite in_app_iff. simpl In at 2. split.
        -- intros [[H|[H|[]]]|[H K]].
           ++ now left.
           ++ subst s. right. split; [now left | exact M].
           ++ right. split; [now right | exact K].
        -- intros [H|[[H|H] K]].
           ++ left. now left.
           ++ inversion H. subst s. left. right. now left.
           ++ right. now split.
      * apply mem_false in M. split.
        -- intros [H|[H K]]; [now left | right; split; [now right | exact K]].
        -- intros [H|[[H|H] K]];
             [now left | inversion H; subst s; contradiction
             | right; now split].
    + split.
      * intros [H|[H K]]; [now left | right; split; [now right | exact K]].
      * intros [H|[[H|H] K]];
          [now left | inversion H; subst k; contradiction | right; now split].
Qed.

Lemma lookup_records_spec (records : list json) (acc entities : list string) (e : string) :
  lookup_records records acc = Ret entities ->
  In e entities
  <-> In e acc \/ (exists items, In (JObj items) records
                                 /\ In ("entity", JStr e) items
                                 /\ In e CEPH_INITIAL_KEYS).
Proof.
  revert acc. induction records as [|r rest IH]; intros acc H.
  - simpl in H. inversion H. subst. split; [now left|].
    intros [K|(items & [] & _)]. exact K.
  - destruct r as [| | | | |items]; try discriminate H.
    cbn [lookup_records] in H. rewrite (IH _ H), lookup_items_spec. clear IH H.
    split.
    + intros [[K|[K1 K2]]|(its & K1 & K2)].
      * now left.
      * right. exists items. split; [now left | now split].
      * right. exists its. split; [now right | exact K2].
    + intros [K|(its & [K1|K1] & K2 & K3)].
      * left. now left.
      * inversion K1. subst its. left. right. now split.
      * right. exists its. now split.
Qed.

Lemma lookup_in_existsb {V} (k : string) (o : dict V) (v : V) :
  Dict.lookup k o = Some v -> existsb (fun kv => String.eqb k (fst kv)) o = true.
Proof.
  induction o as [|[k' v'] r IH]; simpl; [discriminate|].
  destruct (String.eqb k k'); [reflexivity | exact IH].
Qed.

Lemma initial_keys_nodup : NoDup CEPH_INITIAL_KEYS.
Proof.
  unfold CEPH_INITIAL_KEYS.
  repeat (constructor; [simpl; intuition discriminate|]). constructor.
Qed.

Lemma filter_split_length {T} (f : T -> bool) (l : list T) :
  List.length (filter (fun x => negb (f x)) l) + List.length (filter f l)
  = List.length l.
Proof.
  induction l as [|x r IH]; simpl; [reflexivity|].
  destruct (f x); simpl; lia.
Qed.

(** The names that are missing, counted. *)
Lemma missing_count (entities : list string) :
  NoDup entities -> incl entities CEPH_INITIAL_KEYS ->
  List.length (filter (fun e => negb (PyStr.mem e entities)) CEPH_INITIAL_KEYS)
  = 7 - List.length entities.
Proof.
  intros ND I.
  pose proof (filter_split_length (fun e => PyStr.mem e entities) CEPH_INITIAL_KEYS) as S.
  assert (P : Permutation (filter (fun e => PyStr.mem e entities) CEPH_INITIAL_KEYS)
                entities).
  { apply NoDup_Permutation;
      [apply NoDup_filter, initial_keys_nodup | exact ND |].
    intros x. rewrite filter_In, mem_In. split; [tauto|].
    intros H. split; [now apply I | exact H]. }
  apply Permutation_length in P. rewrite P in S.
  change (List.length CEPH_INITIAL_KEYS) with 7 in S. lia.
Qed.

(** When fewer than seven names matched, one of the seven is missing. *)
Lemma missing_nonempty (entities : list string) :
  List.length entities < 7 ->
  filter (fun e => negb (PyStr.mem e entities)) CEPH_INITIAL_KEYS <> [].
Proof.
  intros L E.
  assert (I : incl CEPH_INITIAL_KEYS entities).
  { intros x Hx. destruct (PyStr.mem x entities) eqn:M; [now apply mem_In|].
    assert (K : In x (filter (fun e => negb (PyStr.mem e entities)) CEPH_INITIAL_KEYS))
      by (apply filter_In; split; [exact Hx | now rewrite M]).
    rewrite E in K. contradiction. }
  apply (NoDup_incl_length initial_keys_nodup) in I.
  change (List.length CEPH_INITIAL_KEYS) with 7 in I. lia.
Qed.

Lemma check_initial_entities_flag {Sys : System} (entities : list string) (b : bool) :
  List.length entities <> List.length CEPH_INITIAL_KEYS ->
  str_to_bool rolling_update_env = Ret b ->
  check_initial_entities entities
  = if b then Ret entities
    else fatal ("initial keyring does not contain keys: "
                  ^^ PyStr.join " "
                       (filter (fun e => negb (PyStr.mem e entities)) CEPH_INITIAL_KEYS)).
Proof.
  intros L F. unfold check_initial_entities.
  apply Nat.eqb_neq in L. rewrite L, F. now destruct b.
Qed.

(** C2: when the listing matches fewer than seven of the initial entities
    and [CEPH_ROLLING_UPDATE] is not set (or reads as false), the lookup
    ends with [fatal], and the message lists the initial entities that no
    record of the listing names: exactly those, at least one, and
    [7 - n] of them when the [n] matches are distinct.  When the flag reads
    as true, the matches are returned. *)
Theorem initial_entities_missing_reported {Sys : System} (out : string)
    (o : list (string * json)) (records : list json) (entities : list string) :
  json_loads out = Some (JObj o) ->
  Dict.lookup "auth_dump" o = Some (JArr records) ->
  lookup_records records [] = Ret entities ->
  List.length entities < 7 ->
  let missing := filter (fun e => negb (PyStr.mem e entities)) CEPH_INITIAL_KEYS in
  let listed e := exists items, In (JObj items) records /\ In ("entity", JStr e) items in
  (forall e, In e missing <-> In e CEPH_INITIAL_KEYS /\ ~ listed e)
  /\ missing <> []
  /\ (NoDup entities -> List.length missing = 7 - List.length entities)
  /\ (getenv "CEPH_ROLLING_UPDATE" = None ->
      lookup_ceph_initial_entities out
      = fatal ("initial keyring does not contain keys: " ^^ PyStr.join " " missing))
  /\ (forall flag, getenv "CEPH_ROLLING_UPDATE" = Some flag ->
      PyStr.lower flag = "false" ->
      lookup_ceph_initial_entities out
      = fatal ("initial keyring does not contain keys: " ^^ PyStr.join " " missing))
  /\ (forall flag, getenv "CEPH_ROLLING_UPDATE" = Some flag ->
      PyStr.lower flag = "true" ->
      lookup_ceph_initial_entities out = Ret entities).
Proof.
  intros HJ HD HR HL missing listed.
  assert (Hin : forall e, In e entities <-> listed e /\ In e CEPH_INITIAL_KEYS).
  { intros e. rewrite (lookup_records_spec _ _ _ e HR). unfold listed. split.
    - intros [[]|(items & K1 & K2 & K3)]. split; [now exists items | exact K3].
    - intros [(items & K1 & K2) K3]. right. now exists items. }
  assert (Hlookup : lookup_ceph_initial_entities out = check_initial_entities entities).
  { unfold lookup_ceph_initial_entities. rewrite HJ. cbn [json_contains obind].
    rewrite (lookup_in_existsb _ _ _ HD). cbn [json_getitem]. rewrite HD.
    cbn [obind json_iter]. now rewrite HR. }
  assert (HN : List.length entities <> List.length CEPH_INITIAL_KEYS).
  { change (List.length CEPH_INITIAL_KEYS) with 7. lia. }
  split; [|split; [|split; [|split; [|split]]]].
  - intros e. unfold missing. rewrite filter_In, negb_true_iff, mem_false, Hin.
    tauto.
  - exact (missing_nonempty _ HL).
  - intros ND. apply missing_count; [exact ND|]. intros x Hx. now apply Hin.
  - intros E. rewrite Hlookup.
    rewrite (check_initial_entities_flag entities false HN); [reflexivity|].
    unfold rolling_update_env. now rewrite E.
  - intros flag E F. rewrite Hlookup.
    rewrite (check_initial_entities_flag entities false HN); [reflexivity|].
    unfold rolling_update_env. rewrite E. rewrite str_to_bool_cases. cbv zeta.
    simpl py_str. now rewrite F.
  - intros flag E F. rewrite Hlookup.
    rewrite (check_initial_entities_flag entities true HN); [reflexivity|].
    unfold rolling_update_env. rewrite E. rewrite str_to_bool_cases. cbv zeta.
    simpl py_str. now rewrite F.
Qed.

(** ** create_key *)

Lemma generate_caps_some (_type : option string) (caps : dict string) :
  generate_caps _type (Some caps)
  = Ret (flat_map (cap_words _type) (filter named caps)).
Proof. unfold generate_caps. now rewrite generate_caps_loop_closed. Qed.

Lemma generate_secret_runs {Sys : System} (s : state) :
  (- 2 ^ 31 <= time_time (snd (os_urandom 16 (world s))) < 2 ^ 31)%Z ->
  exists b, generate_secret s
            = (Ret b, mkState (snd (os_urandom 16 (world s))) (trace s)).
Proof.
  intros H. eexists. exact (generate_secret_eq s H).
Qed.

Lemma create_key_commands {Sys : System}
    (cluster user user_key_path dest : string) (name secret : option string)
    (caps : dict string) (import_key : bool) (container_image : option string)
    (s : state) :
  truthy_str secret = true
  \/ (- 2 ^ 31 <= time_time (snd (os_urandom 16 (world s))) < 2 ^ 31)%Z ->
  let registry args := generate_cmd cluster args user user_key_path container_image in
  exists (secret_arg : arg) (authtool : command) (s' : state),
    generate_ceph_authtool_cmd cluster (arg_of_option name) secret_arg (Some caps)
      dest container_image = Ret authtool
    /\ trace s' = trace s
    /\ create_key cluster user user_key_path name secret (Some caps) import_key dest
         container_image s
       = (Ret (authtool ::
               (if String.eqb user "client.admin" then
                  if import_key then [registry [A "import"; A "-i"; A dest]] else []
                else
                  [registry (([A "get-or-create"; arg_of_option name]
                                ++ flat_map (fun kv => [A (fst kv); A (snd kv)])
                                     (filter named caps))
                               ++ [A "-o"; A dest])])),
          s').
Proof.
  intros H registry.
  assert (G : exists secret_arg s',
             trace s' = trace s
             /\ (if truthy_str secret then ret (arg_of_option secret)
                 else bind generate_secret (fun b => ret (ABytes b))) s
                = (Ret secret_arg, s')).
  { destruct (truthy_str secret) eqn:T.
    - exists (arg_of_option secret), s. now split.
    - destruct H as [H|H]; [discriminate|].
      destruct (generate_secret_runs s H) as [b E].
      exists (ABytes b). eexists. split; [|unfold bind; rewrite E; reflexivity].
      reflexivity. }
  destruct G as (secret_arg & s' & Tr & G).
  exists secret_arg.
  assert (AT : exists authtool,
             generate_ceph_authtool_cmd cluster (arg_of_option name) secret_arg
               (Some caps) dest container_image = Ret authtool).
  { unfold generate_ceph_authtool_cmd. rewrite generate_caps_some.
    eexists. reflexivity. }
  destruct AT as [authtool AT]. exists authtool, s'.
  split; [exact AT|]. split; [exact Tr|].
  unfold create_key. unfold bind at 1. rewrite G.
  destruct (String.eqb user "client.admin") eqn:U.
  - unfold bind, ret, lift. rewrite AT. simpl negb. rewrite orb_false_r.
    now destruct import_key.
  - unfold bind, ret, lift. rewrite generate_caps_some, AT.
    simpl negb. rewrite orb_true_r. reflexivity.
Qed.

(** C6: [create_key] first writes the keyring with [ceph-authtool]; the
    command for the registry, when there is one, is [import -i dest] when
    the acting identity is exactly [client.admin] (there is one when
    [import_key] is set), and for every other acting identity it is
    [get-or-create name] with the flattened capabilities and [-o dest].
    The commands are produced whenever a secret is given or the clock fits
    the header of a generated one. *)
Theorem create_key_registry_command {Sys : System}
    (cluster user user_key_path dest : string) (name secret : option string)
    (caps : dict string) (import_key : bool) (container_image : option string)
    (s : state) :
  truthy_str secret = true
  \/ (- 2 ^ 31 <= time_time (snd (os_urandom 16 (world s))) < 2 ^ 31)%Z ->
  let registry args := generate_cmd cluster args user user_key_path container_image in
  exists (secret_arg : arg) (authtool : command) (s' : state),
    generate_ceph_authtool_cmd cluster (arg_of_option name) secret_arg (Some caps)
      dest container_image = Ret authtool
    /\ trace s' = trace s
    /\ create_key cluster user user_key_path name secret (Some caps) import_key dest
         container_image s
       = (Ret (authtool ::
               (if String.eqb user "client.admin" then
                  if import_key then [registry [A "import"; A "-i"; A dest]] else []
                else
                  [registry (([A "get-or-create"; arg_of_option name]
                                ++ flat_map (fun kv => [A (fst kv); A (snd kv)])
                                     (filter named caps))
                               ++ [A "-o"; A dest])])),
          s').
Proof.
  exact (create_key_commands cluster user user_key_path dest name secret caps
           import_key container_image s).
Qed.

(** ** Running commands *)

Lemma exec_one {Sys : System} (cmd : command) (s : state) :
  exec_commands [cmd] s
  = let '(rc, out, err, w) := run_command cmd (world s) in
    (Ret (rc, cmd, out, err), mkState w (trace s ++ [cmd])).
Proof.
  unfold exec_commands. cbn [exec_commands_loop]. unfold bind, run.
  destruct (run_command cmd (world s)) as [[[rc out] err] w].
  now destruct (rc =? 0)%Z.
Qed.

Lemma exec_two {Sys : System} (c1 c2 : command) (s : state) :
  exec_commands [c1; c2] s
  = let '(rc, out, err, w) := run_command c1 (world s) in
    if (rc =? 0)%Z then exec_commands [c2] (mkState w (trace s ++ [c1]))
    else (Ret (rc, c1, out, err), mkState w (trace s ++ [c1])).
Proof.
  unfold exec_commands. cbn [exec_commands_loop]. unfold bind at 1. unfold run at 1.
  destruct (run_command c1 (world s)) as [[[rc out] err] w].
  destruct (rc =? 0)%Z; [|reflexivity].
  unfold bind, run. cbn [world trace].
  destruct (run_command c2 w) as [[[rc2 out2] err2] w2].
  now destruct (rc2 =? 0)%Z.
Qed.

(** ** The state absent *)

(** With [state: absent] no command is run: [key_exist] is 1, and the end
    of [run_module] reads [cmd], which was never assigned. *)
Lemma run_module_absent {Sys : System} (p : params) (w : World) :
  p_check_mode p = false -> p_state p = "absent" ->
  execute p w = (Exit (Raised (UnboundLocalError "cmd")), mkState w []).
Proof.
  intros C S. unfold execute, run_module. rewrite C, S. reflexivity.
Qed.

(** C1: [state: absent] is meant to issue [del] exactly when the entity
    exists and to end as a success without a command otherwise.  The module
    does neither.  For [client.foo], whether the registry holds the entity
    (the next command would exit with 0) or not, the run issues no command,
    [del] included, and ends with the exception [UnboundLocalError]. *)
Theorem absent_never_deletes :
  @execute (quiet) absent_foo world_accepting
  = (Exit (Raised (UnboundLocalError "cmd")),
     @mkState (quiet) world_accepting [])
  /\ @execute (quiet) absent_foo world_refusing
     = (Exit (Raised (UnboundLocalError "cmd")),
        @mkState (quiet) world_refusing []).
Proof.
  split; apply (@run_module_absent (quiet)); reflexivity.
Qed.

(** C3: deleting the same entity twice in sequence must never report a
    failure the second time.  The module fails both times: every run of
    [state: absent] outside check mode, whatever the registry holds, issues
    no command, [del] included, leaves the world as it was and ends with the
    exception [UnboundLocalError]; so does the run that follows it.  The
    branch that issues [del] and reads its exit code is never entered,
    since [key_exist] is 1. *)
Theorem absent_twice_fails_twice {Sys : System} (p : params) (w : World) :
  p_check_mode p = false -> p_state p = "absent" ->
  let first := execute p w in
  let second := execute p (world (snd first)) in
  first = (Exit (Raised (UnboundLocalError "cmd")), mkState w [])
  /\ second = (Exit (Raised (UnboundLocalError "cmd")), mkState w []).
Proof.
  intros C S. cbv zeta. rewrite (run_module_absent p w C S). cbn [snd world].
  split; [reflexivity | exact (run_module_absent p w C S)].
Qed.

(** ** The states present and update *)

(** What follows [create_key] in lines 601-608, up to the end of the run:
    the keyring is written first, and the command for the registry runs
    only after it. *)
Lemma after_create {Sys : System} (name : option string) (file_path : string)
    (cmd_list : list command) (s : state) (authtool : command) (regs : list command) :
  cmd_list = authtool :: regs -> (List.length regs <= 1)%nat ->
  exists e final rest,
    bind (bind (exec_commands cmd_list)
            (fun r => let '(rc, cmd, out, err) := r in
               if negb (rc =? 0)%Z then
                 exit_json (set_stderr (set_stdout result0
                               ("Couldn't create or update " ^^ fmt_opt name)) err)
               else bind (update (set_fs_attributes_if_different file_path))
                      (fun _ => ret (bound r true))))
         finish s = (Exit e, final)
    /\ trace final = trace s ++ authtool :: rest
    /\ (rest = [] \/ rest = regs).
Proof.
  intros -> L. destruct regs as [|reg [|? ?]]; [| |simpl in L; lia].
  - unfold bind at 1 2. rewrite exec_one.
    destruct (run_command authtool (world s)) as [[[rc out] err] w].
    destruct (rc =? 0)%Z eqn:E; cbn [negb].
    + unfold bind, update, ret, finish, bound, exit_json, stop, lift. cbn. rewrite E. cbn.
      do 2 eexists. exists []. split; [reflexivity|]. split; [reflexivity | now left].
    + unfold exit_json, stop, lift.
      do 2 eexists. exists []. split; [reflexivity|]. split; [reflexivity | now left].
  - unfold bind at 1 2. rewrite exec_two.
    destruct (run_command authtool (world s)) as [[[rc out] err] w].
    destruct (rc =? 0)%Z eqn:E.
    + rewrite exec_one. cbn [world trace].
      destruct (run_command reg w) as [[[rc2 out2] err2] w2].
      destruct (rc2 =? 0)%Z eqn:E2; cbn [negb].
      * unfold bind, update, ret, finish, bound, exit_json, stop, lift. cbn. rewrite E2. cbn.
        do 2 eexists. exists [reg]. split; [reflexivity|].
        split; [now rewrite <- app_assoc | now right].
      * unfold exit_json, stop, lift.
        do 2 eexists. exists [reg]. split; [reflexivity|].
        split; [now rewrite <- app_assoc | now right].
    + rewrite E. cbn [negb]. unfold exit_json, stop, lift.
      do 2 eexists. exists []. split; [reflexivity|]. split; [reflexivity | now left].
Qed.

(** C4, as stated, fails, twice.  With [import_key] false, the keyring of
    [client.foo] on disk and no secret given, the module does not fail: it
    leaves through [exit_json] with [rc] 0 and a message, having run no
    command.  With a secret and capabilities given and the acting identity
    [client.bootstrap-rgw], the module runs [get-or-create], a command that
    changes the registry, after [ceph-authtool]. *)
Lemma no_import_existing_keyring_exits_zero :
  let w := Test.mkWorld [] [foo_keyring] ["/etc/ceph/"] 1700000000 "A"%byte in
  @execute quiet present_foo_no_import w
  = (Exit (ExitJson
             (mkResult None 0
                "client.foo already exists in /etc/ceph/ you must provide secret *and* caps when import_key is False"
                "" false None)),
     @mkState quiet w [])
  /\ trace (snd (@execute quiet present_foo_given
                   (Test.mkWorld [(0%Z, "", ""); (0%Z, "", "")] [] ["/etc/ceph/"]
                      1700000000 "A"%byte)))
     = [[A "ceph-authtool"; A "--create-keyring"; A foo_keyring; A "--name";
         A "client.foo"; A "--add-key"; A "AQBsecret=="; A "--cap"; A "mon";
         A "allow r"];
        [A "ceph"; A "-n"; A "client.bootstrap-rgw"; A "-k";
         A "/var/lib/ceph/bootstrap-rgw/ceph.keyring"; A "--cluster"; A "ceph";
         A "auth"; A "get-or-create"; A "client.foo"; A "mon"; A "allow r";
         A "-o"; A foo_keyring]].
Proof. split; reflexivity. Qed.

(** C4, amended: in the states [present] and [update] with [import_key]
    false, when the keyring file exists and the secret or the capabilities
    are not given, the module runs no command and leaves through
    [exit_json] with [rc] 0, unchanged, and a message (it is not a
    failure).  When the capabilities are given, and the secret is given or
    the file does not exist, the module goes on to write the keyring with
    [ceph-authtool]; no command for the registry follows when the acting
    identity is [client.admin], and for another acting identity the only
    command that may follow is [get-or-create]. *)
Theorem present_without_import {Sys : System} (p : params) (w : World)
    (file_path : string) :
  let user_key_path := user_key_path_of (p_cluster p) (p_user p) (p_user_key p) in
  p_check_mode p = false ->
  PyStr.mem (p_state p) ["present"; "update"] = true ->
  p_import_key p = false ->
  file_path_of (p_cluster p) (p_name p) (p_dest p) (mkState w [])
  = (Ret file_path, mkState w []) ->
  (isfile file_path w = true ->
   truthy_str (p_secret p) = false \/ falsy_dict (p_caps p) = true ->
   execute p w
   = (Exit (ExitJson
              (mkResult None 0
                 (fmt_opt (p_name p) ^^ " already exists in " ^^ p_dest p
                    ^^ " you must provide secret *and* caps when import_key is False")
                 "" false None)),
      mkState w []))
  /\ (forall caps, p_caps p = Some caps -> caps <> [] ->
      truthy_str (p_secret p) = true
      \/ (isfile file_path w = false
          /\ (- 2 ^ 31 <= time_time (snd (os_urandom 16 w)) < 2 ^ 31)%Z) ->
      exists secret_arg authtool e final rest,
        generate_ceph_authtool_cmd (p_cluster p) (arg_of_option (p_name p)) secret_arg
          (Some caps) file_path is_containerized = Ret authtool
        /\ execute p w = (Exit e, final)
        /\ trace final = authtool :: rest
        /\ (p_user p = "client.admin" -> rest = [])
        /\ (rest = []
            \/ rest = [generate_cmd (p_cluster p)
                         (([A "get-or-create"; arg_of_option (p_name p)]
                             ++ flat_map (fun kv => [A (fst kv); A (snd kv)])
                                  (filter named caps))
                            ++ [A "-o"; A file_path])
                         (p_user p) user_key_path is_containerized])).
Proof.
  intros user_key_path HC HS HI HF. split.
  - intros HP HU. unfold execute, run_module. rewrite HC, HS.
    unfold bind at 1. unfold state_present. unfold bind at 1. rewrite HF, HI.
    unfold bind at 1. unfold present_no_import. unfold bind at 1.
    unfold read at 1. cbn [world]. rewrite HP, HI. cbn [andb].
    assert (E : negb (truthy_str (p_secret p)) || falsy_dict (p_caps p) = true).
    { destruct HU as [->| ->]; [reflexivity | apply orb_true_r]. }
    rewrite E. reflexivity.
  - intros caps HCaps HN HU.
    assert (HG : truthy_str (p_secret p) = true
                 \/ (- 2 ^ 31 <= time_time (snd (os_urandom 16 w)) < 2 ^ 31)%Z)
      by (destruct HU as [H|[_ H]]; [now left | now right]).
    destruct (create_key_commands (p_cluster p) (p_user p) user_key_path file_path
                (p_name p) (p_secret p) caps false is_containerized (mkState w []) HG)
      as (secret_arg & authtool & s' & AT & Tr & CK).
    cbv zeta in CK.
    match type of CK with _ = (Ret (_ :: ?r), _) => set (regs := r) in CK end.
    assert (L : (List.length regs <= 1)%nat)
      by (subst regs; destruct (String.eqb (p_user p) "client.admin"); simpl; lia).
    destruct (after_create (p_name p) file_path (authtool :: regs) s' authtool regs
                eq_refl L) as (e & final & rest & EX & T & R).
    exists secret_arg, authtool, e, final, rest.
    split; [exact AT|].
    split.
    + unfold execute, run_module. rewrite HC, HS.
      unfold bind at 1. unfold state_present. unfold bind at 1. rewrite HF, HI.
      unfold bind at 1. unfold present_no_import. unfold bind at 1.
      unfold read at 1. cbn [world]. rewrite HCaps.
      assert (E : isfile file_path w && negb (truthy_str (p_secret p))
                  || falsy_dict (Some caps) = false).
      { destruct caps; [contradiction|]. cbn [falsy_dict]. rewrite orb_false_r.
        destruct HU as [->|[-> _]]; [apply andb_false_r | reflexivity]. }
      rewrite E. unfold ret at 1. cbn [d_key_exist d_secret d_caps Z.eqb negb andb orb].
      unfold bind at 1. fold user_key_path. rewrite CK.
      exact EX.
    + split; [now rewrite T, Tr|]. split.
      * intros U. destruct R as [->| ->]; [reflexivity|].
        subst regs. now rewrite U.
      * destruct R as [->| ->]; [now left|].
        subst regs. destruct (String.eqb (p_user p) "client.admin"); [now left | now right].
Qed.

Lemma lookup_In {V} (d : dict V) (k : string) (v : V) :
  Dict.wf d -> In (k, v) d -> Dict.lookup k d = Some v.
Proof.
  unfold Dict.wf, Dict.keys. induction d as [|[k' v'] r IH]; intros W I; [easy|].
  simpl in *. inversion W as [|? ? N W']. subst.
  destruct I as [E|I].
  - inversion E. subst. now rewrite String.eqb_refl.
  - destruct (String.eqb_spec k k') as [->|_]; [|now apply IH].
    exfalso. apply N. apply in_map_iff. now exists (k', v).
Qed.

Lemma dict_eqb_refl (d : dict string) : Dict.wf d -> Dict.eqb String.eqb d d = true.
Proof.
  intros W. unfold Dict.eqb. rewrite Nat.eqb_refl. simpl.
  apply forallb_forall. intros [k v] I. simpl.
  rewrite (lookup_In d k v W I). apply String.eqb_refl.
Qed.

(** C7: in the states [present] and [update] with [import_key] true, when
    the registry holds the entity and the secret and the capabilities, each
    either not given (then taken from the registry) or equal to the ones of
    the registry, the module leaves through [exit_json], unchanged.  The
    only commands run are the query and, when the keyring file is missing,
    the [get] that writes it: neither [ceph-authtool] nor a command that
    changes the registry. *)
Theorem present_unchanged_is_noop {Sys : System} (p : params) (w w1 : World)
    (file_path out err : string) (_info_key : json) (cur_secret : string)
    (cur_caps : dict string) :
  let user_key_path := user_key_path_of (p_cluster p) (p_user p) (p_user_key p) in
  let registry args :=
    generate_cmd (p_cluster p) args (p_user p) user_key_path is_containerized in
  let info := registry [A "get"; arg_of_option (p_name p); A "-f"; A (p_output_format p)] in
  let fetch := registry [A "get"; arg_of_option (p_name p); A "-o"; A file_path] in
  p_check_mode p = false ->
  PyStr.mem (p_state p) ["present"; "update"] = true ->
  p_import_key p = true ->
  file_path_of (p_cluster p) (p_name p) (p_dest p) (mkState w [])
  = (Ret file_path, mkState w []) ->
  run_command info w = ((0%Z, out, err), w1) ->
  json_loads out = Some _info_key ->
  obind (info_field "key" _info_key) as_secret = Ret cur_secret ->
  obind (info_field "caps" _info_key) as_caps = Ret cur_caps ->
  Dict.wf cur_caps ->
  truthy_str (p_secret p) = false \/ p_secret p = Some cur_secret ->
  falsy_dict (p_caps p) = true
  \/ (exists c, p_caps p = Some c /\ Dict.eqb String.eqb c cur_caps = true) ->
  exists r final,
    execute p w = (Exit (ExitJson r), final)
    /\ r_changed r = false
    /\ trace final = if isfile file_path w1 then [info] else [info; fetch].
Proof.
  intros user_key_path registry info fetch HC HS HI HF HR HJ HK HP HW HSec HCaps.
  assert (ES : secret_eqb (if truthy_str (p_secret p) then p_secret p else Some cur_secret)
                 (Some cur_secret) = true).
  { destruct HSec as [->| E].
    - apply String.eqb_refl.
    - rewrite E. destruct (truthy_str (Some cur_secret)); apply String.eqb_refl. }
  assert (EC : caps_eqb (if falsy_dict (p_caps p) then Some cur_caps else p_caps p)
                 (Some cur_caps) = true).
  { destruct HCaps as [->| (c & E & D)].
    - now apply dict_eqb_refl.
    - rewrite E. destruct (falsy_dict (Some c)); [now apply dict_eqb_refl | exact D]. }
  unfold execute, run_module. rewrite HC, HS.
  fold user_key_path.
  unfold bind at 1. unfold state_present. unfold bind at 1. rewrite HF. rewrite HI.
  unfold bind at 1. unfold present_import. unfold bind at 1.
  unfold info_key. rewrite exec_one. subst info fetch registry. cbv beta in *.
  cbn [world trace]. rewrite HR. cbn [Z.eqb negb andb]. rewrite andb_false_r.
  cbn [app]. 
  unfold bind at 1. unfold ret at 1. unfold bind at 1. unfold ret at 1.
  rewrite HJ. unfold bind at 1. unfold ret at 1.
  unfold bind at 1. unfold lift at 1. rewrite HK.
  unfold bind at 1. unfold lift at 1. rewrite HP.
  rewrite ES, EC. cbn [andb].
  unfold bind at 1. unfold read at 1. cbn [world].
  destruct (isfile file_path w1); cbn [negb].
  - unfold bind, ret, update, exit_json, stop, lift. cbn [world trace].
    eexists. eexists. split; [reflexivity|]. split; reflexivity.
  - unfold get_key. unfold bind at 1. unfold bind at 1. rewrite exec_one.
    cbn [world trace].
    destruct (run_command _ w1) as [[[rc2 out2] err2] w2].
    destruct (rc2 =? 0)%Z; cbn [negb];
      unfold bind, ret, update, exit_json, stop, lift; cbn [world trace];
      (eexists; eexists; split; [reflexivity|]; split; reflexivity).
Qed.

(** ** Two runs of the module *)

(** The listing [LIST5] names five of the seven initial entities: the run
    of [fetch_initial_keys] lists the registry as [mon.] and ends with
    [fatal], naming the two that are missing. *)
Example fetch_initial_keys_incomplete :
  @execute quiet fetch_initial world_list5
  = (Exit (Fatal "initial keyring does not contain keys: client.bootstrap-rbd client.bootstrap-rbd-mirror"),
     @mkState quiet (Test.mkWorld [] [] ["/etc/ceph/"] 1700000000 "A"%byte)
       [[A "ceph"; A "-n"; A "mon."; A "-k"; A "/var/lib/ceph/mon/ceph-mon0/keyring";
         A "--cluster"; A "ceph"; A "auth"; A "ls"; A "-f"; A "json"]]).
Proof. reflexivity. Qed.

(** [client.admin] with a secret and capabilities and [import_key] false:
    one command, the keyring written by [ceph-authtool]. *)
Example present_admin_writes_keyring_only :
  @execute quiet present_admin_no_import world_accepting
  = (Exit (ExitJson
             (mkResult
                (Some (CmdList
                         [A "ceph-authtool"; A "--create-keyring"; A admin_keyring;
                          A "--name"; A "client.admin"; A "--add-key";
                          A "AQBsecret=="; A "--cap"; A "mon"; A "allow *"]))
                0 "" "updated" true None)),
     @mkState quiet (Test.mkWorld [] [] ["/etc/ceph/"] 1700000000 "A"%byte)
       [[A "ceph-authtool"; A "--create-keyring"; A admin_keyring;
         A "--name"; A "client.admin"; A "--add-key";
         A "AQBsecret=="; A "--cap"; A "mon"; A "allow *"]]).
Proof. reflexivity. Qed.

(** * The theorems at concrete inputs *)

(** The listing [LIST5] with no flag in the environment. *)
Lemma initial_entities_missing_reported_witness :
  @json_loads quiet "LIST5" = Some Test.list5
  /\ List.length five < 7
  /\ @getenv quiet "CEPH_ROLLING_UPDATE" = None
  /\ @lookup_ceph_initial_entities quiet "LIST5"
     = fatal "initial keyring does not contain keys: client.bootstrap-rbd client.bootstrap-rbd-mirror".
Proof.
  assert (L : List.length five < 7) by (simpl; lia).
  split; [reflexivity|]. split; [exact L|]. split; [reflexivity|].
  destruct (@initial_entities_missing_reported quiet "LIST5" _ _ five
              eq_refl eq_refl eq_refl L) as (_ & _ & _ & H & _).
  exact (H eq_refl).
Defined.

(** [client.foo] deleted twice, on a registry that holds it. *)
Lemma absent_twice_fails_twice_witness :
  p_check_mode absent_foo = false
  /\ p_state absent_foo = "absent"
  /\ @execute quiet absent_foo world_delete_twice
     = (Exit (Raised (UnboundLocalError "cmd")), @mkState quiet world_delete_twice [])
  /\ @execute quiet absent_foo
       (world (snd (@execute quiet absent_foo world_delete_twice)))
     = (Exit (Raised (UnboundLocalError "cmd")), @mkState quiet world_delete_twice []).
Proof.
  split; [reflexivity|]. split; [reflexivity|].
  exact (@absent_twice_fails_twice quiet absent_foo world_delete_twice eq_refl eq_refl).
Defined.

(** [client.foo] without import: the keyring on disk and no secret; then a
    secret and capabilities given, acting as [client.bootstrap-rgw]. *)
Lemma present_without_import_witness :
  let w := Test.mkWorld [] [foo_keyring] ["/etc/ceph/"] 1700000000 "A"%byte in
  (@isfile quiet foo_keyring w = true
   /\ truthy_str (p_secret present_foo_no_import) = false
   /\ @execute quiet present_foo_no_import w
      = (Exit (ExitJson
                 (mkResult None 0
                    "client.foo already exists in /etc/ceph/ you must provide secret *and* caps when import_key is False"
                    "" false None)),
         @mkState quiet w []))
  /\ (truthy_str (p_secret present_foo_given) = true
      /\ exists secret_arg authtool e final rest,
           @generate_ceph_authtool_cmd quiet "ceph" (A "client.foo") secret_arg
             (Some [("mon", "allow r")]) foo_keyring None = Ret authtool
           /\ @execute quiet present_foo_given world_accepting = (Exit e, final)
           /\ trace final = authtool :: rest
           /\ ("client.bootstrap-rgw" = "client.admin" -> rest = [])
           /\ (rest = []
               \/ rest = [[A "ceph"; A "-n"; A "client.bootstrap-rgw"; A "-k";
                           A "/var/lib/ceph/bootstrap-rgw/ceph.keyring";
                           A "--cluster"; A "ceph"; A "auth"; A "get-or-create";
                           A "client.foo"; A "mon"; A "allow r"; A "-o";
                           A foo_keyring]])).
Proof.
  intros w. split.
  - split; [reflexivity|]. split; [reflexivity|].
    destruct (@present_without_import quiet present_foo_no_import w foo_keyring
                eq_refl eq_refl eq_refl eq_refl) as [H _].
    exact (H eq_refl (or_introl eq_refl)).
  - split; [reflexivity|].
    destruct (@present_without_import quiet present_foo_given world_accepting
                foo_keyring eq_refl eq_refl eq_refl eq_refl) as [_ H].
    refine (H [("mon", "allow r")] eq_refl _ (or_introl eq_refl)).
    discriminate.
Defined.

(** A secret generated with the clock at 1700000000. *)
Lemma generate_secret_layout_witness :
  (- 2 ^ 31 <= 1700000000 < 2 ^ 31)%Z
  /\ @generate_secret quiet (@mkState quiet quiet_world [])
     = (Ret (Base64.b64encode (secret_header 1700000000 16 ++ repeat "A"%byte 16)),
        @mkState quiet quiet_world [])
  /\ read_le 6 4 (secret_header 1700000000 16 ++ repeat "A"%byte 16) = 0%Z
  /\ read_le 10 2 (secret_header 1700000000 16 ++ repeat "A"%byte 16) = 16%Z.
Proof.
  assert (R : (- 2 ^ 31 <= 1700000000 < 2 ^ 31)%Z) by (split; [discriminate | reflexivity]).
  split; [exact R|].
  destruct (@generate_secret_layout quiet (@mkState quiet quiet_world []) R)
    as (H1 & _ & _ & _ & _ & _ & H7 & H8 & _).
  split; [exact H1|]. split; [exact H7 | exact H8].
Defined.

(** The administrator importing its own key. *)
Lemma create_key_registry_command_witness :
  truthy_str (Some "AQBsecret==") = true
  /\ exists secret_arg authtool s',
       @generate_ceph_authtool_cmd quiet "ceph" (A "client.admin") secret_arg
         (Some [("mon", "allow *")]) admin_keyring None = Ret authtool
       /\ trace s' = []
       /\ @create_key quiet "ceph" "client.admin" admin_keyring (Some "client.admin")
            (Some "AQBsecret==") (Some [("mon", "allow *")]) true admin_keyring None
            (@mkState quiet quiet_world [])
          = (Ret [authtool;
                  [A "ceph"; A "-n"; A "client.admin"; A "-k"; A admin_keyring;
                   A "--cluster"; A "ceph"; A "auth"; A "import"; A "-i";
                   A admin_keyring]],
             s').
Proof.
  split; [reflexivity|].
  exact (@create_key_registry_command quiet "ceph" "client.admin" admin_keyring
           admin_keyring (Some "client.admin") (Some "AQBsecret==")
           [("mon", "allow *")] true None (@mkState quiet quiet_world [])
           (or_introl eq_refl)).
Defined.

(** [client.foo], nothing given, the registry holding it and the keyring
    on disk. *)
Lemma present_unchanged_is_noop_witness :
  let w1 := Test.mkWorld [] [foo_keyring] ["/etc/ceph/"] 1700000000 "A"%byte in
  @json_loads quiet "INFO" = Some Test.info_foo
  /\ Dict.wf [("mon", "allow r")]
  /\ truthy_str (p_secret present_foo) = false
  /\ falsy_dict (p_caps present_foo) = true
  /\ exists r final,
       @execute quiet present_foo world_with_keyring = (Exit (ExitJson r), final)
       /\ r_changed r = false
       /\ trace final
          = [[A "ceph"; A "-n"; A "client.admin"; A "-k"; A admin_keyring;
              A "--cluster"; A "ceph"; A "auth"; A "get"; A "client.foo"; A "-f";
              A "json"]].
Proof.
  intros w1.
  assert (W : Dict.wf [("mon", "allow r")]).
  { unfold Dict.wf. simpl. constructor; [intros []|constructor]. }
  split; [reflexivity|]. split; [exact W|]. split; [reflexivity|].
  split; [reflexivity|].
  exact (@present_unchanged_is_noop quiet present_foo world_with_keyring w1
           foo_keyring "INFO" "" Test.info_foo "AQBsecret==" [("mon", "allow r")]
           eq_refl eq_refl eq_refl eq_refl eq_refl eq_refl eq_refl eq_refl W
           (or_introl eq_refl) (or_introl eq_refl)).
Defined.

(** A file, a bootstrap directory and [/etc/ceph/] as destinations. *)
Lemma file_path_rules_witness :
  let w := Test.mkWorld [] [] ["/etc/ceph/"; "/var/lib/ceph/bootstrap-osd/"]
             1700000000 "A"%byte in
  let s := @mkState quiet w [] in
  (@isdir quiet "/tmp/foo.keyring" w = false
   /\ @file_path_of quiet "ceph" (Some "client.foo") "/tmp/foo.keyring" s
      = (Ret "/tmp/foo.keyring", s))
  /\ (@isdir quiet "/var/lib/ceph/bootstrap-osd/" w = true
      /\ PyStr.contains "bootstrap" "/var/lib/ceph/bootstrap-osd/" = true
      /\ @file_path_of quiet "ceph" (Some "client.bootstrap-osd")
           "/var/lib/ceph/bootstrap-osd/" s
         = (Ret "/var/lib/ceph/bootstrap-osd/ceph.keyring", s))
  /\ (@isdir quiet "/etc/ceph/" w = true
      /\ PyStr.contains "bootstrap" "/etc/ceph/" = false
      /\ @file_path_of quiet "ceph" (Some "client.admin") "/etc/ceph/" s
         = (Ret "/etc/ceph/ceph.client.admin.keyring", s)).
Proof.
  intros w s. split; [|split].
  - split; [reflexivity|].
    destruct (@file_path_rules quiet "ceph" "client.foo" "/tmp/foo.keyring" s)
      as (H & _).
    exact (H eq_refl (Some "client.foo")).
  - split; [reflexivity|]. split; [reflexivity|].
    destruct (@file_path_rules quiet "ceph" "client.bootstrap-osd"
                "/var/lib/ceph/bootstrap-osd/" s) as (_ & H & _).
    exact (H eq_refl eq_refl (Some "client.bootstrap-osd")).
  - split; [reflexivity|]. split; [reflexivity|].
    destruct (@file_path_rules quiet "ceph" "client.admin" "/etc/ceph/" s)
      as (_ & _ & H & _).
    exact (H eq_refl eq_refl).
Defined.

(** [CEPH_ROLLING_UPDATE] set to [yes]: the listing incomplete, and the
    listing complete. *)
Lemma str_to_bool_spec_witness :
  PyStr.lower "Yes" <> "true"
  /\ PyStr.lower "Yes" <> "false"
  /\ str_to_bool (VStr "Yes") = raise (ValueError "Invalid input value: yes")
  /\ @getenv rolling_yes "CEPH_ROLLING_UPDATE" = Some "yes"
  /\ List.length five <> List.length CEPH_INITIAL_KEYS
  /\ @check_initial_entities rolling_yes five
     = raise (ValueError "Invalid input value: yes")
  /\ @check_initial_entities rolling_yes CEPH_INITIAL_KEYS = Ret CEPH_INITIAL_KEYS.
Proof.
  assert (N1 : PyStr.lower "Yes" <> "true") by discriminate.
  assert (N2 : PyStr.lower "Yes" <> "false") by discriminate.
  assert (N3 : PyStr.lower "yes" <> "true") by discriminate.
  assert (N4 : PyStr.lower "yes" <> "false") by discriminate.
  assert (L : List.length five <> List.length CEPH_INITIAL_KEYS) by discriminate.
  destruct (@str_to_bool_spec rolling_yes (VStr "Yes") "yes" five)
    as (_ & _ & H3 & _ & _ & _ & _ & _ & _ & H9 & _).
  destruct (@str_to_bool_spec rolling_yes (VStr "Yes") "yes" CEPH_INITIAL_KEYS)
    as (_ & _ & _ & _ & _ & _ & _ & _ & _ & _ & H10).
  split; [exact N1|]. split; [exact N2|]. split; [exact (H3 N1 N2)|].
  split; [reflexivity|]. split; [exact L|].
  split; [exact (H9 eq_refl N3 N4 L) | exact (H10 eq_refl)].
Defined.

(** * More of the module *)

(** ** exec_commands *)

Lemma replay_cons {Sys : System} (c : command) (rest : list command) (w : World) :
  replay (c :: rest) w
  = (fst (run_command c w) :: fst (replay rest (snd (run_command c w))),
     snd (replay rest (snd (run_command c w)))).
Proof.
  cbn [replay]. destruct (run_command c w) as [a w']. cbn [fst snd].
  now destruct (replay rest w').
Qed.

Lemma exec_commands_loop_first_failure {Sys : System} (rest : list command) :
  forall (c : command) (last : option (Z * command * string * string)) (s : state),
  exists n cmd rc out err,
    n < List.length (c :: rest)
    /\ nth_error (c :: rest) n = Some cmd
    /\ nth_error (fst (replay (c :: rest) (world s))) n = Some (rc, out, err)
    /\ (forall i a, i < n ->
        nth_error (fst (replay (c :: rest) (world s))) i = Some a -> fst (fst a) = 0%Z)
    /\ (rc <> 0%Z \/ S n = List.length (c :: rest))
    /\ exec_commands_loop (c :: rest) last s
       = (Ret (rc, cmd, out, err),
          mkState (snd (replay (firstn (S n) (c :: rest)) (world s)))
            (trace s ++ firstn (S n) (c :: rest))).
Proof.
  induction rest as [|c2 rest IH]; intros c last s.
  - cbn [exec_commands_loop]. unfold bind, run. rewrite replay_cons.
    cbn [firstn replay fst snd].
    destruct (run_command c (world s)) as [[[rc out] err] w]. cbn [fst snd].
    exists 0, c, rc, out, err.
    split; [simpl; lia|]. split; [reflexivity|]. split; [reflexivity|].
    split; [intros i a Hi; lia|]. split; [now right|].
    now destruct (rc =? 0)%Z.
  - cbn [exec_commands_loop]. unfold bind at 1. unfold run at 1.
    rewrite replay_cons.
    destruct (run_command c (world s)) as [[[rc out] err] w] eqn:RC. cbn [fst snd].
    destruct (rc =? 0)%Z eqn:E.
    + destruct (IH c2 (Some (rc, c, out, err)) (mkState w (trace s ++ [c])))
        as (n & cmd & rc' & out' & err' & H1 & H2 & H3 & H4 & H5 & H6).
      cbn [world trace] in *.
      exists (S n), cmd, rc', out', err'.
      split; [simpl in *; lia|]. split; [exact H2|]. split; [exact H3|].
      split.
      { intros [|i] a Hi Ha.
        - cbn in Ha. injection Ha as <-. cbn. now apply Z.eqb_eq.
        - apply (H4 i a); [lia | exact Ha]. }
      split; [destruct H5 as [H5|H5]; [now left | right; simpl in *; lia]|].
      refine (eq_trans H6 _).
      change (firstn (S (S n)) (c :: c2 :: rest))
        with (c :: firstn (S n) (c2 :: rest)).
      rewrite (replay_cons c), RC. cbn [fst snd]. now rewrite <- app_assoc.
    + exists 0, c, rc, out, err.
      split; [simpl; lia|]. split; [reflexivity|]. split; [reflexivity|].
      split; [intros i a Hi; lia|].
      split; [left; now apply Z.eqb_neq|].
      cbn [firstn]. rewrite replay_cons, RC. reflexivity.
Qed.

(** X1: [exec_commands] on a list that is not empty runs the commands in
    order, each in the world the one before it left, and stops at the first
    one that exits with a code other than 0.  With [answers] the answers
    [module.run_command] gives to the commands of the list, there is a
    position [n] such that every command before [n] answered with exit code
    0, the command at [n] answered with another code or is the last of the
    list, and the call returns the command at [n] with its answer.  The
    commands run are the first [n + 1] of the list, no more, and the world
    is the one they leave. *)
Theorem exec_commands_stops_at_failure {Sys : System} (cmd_list : list command)
    (s : state) :
  cmd_list <> [] ->
  let answers := fst (replay cmd_list (world s)) in
  exists n cmd rc out err,
    n < List.length cmd_list
    /\ nth_error cmd_list n = Some cmd
    /\ nth_error answers n = Some (rc, out, err)
    /\ (forall i a, i < n -> nth_error answers i = Some a -> fst (fst a) = 0%Z)
    /\ (rc <> 0%Z \/ S n = List.length cmd_list)
    /\ exec_commands cmd_list s
       = (Ret (rc, cmd, out, err),
          mkState (snd (replay (firstn (S n) cmd_list) (world s)))
            (trace s ++ firstn (S n) cmd_list)).
Proof.
  destruct cmd_list as [|c rest]; [contradiction|]. intros _.
  apply exec_commands_loop_first_failure.
Qed.

(** ** build_key_path and lookup_ceph_initial_entities *)

Lemma build_key_path_some (cluster entity : string) :
  In entity CEPH_INITIAL_KEYS ->
  exists path, build_key_path cluster entity = Ret (Some path).
Proof.
  intros H. simpl in H.
  repeat (destruct H as [<-|H]; [eexists; reflexivity|]). contradiction.
Qed.

(** X2: every initial entity has a keyring path: [build_key_path] returns
    neither [None] nor an error for it.  The path of [client.admin] is
    [cluster.client.admin.keyring] joined onto [/etc/ceph]; the path of
    [client.x] is [cluster.keyring] joined onto [/var/lib/ceph/x]. *)
Theorem build_key_path_initial (cluster entity : string) :
  In entity CEPH_INITIAL_KEYS ->
  exists path,
    build_key_path cluster entity = Ret (Some path)
    /\ (entity = "client.admin" ->
        path = PyStr.path_join "/etc/ceph" (cluster ^^ ".client.admin.keyring"))
    /\ (entity <> "client.admin" ->
        exists dir, entity = "client." ^^ dir
                    /\ path = path_join3 "/var/lib/ceph" dir (cluster ^^ ".keyring")).
Proof.
  intros H. simpl in H.
  repeat (destruct H as [<-|H]; [eexists; split; [reflexivity|]; split;
      [try discriminate; intros _; reflexivity
      |try (intros N; now contradiction N); intros _; eexists; split; reflexivity]|]).
  contradiction.
Qed.

Lemma check_initial_entities_returns {Sys : System} (found entities : list string) :
  check_initial_entities found = Ret entities ->
  entities = found
  /\ (List.length found = 7 \/ str_to_bool rolling_update_env = Ret true).
Proof.
  unfold check_initial_entities.
  destruct (List.length found =? List.length CEPH_INITIAL_KEYS)%nat eqn:L; cbn [negb].
  - cbn [obind]. intros H. injection H as E. subst entities.
    split; [reflexivity|]. left. apply Nat.eqb_eq in L. exact L.
  - destruct (str_to_bool rolling_update_env) as [[|]|e]; cbn [obind negb];
      intros H; try discriminate H.
    injection H as E. subst entities. split; [reflexivity | now right].
Qed.

Lemma lookup_returns_records {Sys : System} (out : string) (entities : list string) :
  lookup_ceph_initial_entities out = Ret entities ->
  exists records found,
    lookup_records records [] = Ret found
    /\ check_initial_entities found = Ret entities.
Proof.
  unfold lookup_ceph_initial_entities.
  destruct (json_loads out) as [out_dict|]; [|discriminate].
  destruct (json_contains "auth_dump" out_dict) as [[|]|]; cbn [obind];
    try discriminate.
  destruct (json_getitem "auth_dump" out_dict) as [dump|]; cbn [obind];
    try discriminate.
  destruct (json_iter dump) as [records|]; cbn [obind]; try discriminate.
  destruct (lookup_records records []) as [found|] eqn:R; cbn [obind];
    try discriminate.
  intros H. now exists records, found.
Qed.

Lemma lookup_returns_incl {Sys : System} (out : string) (entities : list string) :
  lookup_ceph_initial_entities out = Ret entities ->
  incl entities CEPH_INITIAL_KEYS.
Proof.
  intros H. destruct (lookup_returns_records out entities H)
    as (records & found & R & C).
  destruct (check_initial_entities_returns found entities C) as [-> _].
  intros e He. apply (lookup_records_spec records [] found e R) in He.
  destruct He as [[]|(items & _ & _ & K)]. exact K.
Qed.

(** X3: whatever the listing, the entities [lookup_ceph_initial_entities]
    returns are initial entities; and when [CEPH_ROLLING_UPDATE] is not
    set it returns only with exactly seven of them. *)
Theorem lookup_returns_initial_entities {Sys : System} (out : string)
    (entities : list string) :
  lookup_ceph_initial_entities out = Ret entities ->
  incl entities CEPH_INITIAL_KEYS
  /\ (getenv "CEPH_ROLLING_UPDATE" = None -> List.length entities = 7).
Proof.
  intros H. split; [exact (lookup_returns_incl out entities H)|].
  destruct (lookup_returns_records out entities H) as (records & found & R & C).
  destruct (check_initial_entities_returns found entities C) as [-> D].
  intros E. destruct D as [D|D]; [exact D|].
  unfold rolling_update_env in D. rewrite E in D. discriminate D.
Qed.

Lemma lookup_is_check {Sys : System} (out : string) (o : list (string * json))
    (records : list json) (entities : list string) :
  json_loads out = Some (JObj o) ->
  Dict.lookup "auth_dump" o = Some (JArr records) ->
  lookup_records records [] = Ret entities ->
  lookup_ceph_initial_entities out = check_initial_entities entities.
Proof.
  intros HJ HD HR.
  unfold lookup_ceph_initial_entities. rewrite HJ. cbn [json_contains obind].
  rewrite (lookup_in_existsb _ _ _ HD). cbn [json_getitem]. rewrite HD.
  cbn [obind json_iter]. now rewrite HR.
Qed.

(** X4: when exactly seven records of the listing match, the lookup
    returns them without reading [CEPH_ROLLING_UPDATE]: whatever the
    environment holds, also a value [str_to_bool] rejects. *)
Theorem complete_listing_ignores_flag {Sys : System} (out : string)
    (o : list (string * json)) (records : list json) (entities : list string) :
  json_loads out = Some (JObj o) ->
  Dict.lookup "auth_dump" o = Some (JArr records) ->
  lookup_records records [] = Ret entities ->
  List.length entities = 7 ->
  lookup_ceph_initial_entities out = Ret entities.
Proof.
  intros HJ HD HR HL. rewrite (lookup_is_check out o records entities HJ HD HR).
  unfold check_initial_entities. rewrite HL. reflexivity.
Qed.

(** X5: the completeness test compares the number of matches with 7.  A
    listing that names every initial entity but matches more than seven
    records (an entity is listed twice) is rejected when
    [CEPH_ROLLING_UPDATE] is not set, and the message names no entity. *)
Theorem repeated_entity_is_rejected {Sys : System} (out : string)
    (o : list (string * json)) (records : list json) (entities : list string) :
  json_loads out = Some (JObj o) ->
  Dict.lookup "auth_dump" o = Some (JArr records) ->
  lookup_records records [] = Ret entities ->
  (forall e, In e CEPH_INITIAL_KEYS -> In e entities) ->
  7 < List.length entities ->
  getenv "CEPH_ROLLING_UPDATE" = None ->
  lookup_ceph_initial_entities out = fatal "initial keyring does not contain keys: ".
Proof.
  intros HJ HD HR HA HL HE. rewrite (lookup_is_check out o records entities HJ HD HR).
  assert (HN : List.length entities <> List.length CEPH_INITIAL_KEYS)
    by (change (List.length CEPH_INITIAL_KEYS) with 7; lia).
  rewrite (check_initial_entities_flag entities false HN);
    [|unfold rolling_update_env; now rewrite HE].
  assert (M : filter (fun e => negb (PyStr.mem e entities)) CEPH_INITIAL_KEYS = []).
  { destruct (filter _ CEPH_INITIAL_KEYS) as [|x l] eqn:F; [reflexivity|].
    assert (I : In x (filter (fun e => negb (PyStr.mem e entities)) CEPH_INITIAL_KEYS))
      by (rewrite F; now left).
    apply filter_In in I. destruct I as [I1 I2].
    apply negb_true_iff, mem_false in I2. contradiction (I2 (HA x I1)). }
  rewrite M. reflexivity.
Qed.

(** ** The state fetch_initial_keys *)

Lemma fetch_loop_all_present {Sys : System} (cluster user user_key_path : string)
    (container_image : option string) (entities : list string)
    (r : Z * command * string * string) (s : state) :
  (forall e, In e entities ->
     exists path, build_key_path cluster e = Ret (Some path)
                  /\ isfile path (world s) = true) ->
  fetch_loop cluster user user_key_path container_image entities r s = (Ret r, s).
Proof.
  induction entities as [|e rest IH]; intros H; [reflexivity|].
  destruct (H e (or_introl eq_refl)) as (path & P & F).
  cbn [fetch_loop]. unfold bind at 1. unfold lift at 1. rewrite P.
  unfold bind at 1. unfold read at 1. rewrite F.
  apply IH. intros x Hx. apply H. now right.
Qed.

Lemma finish_bound {Sys : System} (rc : Z) (cmd : command) (out err : string)
    (changed : bool) (s : state) :
  finish (bound (rc, cmd, out, err) changed) s
  = (let result := mkResult (Some (CmdList cmd)) rc (PyStr.rstrip_crlf out)
                     (PyStr.rstrip_crlf err) changed None in
     Exit (if (rc =? 0)%Z then ExitJson result
           else FailJson "non-zero return code" result), s).
Proof.
  unfold finish, bound. cbn. now destruct (rc =? 0)%Z.
Qed.

Ltac enter_state HC HS :=
  unfold execute, run_module; rewrite HC, HS;
  cbn [PyStr.mem existsb String.eqb Ascii.eqb Bool.eqb orb].

Lemma last_cons {T} (l : list T) (a d : T) : last (a :: l) d = last l a.
Proof.
  revert a d. induction l as [|b l IH]; intros a d; [reflexivity|].
  change (last (a :: b :: l) d) with (last (b :: l) d).
  now rewrite (IH b d), (IH b a).
Qed.

Lemma fetch_all_cons {Sys : System} (cluster entity : string) (rest : list string)
    (w : World) :
  isfile (key_path_of cluster entity) w = false ->
  let w1 := set_fs_attributes_if_different (key_path_of cluster entity)
              (snd (run_command (fetch_cmd cluster entity) w)) in
  fetch_all cluster (entity :: rest) w
  = ((entity, fst (run_command (fetch_cmd cluster entity) w))
       :: fst (fetch_all cluster rest w1),
     snd (fetch_all cluster rest w1)).
Proof.
  intros F. cbn [fetch_all]. rewrite F.
  destruct (run_command (fetch_cmd cluster entity) w) as [a w1]. cbn [fst snd].
  now destruct (fetch_all cluster rest _).
Qed.

(** The loop of lines 647-670 carries out the plan [fetch_all]. *)
Lemma fetch_loop_is_fetch_all {Sys : System} (cluster : string)
    (entities : list string) :
  incl entities CEPH_INITIAL_KEYS ->
  forall (r : Z * command * string * string) (s : state),
    fetch_loop cluster "mon." (mon_key_path cluster) is_containerized entities r s
    = (Ret (last (map (fetch_report cluster)
                    (fst (fetch_all cluster entities (world s)))) r),
       mkState (snd (fetch_all cluster entities (world s)))
         (trace s ++ map (fun x => fetch_cmd cluster (fst x))
                       (fst (fetch_all cluster entities (world s))))).
Proof.
  induction entities as [|e rest IH]; intros I r s.
  - cbn. rewrite app_nil_r. now destruct s.
  - assert (Ie : In e CEPH_INITIAL_KEYS) by (apply I; now left).
    assert (Ir : incl rest CEPH_INITIAL_KEYS) by (intros x Hx; apply I; now right).
    destruct (build_key_path_some cluster e Ie) as [path P].
    assert (K : key_path_of cluster e = path) by (unfold key_path_of; now rewrite P).
    cbn [fetch_loop]. unfold bind at 1. unfold lift at 1. rewrite P.
    unfold bind at 1. unfold read at 1.
    destruct (isfile path (world s)) eqn:F.
    + rewrite (IH Ir r s). cbn [fetch_all]. rewrite K, F. reflexivity.
    + rewrite fetch_all_cons by (now rewrite K). cbv zeta. cbn [fst snd map].
      unfold info_key. cbn [map]. unfold bind at 1. rewrite exec_one.
      change (generate_cmd cluster [A "get"; arg_of_option (Some e); A "-f"; A "plain"]
                "mon." (mon_key_path cluster) is_containerized ++ [A "-o"; A path])
        with (generate_cmd cluster [A "get"; A e; A "-f"; A "plain"]
                "mon." (mon_key_path cluster) is_containerized ++ [A "-o"; A path]).
      rewrite <- K. fold (fetch_cmd cluster e).
      destruct (run_command (fetch_cmd cluster e) (world s)) as [[[rc out] err] w] eqn:RC.
      unfold bind at 1. unfold update at 1. cbn [world trace fst snd].
      rewrite (IH Ir). cbn [world trace]. rewrite last_cons.
      cbn [fetch_report]. rewrite <- app_assoc. reflexivity.
Qed.

Lemma fetch_all_subset {Sys : System} (cluster : string) (entities : list string) :
  forall (w : World) (e : string),
    In e (map fst (fst (fetch_all cluster entities w))) -> In e entities.
Proof.
  induction entities as [|x rest IH]; intros w e He; [contradiction|].
  cbn [fetch_all] in He. destruct (isfile _ w).
  - right. exact (IH w e He).
  - destruct (run_command _ w) as [a w2].
    destruct (fetch_all cluster rest _) as [l w3] eqn:FA.
    cbn [fst map] in He. destruct He as [<-|He]; [now left|].
    right. apply (IH (set_fs_attributes_if_different (key_path_of cluster x) w2)).
    now rewrite FA.
Qed.

Lemma fetch_all_every {Sys : System} (keeps : World -> Prop) (cluster : string)
    (entities : list string) :
  (forall c w, keeps w -> keeps (snd (run_command c w))) ->
  (forall path w, keeps w -> keeps (set_fs_attributes_if_different path w)) ->
  (forall e w, In e entities -> keeps w -> isfile (key_path_of cluster e) w = false) ->
  forall w, keeps w -> map fst (fst (fetch_all cluster entities w)) = entities.
Proof.
  intros HR HS. induction entities as [|e rest IH]; intros HF w K; [reflexivity|].
  rewrite fetch_all_cons by (apply HF; [now left | exact K]).
  cbv zeta. cbn [fst map]. f_equal. apply IH.
  - intros x w' Hx. apply HF. now right.
  - apply HS, HR, K.
Qed.

(** X6: when the monitor lists the registry and the lookup returns, the
    run of [fetch_initial_keys] always reaches its end, and a fetch that
    fails does not stop the later ones.  After the listing it runs
    [get entity -f plain -o path] for every returned entity, in order,
    whose keyring is not a file when its turn comes, whatever the fetches
    before it answered, and sets the attributes of the keyring after each;
    it runs nothing else.  It reports the last command run and its answer
    alone, so the module fails exactly when that exit code is not 0, and it
    never reports a change.  Only returned entities are fetched; and all of
    them are, whatever the exit codes, when the commands and the setting of
    attributes leave the keyrings missing ([keeps] is any property of the
    world they preserve). *)
Theorem fetch_initial_keys_report {Sys : System} (p : params) (w w1 : World)
    (out err : string) (entities : list string) :
  p_check_mode p = false ->
  p_state p = "fetch_initial_keys" ->
  run_command (mon_list_cmd (p_cluster p)) w = ((0%Z, out, err), w1) ->
  lookup_ceph_initial_entities out = Ret entities ->
  let cluster := p_cluster p in
  let fetched := fst (fetch_all cluster entities w1) in
  let '(rc, cmd, out', err') :=
    last (map (fetch_report cluster) fetched) (0%Z, mon_list_cmd cluster, out, err) in
  let result := mkResult (Some (CmdList cmd)) rc (PyStr.rstrip_crlf out')
                  (PyStr.rstrip_crlf err') false None in
  execute p w
  = (Exit (if (rc =? 0)%Z then ExitJson result
           else FailJson "non-zero return code" result),
     mkState (snd (fetch_all cluster entities w1))
       (mon_list_cmd cluster :: map (fun x => fetch_cmd cluster (fst x)) fetched))
  /\ (forall e, In e (map fst fetched) -> In e entities)
  /\ (forall keeps : World -> Prop,
      (forall c w, keeps w -> keeps (snd (run_command c w))) ->
      (forall path w, keeps w -> keeps (set_fs_attributes_if_different path w)) ->
      (forall e w, In e entities -> keeps w ->
                   isfile (key_path_of cluster e) w = false) ->
      keeps w1 ->
      map fst fetched = entities).
Proof.
  intros HC HS HR HL. cbv zeta.
  pose proof (lookup_returns_incl out entities HL) as I.
  destruct (last _ _) as [[[rc cmd] out'] err'] eqn:LA.
  split; [|split].
  - enter_state HC HS.
    unfold bind at 1. unfold state_fetch_initial_keys.
    unfold bind at 1. unfold list_keys. rewrite exec_one.
    fold (mon_key_path (p_cluster p)). fold (mon_list_cmd (p_cluster p)).
    cbn [world trace]. rewrite HR. cbn [Z.eqb negb app].
    unfold bind at 1. unfold lift at 1. rewrite HL.
    unfold bind at 1. rewrite (fetch_loop_is_fetch_all (p_cluster p) entities I).
    cbn [world trace]. rewrite LA. unfold ret at 1. rewrite finish_bound.
    reflexivity.
  - exact (fetch_all_subset (p_cluster p) entities w1).
  - intros keeps K1 K2 K3 K4.
    exact (fetch_all_every keeps (p_cluster p) entities K1 K2 K3 w1 K4).
Qed.

(** X7: [fetch_initial_keys] is idempotent on disk: when the keyring of
    every returned entity is already a file, the only command run is the
    listing, and the run ends as a success without a change. *)
Theorem fetch_initial_keys_on_disk {Sys : System} (p : params) (w w1 : World)
    (out err : string) (entities : list string) :
  p_check_mode p = false ->
  p_state p = "fetch_initial_keys" ->
  run_command (mon_list_cmd (p_cluster p)) w = ((0%Z, out, err), w1) ->
  lookup_ceph_initial_entities out = Ret entities ->
  (forall e path, In e entities ->
     build_key_path (p_cluster p) e = Ret (Some path) -> isfile path w1 = true) ->
  execute p w
  = (Exit (ExitJson (mkResult (Some (CmdList (mon_list_cmd (p_cluster p)))) 0
                       (PyStr.rstrip_crlf out) (PyStr.rstrip_crlf err) false None)),
     mkState w1 [mon_list_cmd (p_cluster p)]).
Proof.
  intros HC HS HR HL HF.
  pose proof (lookup_returns_incl out entities HL) as I.
  enter_state HC HS.
  unfold bind at 1. unfold state_fetch_initial_keys.
  unfold bind at 1. unfold list_keys. rewrite exec_one.
  fold (mon_key_path (p_cluster p)). fold (mon_list_cmd (p_cluster p)).
  cbn [world trace]. rewrite HR. cbn [Z.eqb negb app].
  unfold bind at 1. unfold lift at 1. rewrite HL.
  unfold bind at 1. rewrite fetch_loop_all_present.
  - unfold ret at 1. now rewrite finish_bound.
  - intros e He. destruct (build_key_path_some (p_cluster p) e (I e He)) as [path P].
    exists path. split; [exact P|]. exact (HF e path He P).
Qed.

(** X8: when the listing of [fetch_initial_keys] exits with a code other
    than 0, the module does not fail: it leaves through [exit_json] with
    [rc] 0 and the message [failed to retrieve ceph keys]; the error text
    of the command is stored under [sdterr], and [stderr] stays empty. *)
Theorem fetch_initial_keys_list_fails {Sys : System} (p : params) (w w1 : World)
    (rc : Z) (out err : string) :
  p_check_mode p = false ->
  p_state p = "fetch_initial_keys" ->
  run_command (mon_list_cmd (p_cluster p)) w = ((rc, out, err), w1) ->
  rc <> 0%Z ->
  execute p w
  = (Exit (ExitJson (mkResult None 0 "failed to retrieve ceph keys" "" false (Some err))),
     mkState w1 [mon_list_cmd (p_cluster p)]).
Proof.
  intros HC HS HR HN. enter_state HC HS.
  unfold bind at 1. unfold state_fetch_initial_keys.
  unfold bind at 1. unfold list_keys. rewrite exec_one.
  fold (mon_key_path (p_cluster p)). fold (mon_list_cmd (p_cluster p)).
  cbn [world trace]. rewrite HR. apply Z.eqb_neq in HN. rewrite HN. reflexivity.
Qed.

(** ** The states info and list *)

(** X9: the state [info] runs the query and nothing else, and never fails
    the module: when the query exits with 0 its output is reported, and
    otherwise the module leaves through [exit_json] with [rc] 0 and the
    message that the entity does not exist. *)
Theorem info_never_fails {Sys : System} (p : params) (w w1 : World) (rc : Z)
    (out err : string) :
  p_check_mode p = false ->
  p_state p = "info" ->
  run_command (query_cmd p) w = ((rc, out, err), w1) ->
  execute p w
  = (Exit (ExitJson
             (if (rc =? 0)%Z then
                mkResult (Some (CmdList (query_cmd p))) 0 (PyStr.rstrip_crlf out)
                  (PyStr.rstrip_crlf err) false None
              else
                mkResult None 0
                  ("skipped, since " ^^ fmt_opt (p_name p) ^^ " does not exist")
                  "" false None)),
     mkState w1 [query_cmd p]).
Proof.
  intros HC HS HR. unfold query_cmd in *. enter_state HC HS.
  unfold bind at 1. unfold state_info. unfold bind at 1. unfold info_key.
  rewrite exec_one. cbn [world trace]. rewrite HR.
  destruct (rc =? 0)%Z eqn:E; cbn [negb].
  - apply Z.eqb_eq in E. subst rc. unfold ret at 1. now rewrite finish_bound.
  - reflexivity.
Qed.

(** X10: the state [list] runs [ls -f json] and nothing else, and reports
    its exit code: the module fails with [non-zero return code] exactly
    when the command exits with a code other than 0. *)
Theorem list_reports_exit_code {Sys : System} (p : params) (w w1 : World) (rc : Z)
    (out err : string) :
  let user_key_path := user_key_path_of (p_cluster p) (p_user p) (p_user_key p) in
  let ls := generate_cmd (p_cluster p) [A "ls"; A "-f"; A "json"] (p_user p)
              user_key_path is_containerized in
  let result := mkResult (Some (CmdList ls)) rc (PyStr.rstrip_crlf out)
                  (PyStr.rstrip_crlf err) false None in
  p_check_mode p = false ->
  p_state p = "list" ->
  run_command ls w = ((rc, out, err), w1) ->
  execute p w
  = (Exit (if (rc =? 0)%Z then ExitJson result
           else FailJson "non-zero return code" result),
     mkState w1 [ls]).
Proof.
  intros ukp ls result HC HS HR. enter_state HC HS.
  unfold bind at 1. unfold state_list. unfold bind at 1. unfold list_keys.
  rewrite exec_one. fold ukp. fold ls. cbn [world trace]. rewrite HR.
  unfold ret at 1. now rewrite finish_bound.
Qed.

(** ** generate_secret, again *)

Lemma b64encode_length (bs : list byte) :
  List.length (Base64.b64encode bs) = 4 * ((List.length bs + 2) / 3).
Proof.
  induction bs as [|a|a b|a b c r IH] using Base64Facts.list_ind3;
    try reflexivity.
  cbn [Base64.b64encode List.length]. rewrite IH.
  replace (S (S (S (List.length r))) + 2) with ((List.length r + 2) + 1 * 3) by lia.
  rewrite Nat.div_add by lia. lia.
Qed.

Lemma b64encode_injective (a b : list byte) :
  Base64.b64encode a = Base64.b64encode b -> a = b.
Proof.
  intros H.
  pose proof (Base64Facts.b64decode_b64encode a) as Ha.
  pose proof (Base64Facts.b64decode_b64encode b) as Hb.
  rewrite H in Ha. rewrite Ha in Hb. now injection Hb.
Qed.

Lemma Ret_inj {T} (a b : T) : Ret a = Ret b -> a = b.
Proof. intros H. now injection H. Qed.

(** X11: two secrets are equal only when their sixteen random bytes and
    their creation seconds are: a different key or a different second gives
    a different secret. *)
Theorem generate_secret_injective {Sys : System} (s1 s2 : state) :
  let t1 := time_time (snd (os_urandom 16 (world s1))) in
  let t2 := time_time (snd (os_urandom 16 (world s2))) in
  (- 2 ^ 31 <= t1 < 2 ^ 31)%Z ->
  (- 2 ^ 31 <= t2 < 2 ^ 31)%Z ->
  fst (generate_secret s1) = fst (generate_secret s2) ->
  fst (os_urandom 16 (world s1)) = fst (os_urandom 16 (world s2)) /\ t1 = t2.
Proof.
  intros t1 t2 H1 H2. rewrite (generate_secret_eq s1 H1), (generate_secret_eq s2 H2).
  cbn [fst]. intros E. apply Ret_inj, b64encode_injective in E.
  fold t1 t2 in E.
  destruct (secret_header_fields t1 (fst (os_urandom 16 (world s1))))
    as (_ & _ & T1 & _ & _ & K1).
  destruct (secret_header_fields t2 (fst (os_urandom 16 (world s2))))
    as (_ & _ & T2 & _ & _ & K2).
  cbv zeta in *. rewrite E in T1, K1. rewrite K2 in K1. rewrite T2 in T1.
  split; [now symmetry|].
  change (2 ^ 31)%Z with 2147483648%Z in *. change (2 ^ 32)%Z with 4294967296%Z in *.
  revert T1. Z.to_euclidean_division_equations. lia.
Qed.

(** X12: when the clock does not fit a signed 32-bit integer (from the
    year 2038 on), [generate_secret] produces no secret: [struct.pack]
    raises. *)
Theorem generate_secret_clock_overflow {Sys : System} (s : state) :
  let w := snd (os_urandom 16 (world s)) in
  ~ (- 2 ^ 31 <= time_time w < 2 ^ 31)%Z ->
  generate_secret s
  = (Exit (Raised (StructError "argument out of range")), mkState w (trace s)).
Proof.
  intros w H. unfold generate_secret.
  destruct (os_urandom 16 (world s)) as [key w'] eqn:E. cbn [snd] in w. subst w.
  cbn [Struct.pack_le]. change (Struct.in_range Struct.Fh 1) with true.
  assert (R : Struct.in_range Struct.Fi (time_time w') = false).
  { unfold Struct.in_range. cbn [Struct.size].
    change (2 ^ (8 * Z.of_nat 4 - 1))%Z with (2 ^ 31)%Z.
    apply andb_false_iff.
    destruct (Z.leb_spec (- 2 ^ 31) (time_time w')); [|now left].
    right. apply Z.ltb_ge. lia. }
  rewrite R. reflexivity.
Qed.

Lemma sextet_not_crlf (n : N) : not_crlf (Base64.sextet n) = true.
Proof.
  unfold Base64.sextet.
  assert (H : forallb not_crlf Base64.alphabet = true) by (vm_compute; reflexivity).
  rewrite forallb_forall in H.
  destruct (nth_in_or_default (N.to_nat n) Base64.alphabet Base64.pad) as [I|E].
  - now apply H.
  - rewrite E. reflexivity.
Qed.

Lemma b64encode_not_crlf (bs : list byte) :
  forallb not_crlf (Base64.b64encode bs) = true.
Proof.
  induction bs as [|a|a b|a b c r IH] using Base64Facts.list_ind3;
    cbn [Base64.b64encode forallb]; rewrite ?sextet_not_crlf; try reflexivity.
  exact IH.
Qed.

Lemma rstrip_crlf_id (bs : list byte) :
  forallb not_crlf bs = true ->
  PyStr.rstrip_crlf (string_of_list_byte bs) = string_of_list_byte bs.
Proof.
  unfold string_of_list_byte.
  induction bs as [|b r IH]; [reflexivity|].
  cbn [forallb map string_of_list_ascii PyStr.rstrip_crlf].
  intros H. apply andb_true_iff in H. destruct H as [Hb Hr].
  rewrite (IH Hr). unfold not_crlf in Hb. apply negb_true_iff in Hb. rewrite Hb.
  now destruct (string_of_list_ascii (map ascii_of_byte r)).
Qed.

(** X13: the state [generate_secret] runs no command and reports the
    secret, whole, as [stdout], with [changed] true; the secret has 40
    characters. *)
Theorem generate_secret_state {Sys : System} (p : params) (w : World) :
  let key := fst (os_urandom 16 w) in
  let w1 := snd (os_urandom 16 w) in
  let secret := Base64.b64encode (secret_header (time_time w1) 16 ++ key) in
  p_check_mode p = false ->
  p_state p = "generate_secret" ->
  (- 2 ^ 31 <= time_time w1 < 2 ^ 31)%Z ->
  execute p w
  = (Exit (ExitJson (mkResult (Some (CmdStr "")) 0 (string_of_list_byte secret) ""
                       true None)),
     mkState w1 [])
  /\ String.length (string_of_list_byte secret) = 40.
Proof.
  intros key w1 secret HC HS HR. split.
  - enter_state HC HS.
    unfold bind at 1. unfold state_generate_secret. unfold bind at 1.
    rewrite (generate_secret_eq (mkState w []) HR). cbn [world trace].
    fold key w1 secret. unfold ret, finish.
    cbn [l_cmd l_rc l_out l_err l_changed Z.eqb negb].
    unfold exit_json, stop, lift.
    now rewrite (rstrip_crlf_id secret (b64encode_not_crlf _)).
  - assert (L : forall l, String.length (string_of_list_byte l) = List.length l).
    { unfold string_of_list_byte. induction l as [|x r IH]; [reflexivity|].
      simpl. now rewrite IH. }
    rewrite L. unfold secret. rewrite b64encode_length, length_app.
    destruct (secret_header_fields (time_time w1) key) as [LH _].
    rewrite LH. unfold key. rewrite os_urandom_length. reflexivity.
Qed.

(** ** The keyring of the acting identity *)

Lemma startswith_slash_append (cluster rest : string) :
  PyStr.startswith "/" (cluster ^^ "." ^^ rest) = PyStr.startswith "/" cluster.
Proof.
  destruct cluster as [|c r]; [reflexivity|]. unfold PyStr.startswith.
  cbn [String.append String.prefix].
  destruct (ascii_dec "/" c); [|reflexivity]. now destruct r.
Qed.

Lemma etc_ceph_join (cluster rest : string) :
  PyStr.path_join "/etc/ceph" (cluster ^^ "." ^^ rest)
  = if PyStr.startswith "/" cluster then cluster ^^ "." ^^ rest
    else "/etc/ceph/" ^^ cluster ^^ "." ^^ rest.
Proof.
  unfold PyStr.path_join. rewrite startswith_slash_append.
  now destruct (PyStr.startswith "/" cluster).
Qed.

(** X14: when [user_key] is not given, the keyring of the acting identity
    is [/etc/ceph/cluster.user.keyring], unless the cluster name starts
    with a slash: [os.path.join] then drops [/etc/ceph] and the path is
    [cluster.user.keyring] alone. *)
Theorem default_user_key_path (cluster user : string) (user_key : option string) :
  user_key_path_of cluster user user_key
  = if truthy_str user_key then fmt_opt user_key
    else if PyStr.startswith "/" cluster then cluster ^^ "." ^^ user ^^ ".keyring"
    else "/etc/ceph/" ^^ cluster ^^ "." ^^ user ^^ ".keyring".
Proof.
  unfold user_key_path_of. destruct (truthy_str user_key); [reflexivity|].
  apply etc_ceph_join.
Qed.

(** X15: the command line [generate_cmd] of [ceph_key.py] builds is the one
    [generate_cmd] of [ca_common.py] builds for the sub-command [auth] and
    the binary [ceph], with the keyring [run_module] computes, as long as a
    keyring is given or the cluster name does not start with a slash. *)
Theorem generate_cmd_agrees {Sys : System} (cluster user : string) (args : command)
    (user_key : option string) (container_image : option string) :
  truthy_str user_key = true \/ PyStr.startswith "/" cluster = false ->
  CaCommon.generate_cmd [A "auth"] args "ceph" user_key cluster user container_image false
  = generate_cmd cluster args user (user_key_path_of cluster user user_key)
      container_image.
Proof.
  intros H. unfold CaCommon.generate_cmd, generate_cmd.
  assert (K : (if truthy_str user_key then fmt_opt user_key
               else "/etc/ceph/" ^^ cluster ^^ "." ^^ user ^^ ".keyring")
              = user_key_path_of cluster user user_key).
  { unfold user_key_path_of. destruct (truthy_str user_key) eqn:T; [reflexivity|].
    destruct H as [H|H]; [discriminate|].
    rewrite etc_ceph_join. now rewrite H. }
  rewrite K. destruct container_image as [image|]; [|reflexivity].
  destruct (truthy_str (Some image)); reflexivity.
Qed.

(** ** The states present and update, again *)

(** Lines 600-608 and the end of the run, from the values lines 565-599
    leave behind. *)
Lemma create_from {Sys : System} (p : params) (user_key_path file_path : string)
    (container_image : option string) (d : desired) (caps : dict string) (s : state) :
  d_caps d = Some caps ->
  needs_create d = true ->
  truthy_str (d_secret d) = true
  \/ (- 2 ^ 31 <= time_time (snd (os_urandom 16 (world s))) < 2 ^ 31)%Z ->
  exists secret_arg authtool e final rest,
    generate_ceph_authtool_cmd (p_cluster p) (arg_of_option (p_name p)) secret_arg
      (Some caps) file_path container_image = Ret authtool
    /\ bind
         (if needs_create d then
            bind (create_key (p_cluster p) (p_user p) user_key_path (p_name p)
                    (d_secret d) (d_caps d) (p_import_key p) file_path container_image)
              (fun cmd_list =>
                 bind (exec_commands cmd_list)
                   (fun r => let '(rc, cmd, out, err) := r in
                      if negb (rc =? 0)%Z then
                        exit_json (set_stderr (set_stdout result0
                                      ("Couldn't create or update "
                                         ^^ fmt_opt (p_name p))) err)
                      else bind (update (set_fs_attributes_if_different file_path))
                             (fun _ => ret (bound r true))))
          else ret (d_locals d))
         finish s
       = (Exit e, final)
    /\ trace final = trace s ++ authtool :: rest
    /\ (rest = []
        \/ rest = registry_commands (p_cluster p) (p_user p) user_key_path (p_name p)
                    caps (p_import_key p) file_path container_image).
Proof.
  intros HCaps HN HG.
  destruct (create_key_commands (p_cluster p) (p_user p) user_key_path file_path
              (p_name p) (d_secret d) caps (p_import_key p) container_image s HG)
    as (secret_arg & authtool & s' & AT & Tr & CK).
  cbv zeta in CK. fold (registry_commands (p_cluster p) (p_user p) user_key_path
                          (p_name p) caps (p_import_key p) file_path container_image) in CK.
  set (regs := registry_commands _ _ _ _ _ _ _ _) in *.
  assert (L : (List.length regs <= 1)%nat).
  { subst regs. unfold registry_commands.
    destruct (String.eqb (p_user p) "client.admin"); [destruct (p_import_key p)|];
      simpl; lia. }
  destruct (after_create (p_name p) file_path (authtool :: regs) s' authtool regs
              eq_refl L) as (e & final & rest & EX & T & R).
  exists secret_arg, authtool, e, final, rest.
  split; [exact AT|]. split.
  - rewrite HN, HCaps. unfold bind at 1. unfold bind at 1. rewrite CK. exact EX.
  - split; [now rewrite T, Tr|]. destruct R as [->| ->]; [now left | now right].
Qed.

Lemma present_import_missing {Sys : System} (p : params) (file_path : string) (s : state)
    (rc : Z) (out err : string) (w1 : World) :
  let user_key_path := user_key_path_of (p_cluster p) (p_user p) (p_user_key p) in
  run_command (query_cmd p) (world s) = ((rc, out, err), w1) ->
  rc <> 0%Z ->
  present_import p user_key_path file_path is_containerized s
  = (if falsy_dict (p_caps p) then
       Exit (Fatal "Capabilities must be provided when state is 'present'")
     else
       Ret (mkDesired (p_secret p) (p_caps p) (p_secret p) (p_caps p) rc
              (bound (rc, query_cmd p, out, err) false)),
     mkState w1 (trace s ++ [query_cmd p])).
Proof.
  intros ukp HR HN. subst ukp. unfold query_cmd in *.
  unfold present_import. unfold bind at 1. unfold info_key.
  rewrite exec_one. rewrite HR.
  apply Z.eqb_neq in HN. rewrite HN. cbn [negb]. rewrite andb_true_r.
  destruct (falsy_dict (p_caps p)) eqn:F.
  - reflexivity.
  - cbn [andb]. unfold bind, ret.
    assert (N : is_none (p_caps p) = false)
      by (destruct (p_caps p) as [[|]|]; try discriminate F; reflexivity).
    rewrite N, andb_false_r. reflexivity.
Qed.

(** X16: with [import_key] true, when the query exits with a code other
    than 0 (the registry does not hold the entity) and no capabilities are
    given, the run ends with [fatal] after the query alone: nothing is
    written and the registry is not changed. *)
Theorem present_missing_needs_caps {Sys : System} (p : params) (w w1 : World)
    (file_path : string) (rc : Z) (out err : string) :
  p_check_mode p = false ->
  PyStr.mem (p_state p) ["present"; "update"] = true ->
  p_import_key p = true ->
  file_path_of (p_cluster p) (p_name p) (p_dest p) (mkState w [])
  = (Ret file_path, mkState w []) ->
  run_command (query_cmd p) w = ((rc, out, err), w1) ->
  rc <> 0%Z ->
  falsy_dict (p_caps p) = true ->
  execute p w
  = (Exit (Fatal "Capabilities must be provided when state is 'present'"),
     mkState w1 [query_cmd p]).
Proof.
  intros HC HS HI HF HR HN HCaps.
  unfold execute, run_module. rewrite HC, HS.
  unfold bind at 1. unfold state_present. unfold bind at 1. rewrite HF, HI.
  unfold bind at 1.
  rewrite (present_import_missing p file_path (mkState w []) rc out err w1 HR HN).
  now rewrite HCaps.
Qed.

Lemma create_key_exact {Sys : System}
    (cluster user user_key_path dest : string) (name secret : option string)
    (caps : dict string) (import_key : bool) (container_image : option string)
    (authtool : command) (s : state) :
  truthy_str secret = true
  \/ (- 2 ^ 31 <= time_time (snd (os_urandom 16 (world s))) < 2 ^ 31)%Z ->
  generate_ceph_authtool_cmd cluster (arg_of_option name)
    (fst (created_secret secret (world s))) (Some caps) dest container_image
  = Ret authtool ->
  create_key cluster user user_key_path name secret (Some caps) import_key dest
    container_image s
  = (Ret (authtool :: registry_commands cluster user user_key_path name caps
                        import_key dest container_image),
     mkState (snd (created_secret secret (world s))) (trace s)).
Proof.
  intros H AT. unfold created_secret in *.
  assert (G : (if truthy_str secret then ret (arg_of_option secret)
               else bind generate_secret (fun b => ret (ABytes b))) s
              = (Ret (fst (created_secret secret (world s))),
                 mkState (snd (created_secret secret (world s))) (trace s))).
  { unfold created_secret. destruct (truthy_str secret) eqn:T.
    - cbn [fst snd]. unfold ret. now destruct s.
    - destruct H as [H|H]; [discriminate|].
      unfold bind. rewrite (generate_secret_eq s H). reflexivity. }
  unfold created_secret in G.
  unfold create_key. unfold bind at 1. rewrite G.
  unfold registry_commands.
  destruct (String.eqb user "client.admin") eqn:U.
  - unfold bind, ret, lift. rewrite AT. simpl negb. rewrite orb_false_r.
    now destruct import_key.
  - unfold bind, ret, lift. rewrite generate_caps_some, AT.
    simpl negb. rewrite orb_true_r. reflexivity.
Qed.

(** X17: with [import_key] true, when the registry does not hold the entity
    (the query exits with a code other than 0) and capabilities are given,
    the entity is created.  After the query the module runs [ceph-authtool]
    with the secret that is given, or a generated one when none is, and
    the capabilities; when that exits with 0 it runs the command for the
    registry, [import -i] of the keyring for [client.admin] and
    [get-or-create] with the capabilities for another acting identity.
    When both exit with 0 the attributes of the keyring are set and the
    run reports the registry command with [changed]; when one of them
    fails, the run stops there and leaves through [exit_json] with [rc] 0,
    the message [Couldn't create or update] and the error text of the
    command. *)
Theorem present_missing_creates {Sys : System} (p : params) (w w1 w2 w3 : World)
    (file_path : string) (rc rc1 rc2 : Z) (out err out1 err1 out2 err2 : string)
    (caps : dict string) (authtool : command) :
  let user_key_path := user_key_path_of (p_cluster p) (p_user p) (p_user_key p) in
  let registry :=
    generate_cmd (p_cluster p)
      (if String.eqb (p_user p) "client.admin" then [A "import"; A "-i"; A file_path]
       else ([A "get-or-create"; arg_of_option (p_name p)]
               ++ flat_map (fun kv => [A (fst kv); A (snd kv)]) (filter named caps))
              ++ [A "-o"; A file_path])
      (p_user p) user_key_path is_containerized in
  let refused err :=
    ExitJson (mkResult None 0 ("Couldn't create or update " ^^ fmt_opt (p_name p))
                err false None) in
  p_check_mode p = false ->
  PyStr.mem (p_state p) ["present"; "update"] = true ->
  p_import_key p = true ->
  file_path_of (p_cluster p) (p_name p) (p_dest p) (mkState w [])
  = (Ret file_path, mkState w []) ->
  run_command (query_cmd p) w = ((rc, out, err), w1) ->
  rc <> 0%Z ->
  p_caps p = Some caps -> caps <> [] ->
  truthy_str (p_secret p) = true
  \/ (- 2 ^ 31 <= time_time (snd (os_urandom 16 w1)) < 2 ^ 31)%Z ->
  generate_ceph_authtool_cmd (p_cluster p) (arg_of_option (p_name p))
    (fst (created_secret (p_secret p) w1)) (Some caps) file_path is_containerized
  = Ret authtool ->
  run_command authtool (snd (created_secret (p_secret p) w1)) = ((rc1, out1, err1), w2) ->
  run_command registry w2 = ((rc2, out2, err2), w3) ->
  execute p w
  = if (rc1 =? 0)%Z then
      if (rc2 =? 0)%Z then
        (Exit (ExitJson (mkResult (Some (CmdList registry)) 0 (PyStr.rstrip_crlf out2)
                           (PyStr.rstrip_crlf err2) true None)),
         mkState (set_fs_attributes_if_different file_path w3)
           [query_cmd p; authtool; registry])
      else (Exit (refused err2), mkState w3 [query_cmd p; authtool; registry])
    else (Exit (refused err1), mkState w2 [query_cmd p; authtool]).
Proof.
  intros ukp registry refused HC HS HI HF HR HN HCaps HNE HG AT R1 R2.
  assert (RC : registry_commands (p_cluster p) (p_user p) ukp (p_name p) caps true
                 file_path is_containerized = [registry]).
  { subst registry. unfold registry_commands.
    now destruct (String.eqb (p_user p) "client.admin"). }
  unfold execute, run_module. rewrite HC, HS.
  unfold bind at 1. unfold state_present. unfold bind at 1. rewrite HF, HI.
  unfold bind at 1.
  rewrite (present_import_missing p file_path (mkState w []) rc out err w1 HR HN).
  assert (F : falsy_dict (p_caps p) = false)
    by (rewrite HCaps; destruct caps; [contradiction | reflexivity]).
  rewrite F. cbn [app d_key_exist d_secret d_caps d__secret d__caps].
  apply Z.eqb_neq in HN. rewrite HN. cbn [andb negb orb].
  unfold bind at 1. rewrite HCaps. cbn [trace app]. fold ukp.
  rewrite (create_key_exact (p_cluster p) (p_user p) ukp file_path (p_name p)
             (p_secret p) caps true is_containerized authtool
             (mkState w1 [query_cmd p]) HG AT).
  rewrite RC. cbn [world trace]. unfold bind at 1. rewrite exec_two.
  cbn [world trace app]. rewrite R1.
  destruct (rc1 =? 0)%Z eqn:E1.
  - rewrite exec_one. cbn [world trace app]. rewrite R2.
    destruct (rc2 =? 0)%Z eqn:E2; cbn [negb].
    + unfold bind at 1. unfold update at 1. unfold ret at 1. cbn [world trace].
      rewrite finish_bound. rewrite E2. apply Z.eqb_eq in E2. now rewrite E2.
    + reflexivity.
  - rewrite E1. reflexivity.
Qed.

Lemma present_import_existing {Sys : System} (p : params) (file_path : string) (s : state)
    (out err : string) (w1 : World) (_info_key : json) (cur_secret : string)
    (cur_caps : dict string) :
  let user_key_path := user_key_path_of (p_cluster p) (p_user p) (p_user_key p) in
  run_command (query_cmd p) (world s) = ((0%Z, out, err), w1) ->
  json_loads out = Some _info_key ->
  obind (info_field "key" _info_key) as_secret = Ret cur_secret ->
  obind (info_field "caps" _info_key) as_caps = Ret cur_caps ->
  secret_eqb (resolved_secret p cur_secret) (Some cur_secret)
  && caps_eqb (resolved_caps p cur_caps) (Some cur_caps) = false ->
  present_import p user_key_path file_path is_containerized s
  = (Ret (mkDesired (resolved_secret p cur_secret) (resolved_caps p cur_caps)
            (Some cur_secret) (Some cur_caps) 0
            (bound (0%Z, query_cmd p, out, err) false)),
     mkState w1 (trace s ++ [query_cmd p])).
Proof.
  intros ukp HR HJ HK HP HD. subst ukp. unfold query_cmd in *.
  unfold present_import. unfold bind at 1. unfold info_key.
  rewrite exec_one. rewrite HR. cbn [Z.eqb negb andb]. rewrite andb_false_r.
  unfold bind at 1. unfold ret at 1. unfold bind at 1. unfold ret at 1.
  rewrite HJ. unfold bind at 1. unfold ret at 1.
  unfold bind at 1. unfold lift at 1. rewrite HK.
  unfold bind at 1. unfold lift at 1. rewrite HP.
  unfold resolved_secret, resolved_caps in HD. rewrite HD. reflexivity.
Qed.

(** X18: with [import_key] true, when the registry holds the entity and
    the secret or the capabilities to apply differ from the ones of the
    registry, the entity is updated through the commands of a creation:
    the query, [ceph-authtool] with the capabilities to apply, then at most
    the command for the registry. *)
Theorem present_differs_updates {Sys : System} (p : params) (w w1 : World)
    (file_path out err : string) (_info_key : json) (cur_secret : string)
    (cur_caps caps : dict string) :
  let user_key_path := user_key_path_of (p_cluster p) (p_user p) (p_user_key p) in
  p_check_mode p = false ->
  PyStr.mem (p_state p) ["present"; "update"] = true ->
  p_import_key p = true ->
  file_path_of (p_cluster p) (p_name p) (p_dest p) (mkState w [])
  = (Ret file_path, mkState w []) ->
  run_command (query_cmd p) w = ((0%Z, out, err), w1) ->
  json_loads out = Some _info_key ->
  obind (info_field "key" _info_key) as_secret = Ret cur_secret ->
  obind (info_field "caps" _info_key) as_caps = Ret cur_caps ->
  resolved_caps p cur_caps = Some caps ->
  secret_eqb (resolved_secret p cur_secret) (Some cur_secret) = false
  \/ Dict.eqb String.eqb caps cur_caps = false ->
  truthy_str (resolved_secret p cur_secret) = true
  \/ (- 2 ^ 31 <= time_time (snd (os_urandom 16 w1)) < 2 ^ 31)%Z ->
  exists secret_arg authtool e final rest,
    generate_ceph_authtool_cmd (p_cluster p) (arg_of_option (p_name p)) secret_arg
      (Some caps) file_path is_containerized = Ret authtool
    /\ execute p w = (Exit e, final)
    /\ trace final = query_cmd p :: authtool :: rest
    /\ (rest = []
        \/ rest = registry_commands (p_cluster p) (p_user p) user_key_path (p_name p)
                    caps true file_path is_containerized).
Proof.
  intros ukp HC HS HI HF HR HJ HK HP HCaps HD HG.
  assert (HD' : secret_eqb (resolved_secret p cur_secret) (Some cur_secret)
                && caps_eqb (resolved_caps p cur_caps) (Some cur_caps) = false).
  { rewrite HCaps. cbn [caps_eqb opt_eqb]. destruct HD as [->| ->];
      [reflexivity | apply andb_false_r]. }
  set (d := mkDesired (resolved_secret p cur_secret) (resolved_caps p cur_caps)
              (Some cur_secret) (Some cur_caps) 0
              (bound (0%Z, query_cmd p, out, err) false)).
  assert (ND : needs_create d = true).
  { unfold needs_create, d. cbn [d_key_exist d_secret d_caps d__secret d__caps Z.eqb].
    cbn [andb negb]. rewrite orb_false_r. rewrite <- negb_andb. now rewrite HD'. }
  destruct (create_from p ukp file_path is_containerized d caps
              (mkState w1 [query_cmd p]) HCaps ND HG)
    as (secret_arg & authtool & e & final & rest & AT & EX & T & R).
  rewrite HI in EX, R.
  exists secret_arg, authtool, e, final, rest.
  split; [exact AT|]. split; [|split; [exact T|exact R]].
  unfold execute, run_module. rewrite HC, HS.
  unfold bind at 1. unfold state_present. unfold bind at 1. rewrite HF, HI.
  unfold bind at 1.
  rewrite (present_import_existing p file_path (mkState w []) out err w1 _info_key
             cur_secret cur_caps HR HJ HK HP HD').
  cbn [app trace]. exact EX.
Qed.

Lemma dict_eqb_permutation (d1 d2 : dict string) :
  Dict.wf d2 -> Permutation d1 d2 -> Dict.eqb String.eqb d1 d2 = true.
Proof.
  intros W P. unfold Dict.eqb.
  rewrite (Permutation_length P), Nat.eqb_refl. cbn [andb].
  apply forallb_forall. intros [k v] I. cbn [fst snd].
  rewrite (lookup_In d2 k v W (Permutation_in _ P I)). apply String.eqb_refl.
Qed.


(** Lines 565-594 when nothing is to change. *)
Lemma present_import_unchanged {Sys : System} (p : params) (w w1 : World)
    (file_path out err : string) (_info_key : json) (cur_secret : string)
    (cur_caps : dict string) :
  let fetch := generate_cmd (p_cluster p)
                 [A "get"; arg_of_option (p_name p); A "-o"; A file_path] (p_user p)
                 (user_key_path_of (p_cluster p) (p_user p) (p_user_key p))
                 is_containerized in
  p_check_mode p = false ->
  PyStr.mem (p_state p) ["present"; "update"] = true ->
  p_import_key p = true ->
  file_path_of (p_cluster p) (p_name p) (p_dest p) (mkState w [])
  = (Ret file_path, mkState w []) ->
  run_command (query_cmd p) w = ((0%Z, out, err), w1) ->
  json_loads out = Some _info_key ->
  obind (info_field "key" _info_key) as_secret = Ret cur_secret ->
  obind (info_field "caps" _info_key) as_caps = Ret cur_caps ->
  secret_eqb (resolved_secret p cur_secret) (Some cur_secret) = true ->
  caps_eqb (resolved_caps p cur_caps) (Some cur_caps) = true ->
  exists r final,
    execute p w = (Exit (ExitJson r), final)
    /\ r_changed r = false
    /\ trace final = if isfile file_path w1 then [query_cmd p] else [query_cmd p; fetch].
Proof.
  intros fetch HC HS HI HF HR HJ HK HP ES EC.
  unfold resolved_secret in ES. unfold resolved_caps in EC.
  subst fetch. unfold query_cmd in *.
  unfold execute, run_module. rewrite HC, HS.
  unfold bind at 1. unfold state_present. unfold bind at 1. rewrite HF. rewrite HI.
  unfold bind at 1. unfold present_import. unfold bind at 1.
  unfold info_key. rewrite exec_one.
  cbn [world trace]. rewrite HR. cbn [Z.eqb negb andb]. rewrite andb_false_r.
  cbn [app].
  unfold bind at 1. unfold ret at 1. unfold bind at 1. unfold ret at 1.
  rewrite HJ. unfold bind at 1. unfold ret at 1.
  unfold bind at 1. unfold lift at 1. rewrite HK.
  unfold bind at 1. unfold lift at 1. rewrite HP.
  rewrite ES, EC. cbn [andb].
  unfold bind at 1. unfold read at 1. cbn [world].
  destruct (isfile file_path w1); cbn [negb].
  - unfold bind, ret, update, exit_json, stop, lift. cbn [world trace].
    eexists. eexists. split; [reflexivity|]. split; reflexivity.
  - unfold get_key. unfold bind at 1. unfold bind at 1. rewrite exec_one.
    cbn [world trace].
    destruct (run_command _ w1) as [[[rc2 out2] err2] w2].
    destruct (rc2 =? 0)%Z; cbn [negb];
      unfold bind, ret, update, exit_json, stop, lift; cbn [world trace];
      (eexists; eexists; split; [reflexivity|]; split; reflexivity).
Qed.

(** X19: capabilities given in another order than the registry holds them
    are the same capabilities: with the secret not given or equal and the
    keyring on disk, the run is the query alone and reports no change. *)
Theorem reordered_caps_are_no_update {Sys : System} (p : params) (w w1 : World)
    (file_path out err : string) (_info_key : json) (cur_secret : string)
    (cur_caps caps : dict string) :
  p_check_mode p = false ->
  PyStr.mem (p_state p) ["present"; "update"] = true ->
  p_import_key p = true ->
  file_path_of (p_cluster p) (p_name p) (p_dest p) (mkState w [])
  = (Ret file_path, mkState w []) ->
  run_command (query_cmd p) w = ((0%Z, out, err), w1) ->
  json_loads out = Some _info_key ->
  obind (info_field "key" _info_key) as_secret = Ret cur_secret ->
  obind (info_field "caps" _info_key) as_caps = Ret cur_caps ->
  Dict.wf cur_caps ->
  truthy_str (p_secret p) = false \/ p_secret p = Some cur_secret ->
  p_caps p = Some caps -> Permutation caps cur_caps ->
  isfile file_path w1 = true ->
  exists r final,
    execute p w = (Exit (ExitJson r), final)
    /\ r_changed r = false
    /\ trace final = [query_cmd p].
Proof.
  intros HC HS HI HF HR HJ HK HP HW HSec HCaps HPerm HFile.
  assert (ES : secret_eqb (resolved_secret p cur_secret) (Some cur_secret) = true).
  { unfold resolved_secret. destruct HSec as [->| E].
    - apply String.eqb_refl.
    - rewrite E. destruct (truthy_str (Some cur_secret)); apply String.eqb_refl. }
  assert (EC : caps_eqb (resolved_caps p cur_caps) (Some cur_caps) = true).
  { unfold resolved_caps. rewrite HCaps.
    destruct (falsy_dict (Some caps));
      [now apply dict_eqb_refl | now apply dict_eqb_permutation]. }
  destruct (present_import_unchanged p w w1 file_path out err _info_key cur_secret
              cur_caps HC HS HI HF HR HJ HK HP ES EC) as (r & final & E & Ch & T).
  rewrite HFile in T. now exists r, final.
Qed.


Lemma read_record_raises (k : string) (j : json) (e : exit) :
  (obind (info_field k j) as_secret = Exit e -> exists x, e = Raised x)
  /\ (obind (info_field k j) as_caps = Exit e -> exists x, e = Raised x).
Proof.
  assert (G : forall (e' : exit), info_field k j = Exit e' -> exists x, e' = Raised x).
  { intros e'. unfold info_field.
    destruct j as [| | |s|l|o]; try (intros H; injection H as <-; eexists; reflexivity).
    - destruct s; intros H; injection H as <-; eexists; reflexivity.
    - destruct l as [|x l]; [intros H; injection H as <-; eexists; reflexivity|].
      unfold json_getitem.
      destruct x as [| | | | |o]; try (intros H; injection H as <-; eexists; reflexivity).
      destruct (Dict.lookup k o); [discriminate|].
      intros H; injection H as <-; eexists; reflexivity. }
  assert (C : forall o e', as_caps_items o = Exit e' -> exists x, e' = Raised x).
  { induction o as [|[k' v] r IH]; intros e'; [discriminate|].
    cbn [as_caps_items].
    destruct v; try (intros H; injection H as <-; eexists; reflexivity).
    destruct (as_caps_items r) as [d|e2] eqn:E; cbn [obind]; [discriminate|].
    intros H. injection H as <-. now apply IH. }
  split.
  - destruct (info_field k j) as [v|e'] eqn:E; cbn [obind].
    + destruct v; try discriminate; intros H; injection H as <-; eexists; reflexivity.
    + intros H. injection H as <-. now apply G.
  - destruct (info_field k j) as [v|e'] eqn:E; cbn [obind].
    + destruct v; try (intros H; injection H as <-; eexists; reflexivity).
      apply C.
    + intros H. injection H as <-. now apply G.
Qed.

(** X20: the second validation of the import path (lines 572-573) can
    never fire: whatever the options and the answers of the commands, lines
    565-594 do not end with the [fatal] that asks for [secret] and [caps]. *)
Theorem second_validation_is_dead {Sys : System} (p : params)
    (user_key_path file_path : string) (container_image : option string) (s : state) :
  fst (present_import p user_key_path file_path container_image s)
  <> Exit (Fatal "Keyring doesn't exist, you must provide 'secret' and 'caps'").
Proof.
  unfold present_import. unfold bind at 1. unfold info_key. rewrite exec_one.
  destruct (run_command _ (world s)) as [[[rc out] err] w1].
  destruct (rc =? 0)%Z eqn:E.
  - cbn [negb andb]. rewrite andb_false_r.
    unfold bind at 1. unfold ret at 1. unfold bind at 1. unfold ret at 1.
    unfold bind at 1.
    destruct (json_loads out) as [j|]; [|discriminate].
    unfold ret at 1. unfold bind at 1. unfold lift at 1.
    destruct (obind (info_field "key" j) as_secret) as [cur_secret|e1] eqn:K.
    2:{ destruct (proj1 (read_record_raises "key" j e1) K) as [x ->]. discriminate. }
    unfold bind at 1. unfold lift at 1.
    destruct (obind (info_field "caps" j) as_caps) as [cur_caps|e2] eqn:C.
    2:{ destruct (proj2 (read_record_raises "caps" j e2) C) as [x ->]. discriminate. }
    destruct (_ && _); [|discriminate].
    unfold bind at 1. unfold read at 1.
    destruct (isfile file_path _); cbn [negb].
    + unfold bind, ret, update, exit_json, stop, lift. discriminate.
    + unfold get_key. unfold bind at 1. unfold bind at 1. rewrite exec_one.
      destruct (run_command _ _) as [[[rc2 out2] err2] w2].
      destruct (rc2 =? 0)%Z; cbn [negb];
        unfold bind, ret, update, exit_json, stop, lift; discriminate.
  - cbn [negb andb]. rewrite andb_true_r.
    destruct (falsy_dict (p_caps p)) eqn:F.
    + unfold bind, lift, fatal. cbn [fst]. discriminate.
    + assert (N : is_none (p_caps p) = false)
        by (destruct (p_caps p) as [[|]|]; try discriminate F; reflexivity).
      rewrite N, andb_false_r. unfold bind, ret. discriminate.
Qed.

(** X21: [client.admin] with a secret and capabilities and [import_key]
    false: the run is [ceph-authtool] alone.  When it exits with 0 the
    module reports the change; when it does not, the module still leaves
    through [exit_json] with [rc] 0, with the message [Couldn't create or
    update] and the error text of the command. *)
Theorem admin_keyring_only {Sys : System} (p : params) (w w1 : World)
    (file_path secret : string) (caps : dict string) (authtool : command)
    (rc : Z) (out err : string) :
  p_check_mode p = false ->
  PyStr.mem (p_state p) ["present"; "update"] = true ->
  p_import_key p = false ->
  p_user p = "client.admin" ->
  file_path_of (p_cluster p) (p_name p) (p_dest p) (mkState w [])
  = (Ret file_path, mkState w []) ->
  p_secret p = Some secret -> secret <> "" ->
  p_caps p = Some caps -> caps <> [] ->
  generate_ceph_authtool_cmd (p_cluster p) (arg_of_option (p_name p)) (A secret)
    (Some caps) file_path is_containerized = Ret authtool ->
  run_command authtool w = ((rc, out, err), w1) ->
  execute p w
  = if (rc =? 0)%Z then
      (Exit (ExitJson (mkResult (Some (CmdList authtool)) 0 (PyStr.rstrip_crlf out)
                         (PyStr.rstrip_crlf err) true None)),
       mkState (set_fs_attributes_if_different file_path w1) [authtool])
    else
      (Exit (ExitJson (mkResult None 0
                         ("Couldn't create or update " ^^ fmt_opt (p_name p))
                         err false None)),
       mkState w1 [authtool]).
Proof.
  intros HC HS HI HU HF HSec HNS HCaps HNC HA HR.
  assert (T : truthy_str (p_secret p) = true)
    by (rewrite HSec; destruct secret; [contradiction | reflexivity]).
  assert (F : falsy_dict (p_caps p) = false)
    by (rewrite HCaps; destruct caps; [contradiction | reflexivity]).
  unfold execute, run_module. rewrite HC, HS.
  unfold bind at 1. unfold state_present. unfold bind at 1. rewrite HF, HI.
  unfold bind at 1. unfold present_no_import. unfold bind at 1.
  unfold read at 1. rewrite T, F. cbn [negb]. rewrite andb_false_r. cbn [orb].
  unfold ret at 1. cbn [d_key_exist d_secret d_caps Z.eqb negb andb orb].
  unfold bind at 1. unfold create_key. rewrite T, HU, HSec, HCaps.
  cbn [String.eqb Ascii.eqb Bool.eqb andb negb orb arg_of_option].
  unfold bind at 1. unfold ret at 1. unfold bind at 1. unfold ret at 1.
  unfold bind at 1. unfold lift at 1. rewrite HA. unfold ret at 1.
  unfold bind at 1. rewrite exec_one. cbn [world trace app]. rewrite HR.
  destruct (rc =? 0)%Z eqn:E; cbn [negb].
  - apply Z.eqb_eq in E. subst rc.
    unfold bind, update, ret. cbn [world trace]. reflexivity.
  - reflexivity.
Qed.

(** ** These theorems at concrete inputs *)

(** Three commands, the second of which exits with 2: the third is not
    run, and its answer is left in the script. *)
Lemma exec_commands_stops_at_failure_witness :
  let cmds := [[A "one"]; [A "two"]; [A "three"]] in
  cmds <> []
  /\ @exec_commands quiet cmds
       (@mkState quiet (scripted [(0%Z, "", ""); (2%Z, "", "boom"); (0%Z, "ok", "")] [])
          [])
     = (Ret (2%Z, [A "two"], "", "boom"),
        @mkState quiet (scripted [(0%Z, "ok", "")] []) [[A "one"]; [A "two"]]).
Proof.
  intros cmds.
  assert (N : cmds <> []) by discriminate.
  split; [exact N|].
  destruct (@exec_commands_stops_at_failure quiet cmds
              (@mkState quiet
                 (scripted [(0%Z, "", ""); (2%Z, "", "boom"); (0%Z, "ok", "")] []) [])
              N)
    as (n & cmd & rc & out & err & H1 & H2 & H3 & H4 & H5 & H6).
  destruct n as [|[|[|n]]].
  - cbv in H3. injection H3 as <- <- <-.
    destruct H5 as [H5|H5]; [contradiction H5; reflexivity|].
    cbv in H5. discriminate H5.
  - cbv in H2. injection H2 as <-.
    cbv in H3. injection H3 as <- <- <-. exact H6.
  - assert (B := H4 1 (2%Z, "", "boom") (le_n 2) eq_refl).
    cbv in B. discriminate B.
  - simpl in H1. lia.
Defined.

(** The keyring of [client.bootstrap-osd]. *)
Lemma build_key_path_initial_witness :
  In "client.bootstrap-osd" CEPH_INITIAL_KEYS
  /\ exists path, build_key_path "ceph" "client.bootstrap-osd" = Ret (Some path).
Proof.
  assert (I : In "client.bootstrap-osd" CEPH_INITIAL_KEYS)
    by (right; right; right; left; reflexivity).
  split; [exact I|].
  destruct (build_key_path_initial "ceph" "client.bootstrap-osd" I) as (path & H & _).
  now exists path.
Defined.

(** The listing [LIST5] during a rolling update. *)
Lemma lookup_returns_initial_entities_witness :
  @lookup_ceph_initial_entities rolling_true "LIST5" = Ret five
  /\ incl five CEPH_INITIAL_KEYS.
Proof.
  split; [reflexivity|].
  exact (proj1 (@lookup_returns_initial_entities rolling_true "LIST5" five eq_refl)).
Defined.

(** The complete listing [LIST7], with [CEPH_ROLLING_UPDATE] set to [yes]. *)
Lemma complete_listing_ignores_flag_witness :
  @getenv (Test2.sys (Test.rolling "yes")) "CEPH_ROLLING_UPDATE" = Some "yes"
  /\ List.length CEPH_INITIAL_KEYS = 7
  /\ @lookup_ceph_initial_entities (Test2.sys (Test.rolling "yes")) "LIST7"
     = Ret CEPH_INITIAL_KEYS.
Proof.
  split; [reflexivity|]. split; [reflexivity|].
  exact (@complete_listing_ignores_flag (Test2.sys (Test.rolling "yes")) "LIST7"
           _ _ CEPH_INITIAL_KEYS eq_refl eq_refl eq_refl eq_refl).
Defined.

(** The listing [LIST8], where [client.admin] comes twice. *)
Lemma repeated_entity_is_rejected_witness :
  7 < List.length ("client.admin" :: CEPH_INITIAL_KEYS)
  /\ @getenv calm "CEPH_ROLLING_UPDATE" = None
  /\ @lookup_ceph_initial_entities calm "LIST8"
     = fatal "initial keyring does not contain keys: ".
Proof.
  assert (L : 7 < List.length ("client.admin" :: CEPH_INITIAL_KEYS)) by (simpl; lia).
  split; [exact L|]. split; [reflexivity|].
  exact (@repeated_entity_is_rejected calm "LIST8" _ _
           ("client.admin" :: CEPH_INITIAL_KEYS) eq_refl eq_refl eq_refl
           (fun e H => or_intror H) L eq_refl).
Defined.

(** A monitor with a complete registry and no keyring on disk: the fetch of
    [client.bootstrap-mds] is refused, the five after it are run all the
    same, and the run ends as a success. *)
Lemma fetch_initial_keys_report_witness :
  let w := scripted fetch_script [] in
  @lookup_ceph_initial_entities calm "LIST7" = Ret CEPH_INITIAL_KEYS
  /\ @execute calm fetch_initial w
     = (Exit (ExitJson
                (mkResult (Some (CmdList (@fetch_cmd calm "ceph" "client.bootstrap-rgw")))
                   0 "" "exported keyring for client.bootstrap-rgw" false None)),
        @mkState calm (scripted [] [])
          (@mon_list_cmd calm "ceph" :: map (@fetch_cmd calm "ceph") CEPH_INITIAL_KEYS))
  /\ map fst (fst (@fetch_all calm "ceph" CEPH_INITIAL_KEYS (scripted (tl fetch_script) [])))
     = CEPH_INITIAL_KEYS.
Proof.
  intros w. split; [reflexivity|].
  pose proof (@fetch_initial_keys_report calm fetch_initial w
                (scripted (tl fetch_script) []) "LIST7" "" CEPH_INITIAL_KEYS
                eq_refl eq_refl eq_refl eq_refl) as H.
  destruct H as (H1 & _ & H3).
  split; [exact H1|].
  apply (H3 (fun w0 => Test.files w0 = [])).
  - intros c w0 K. unfold run_command; cbn. unfold Test.answer.
    destruct (Test.script w0); exact K.
  - intros path w0 K. exact K.
  - intros e w0 _ K. unfold isfile; cbn. rewrite K. reflexivity.
  - reflexivity.
Defined.

(** A monitor with a complete registry and every keyring on disk. *)
Lemma fetch_initial_keys_on_disk_witness :
  let w := scripted [(0%Z, "LIST7", "")] initial_keyrings in
  let w1 := scripted [] initial_keyrings in
  (forall e path, In e CEPH_INITIAL_KEYS ->
     build_key_path "ceph" e = Ret (Some path) -> @isfile calm path w1 = true)
  /\ @execute calm fetch_initial w
     = (Exit (ExitJson (mkResult (Some (CmdList (@mon_list_cmd calm "ceph"))) 0
                          "LIST7" "" false None)),
        @mkState calm w1 [@mon_list_cmd calm "ceph"]).
Proof.
  intros w w1.
  assert (F : forall e path, In e CEPH_INITIAL_KEYS ->
                build_key_path "ceph" e = Ret (Some path) ->
                @isfile calm path w1 = true).
  { intros e path He Hp. simpl in He.
    repeat (destruct He as [<-|He];
            [cbv in Hp; injection Hp as <-; reflexivity|]).
    contradiction. }
  split; [exact F|].
  exact (@fetch_initial_keys_on_disk calm fetch_initial w w1 "LIST7" ""
           CEPH_INITIAL_KEYS eq_refl eq_refl eq_refl eq_refl F).
Defined.

(** A monitor that refuses the listing. *)
Lemma fetch_initial_keys_list_fails_witness :
  2%Z <> 0%Z
  /\ @execute quiet fetch_initial world_refusing
     = (Exit (ExitJson (mkResult None 0 "failed to retrieve ceph keys" "" false
                          (Some "Error ENOENT: entity client.foo does not exist"))),
        @mkState quiet (scripted [] []) [@mon_list_cmd quiet "ceph"]).
Proof.
  assert (N : 2%Z <> 0%Z) by discriminate.
  split; [exact N|].
  exact (@fetch_initial_keys_list_fails quiet fetch_initial world_refusing
           (scripted [] []) 2 "" _ eq_refl eq_refl eq_refl N).
Defined.

(** The information of an entity the registry does not hold. *)
Lemma info_never_fails_witness :
  @run_command quiet (@query_cmd quiet info_foo_params) world_refusing
  = ((2%Z, "", "Error ENOENT: entity client.foo does not exist"), scripted [] [])
  /\ @execute quiet info_foo_params world_refusing
     = (Exit (ExitJson (mkResult None 0 "skipped, since client.foo does not exist" ""
                          false None)),
        @mkState quiet (scripted [] []) [@query_cmd quiet info_foo_params]).
Proof.
  split; [reflexivity|].
  exact (@info_never_fails quiet info_foo_params world_refusing (scripted [] []) 2 ""
           _ eq_refl eq_refl eq_refl).
Defined.

(** A listing that is refused. *)
Lemma list_reports_exit_code_witness :
  p_state list_params = "list"
  /\ exists r final,
       @execute quiet list_params world_refusing
       = (Exit (FailJson "non-zero return code" r), final)
       /\ r_rc r = 2%Z.
Proof.
  split; [reflexivity|].
  pose proof (@list_reports_exit_code quiet list_params world_refusing (scripted [] [])
                2 "" "Error ENOENT: entity client.foo does not exist"
                eq_refl eq_refl eq_refl) as H.
  eexists. eexists. split; [exact H | reflexivity].
Defined.

(** Two states with the same clock and the same random bytes. *)
Lemma generate_secret_injective_witness :
  (- 2 ^ 31 <= 1700000000 < 2 ^ 31)%Z
  /\ fst (@generate_secret quiet (@mkState quiet quiet_world []))
     = fst (@generate_secret quiet (@mkState quiet (scripted [] []) [del_foo]))
  /\ repeat "A"%byte 16 = repeat "A"%byte 16.
Proof.
  assert (R : (- 2 ^ 31 <= 1700000000 < 2 ^ 31)%Z) by (split; [discriminate | reflexivity]).
  split; [exact R|]. split; [reflexivity|].
  exact (proj1 (@generate_secret_injective quiet (@mkState quiet quiet_world [])
                  (@mkState quiet (scripted [] []) [del_foo]) R R eq_refl)).
Defined.

(** The clock at 2 ^ 31. *)
Lemma generate_secret_clock_overflow_witness :
  let w := Test.mkWorld [] [] [] 2147483648 "A"%byte in
  ~ (- 2 ^ 31 <= 2147483648 < 2 ^ 31)%Z
  /\ @generate_secret quiet (@mkState quiet w [])
     = (Exit (Raised (StructError "argument out of range")), @mkState quiet w []).
Proof.
  intros w.
  assert (N : ~ (- 2 ^ 31 <= 2147483648 < 2 ^ 31)%Z) by (intros [_ H]; discriminate H).
  split; [exact N|].
  exact (@generate_secret_clock_overflow quiet (@mkState quiet w []) N).
Defined.

(** The state [generate_secret] with the clock at 1700000000. *)
Lemma generate_secret_state_witness :
  (- 2 ^ 31 <= 1700000000 < 2 ^ 31)%Z
  /\ exists secret,
       @execute quiet secret_params quiet_world
       = (Exit (ExitJson (mkResult (Some (CmdStr "")) 0 secret "" true None)),
          @mkState quiet quiet_world [])
       /\ String.length secret = 40.
Proof.
  assert (R : (- 2 ^ 31 <= 1700000000 < 2 ^ 31)%Z) by (split; [discriminate | reflexivity]).
  split; [exact R|].
  eexists.
  exact (@generate_secret_state quiet secret_params quiet_world eq_refl eq_refl R).
Defined.

(** The listing of the administrator, no keyring given. *)
Lemma generate_cmd_agrees_witness :
  PyStr.startswith "/" "ceph" = false
  /\ @CaCommon.generate_cmd quiet [A "auth"] [A "ls"] "ceph" None "ceph" "client.admin"
       None false
     = [A "ceph"; A "-n"; A "client.admin"; A "-k"; A admin_keyring; A "--cluster";
        A "ceph"; A "auth"; A "ls"].
Proof.
  split; [reflexivity|].
  exact (@generate_cmd_agrees quiet "ceph" "client.admin" [A "ls"] None None
           (or_intror eq_refl)).
Defined.

(** [client.foo], nothing given, and a registry without it. *)
Lemma present_missing_needs_caps_witness :
  2%Z <> 0%Z
  /\ falsy_dict (p_caps present_foo) = true
  /\ @execute quiet present_foo world_refusing
     = (Exit (Fatal "Capabilities must be provided when state is 'present'"),
        @mkState quiet (scripted [] []) [@query_cmd quiet present_foo]).
Proof.
  assert (N : 2%Z <> 0%Z) by discriminate.
  split; [exact N|]. split; [reflexivity|].
  exact (@present_missing_needs_caps quiet present_foo world_refusing (scripted [] [])
           foo_keyring 2 "" _ eq_refl eq_refl eq_refl eq_refl eq_refl N eq_refl).
Defined.

(** [client.foo] with a secret and a capability, and a registry without
    it: the keyring is written with that secret and imported. *)
Lemma present_missing_creates_witness :
  let w := scripted [(2%Z, "", "ENOENT"); (0%Z, "", "creating keyring");
                     (0%Z, "", "imported keyring")] [] in
  let authtool :=
    [A "ceph-authtool"; A "--create-keyring"; A foo_keyring; A "--name";
     A "client.foo"; A "--add-key"; A "AQBsecret=="; A "--cap"; A "mon";
     A "allow r"] in
  let import :=
    [A "ceph"; A "-n"; A "client.admin"; A "-k"; A admin_keyring;
     A "--cluster"; A "ceph"; A "auth"; A "import"; A "-i"; A foo_keyring] in
  2%Z <> 0%Z
  /\ truthy_str (p_secret present_foo_full) = true
  /\ @execute quiet present_foo_full w
     = (Exit (ExitJson (mkResult (Some (CmdList import)) 0 "" "imported keyring"
                          true None)),
        @mkState quiet (scripted [] [])
          [@query_cmd quiet present_foo_full; authtool; import]).
Proof.
  intros w authtool import.
  assert (N : 2%Z <> 0%Z) by discriminate.
  assert (C : [("mon", "allow r")] <> @nil (string * string)) by discriminate.
  split; [exact N|]. split; [reflexivity|].
  exact (@present_missing_creates quiet present_foo_full w
           (scripted [(0%Z, "", "creating keyring"); (0%Z, "", "imported keyring")] [])
           (scripted [(0%Z, "", "imported keyring")] []) (scripted [] [])
           foo_keyring 2 0 0 "" "ENOENT" "" "creating keyring" "" "imported keyring"
           [("mon", "allow r")] authtool
           eq_refl eq_refl eq_refl eq_refl eq_refl N eq_refl C (or_introl eq_refl)
           eq_refl eq_refl eq_refl).
Defined.

(** [client.foo] with the capability [allow rw], the registry holding
    [allow r]. *)
Lemma present_differs_updates_witness :
  let w := scripted [(0%Z, "INFO", ""); (0%Z, "", ""); (0%Z, "", "")] [foo_keyring] in
  Dict.eqb String.eqb [("mon", "allow rw")] [("mon", "allow r")] = false
  /\ truthy_str (resolved_secret present_foo_rw "AQBsecret==") = true
  /\ exists authtool e final rest,
       @execute quiet present_foo_rw w = (Exit e, final)
       /\ trace final = @query_cmd quiet present_foo_rw :: authtool :: rest.
Proof.
  intros w. split; [reflexivity|]. split; [reflexivity|].
  destruct (@present_differs_updates quiet present_foo_rw w
              (scripted [(0%Z, "", ""); (0%Z, "", "")] [foo_keyring]) foo_keyring
              "INFO" "" Test.info_foo "AQBsecret==" [("mon", "allow r")]
              [("mon", "allow rw")] eq_refl eq_refl eq_refl eq_refl eq_refl eq_refl
              eq_refl eq_refl eq_refl (or_intror eq_refl) (or_introl eq_refl))
    as (secret_arg & authtool & e & final & rest & _ & H2 & H3 & _).
  exists authtool, e, final, rest. split; [exact H2 | exact H3].
Defined.

(** [client.foo] with the two capabilities of the registry, the other way
    round. *)
Lemma reordered_caps_are_no_update_witness :
  let w := scripted [(0%Z, "INFO2", "")] [foo_keyring] in
  Dict.wf [("mon", "allow r"); ("osd", "allow rw")]
  /\ Permutation [("osd", "allow rw"); ("mon", "allow r")]
       [("mon", "allow r"); ("osd", "allow rw")]
  /\ exists r final,
       @execute calm present_foo_swapped w = (Exit (ExitJson r), final)
       /\ r_changed r = false
       /\ trace final = [@query_cmd calm present_foo_swapped].
Proof.
  intros w.
  assert (W : Dict.wf [("mon", "allow r"); ("osd", "allow rw")]).
  { unfold Dict.wf. simpl. constructor; [intros [H|[]]; discriminate H|].
    constructor; [intros []|constructor]. }
  assert (P : Permutation [("osd", "allow rw"); ("mon", "allow r")]
                [("mon", "allow r"); ("osd", "allow rw")]) by apply perm_swap.
  split; [exact W|]. split; [exact P|].
  exact (@reordered_caps_are_no_update calm present_foo_swapped w
           (scripted [] [foo_keyring]) foo_keyring "INFO2" "" Test2.info_two
           "AQBsecret==" [("mon", "allow r"); ("osd", "allow rw")]
           [("osd", "allow rw"); ("mon", "allow r")] eq_refl eq_refl eq_refl eq_refl
           eq_refl eq_refl eq_refl eq_refl W (or_introl eq_refl) eq_refl P eq_refl).
Defined.

(** [client.admin] writing its keyring, [ceph-authtool] succeeding. *)
Lemma admin_keyring_only_witness :
  let authtool :=
    [A "ceph-authtool"; A "--create-keyring"; A admin_keyring; A "--name";
     A "client.admin"; A "--add-key"; A "AQBsecret=="; A "--cap"; A "mon";
     A "allow *"] in
  "AQBsecret==" <> ""
  /\ @generate_ceph_authtool_cmd quiet "ceph" (A "client.admin") (A "AQBsecret==")
       (Some [("mon", "allow *")]) admin_keyring None = Ret authtool
  /\ @execute quiet present_admin_no_import world_accepting
     = (Exit (ExitJson (mkResult (Some (CmdList authtool)) 0 "" "updated" true None)),
        @mkState quiet (scripted [] []) [authtool]).
Proof.
  intros authtool.
  assert (N : "AQBsecret==" <> "") by discriminate.
  assert (C : [("mon", "allow *")] <> @nil (string * string)) by discriminate.
  split; [exact N|]. split; [reflexivity|].
  exact (@admin_keyring_only quiet present_admin_no_import world_accepting
           (scripted [] []) admin_keyring "AQBsecret==" [("mon", "allow *")] authtool
           0 "" "updated" eq_refl eq_refl eq_refl eq_refl eq_refl eq_refl N eq_refl C
           eq_refl eq_refl).
Defined.
